(** * AGYC orchestrator: dispatch, routing and session model

    A shallow embedding of [agyc_orchestrator] (config.py,
    sessions/subprocess_session.py, dispatcher.py, api.py).

    - Python objects that can be aliased (the request mapping handed to
      [Dispatcher.submit]) live in an explicit heap.
    - Python dictionaries are insertion-ordered association lists.
    - [float] fields are rationals: time stamps are only compared, and
      every health score the code can produce is a multiple of 1/2 between
      0 and 100, which binary64 represents exactly.
    - The cooperative fibers (router, one worker per account) are program
      counters in the dispatcher state; one event runs one fiber from an
      [await] to the next. *)

From Stdlib Require Import ZArith QArith Qminmax Lqa String Ascii List Lia.
From Stdlib Require Import Sorted Permutation DecimalString.
From stdpp Require Import base option list.

Set Warnings "-register-all".
Set Default Proof Using "Type".
Import ListNotations.

Open Scope string_scope.

(** ** Python runtime: exceptions, values, dictionaries *)
Module Py.

(** The [Exception] subclasses the code raises or can receive from a
    session.  [CancelledError] is a [BaseException] and is not listed:
    no [except Exception] clause catches it. *)
Inductive exn_class :=
| RuntimeError
| NotImplementedError   (* subclass of RuntimeError *)
| TimeoutError          (* asyncio.TimeoutError, subclass of OSError *)
| OSError
| AttributeError
| TypeError
| ValueError.

Record exn := Exn { exn_cls : exn_class; exn_msg : string }.

(** [isinstance(e, RuntimeError)] *)
Definition isinstance_RuntimeError (e : exn) : bool :=
  match exn_cls e with
  | RuntimeError | NotImplementedError => true
  | _ => false
  end.

(** [isinstance(e, asyncio.TimeoutError)] *)
Definition isinstance_TimeoutError (e : exn) : bool :=
  match exn_cls e with
  | TimeoutError => true
  | _ => false
  end.

Inductive result (A : Type) :=
| Ok (a : A)
| Raise (e : exn).
Arguments Ok {A} a.
Arguments Raise {A} e.

Definition bind {A B} (m : result A) (k : A -> result B) : result B :=
  match m with
  | Ok a => k a
  | Raise e => Raise e
  end.

(** A value produced by [json.loads]: a tree without sharing. *)
Inductive json :=
| JNull
| JBool (b : bool)
| JInt (z : Z)
| JFloat (q : Q)
| JStr (s : string)
| JList (l : list json)
| JDict (d : list (string * json)).

(** A value reachable from a caller's request: containers are references
    into the heap. *)
Definition addr := nat.

Inductive value :=
| VNone
| VBool (b : bool)
| VInt (z : Z)
| VFloat (q : Q)
| VStr (s : string)
| VRef (a : addr).

Inductive obj :=
| ODict (d : list (string * value))
| OList (l : list value).

Definition heap := list obj.

(** *** dict operations (insertion order preserved) *)
Section Dict.
Context {V : Type}.

Fixpoint dict_get (d : list (string * V)) (k : string) : option V :=
  match d with
  | [] => None
  | (k', v) :: d' => if String.eqb k' k then Some v else dict_get d' k
  end.

(** [d[k] = v]: an existing key keeps its position. *)
Fixpoint dict_set (d : list (string * V)) (k : string) (v : V)
  : list (string * V) :=
  match d with
  | [] => [(k, v)]
  | (k', v') :: d' =>
      if String.eqb k' k then (k', v) :: d' else (k', v') :: dict_set d' k v
  end.

(** [d.setdefault(k, v)] (the returned value is not used by the code). *)
Definition dict_setdefault (d : list (string * V)) (k : string) (v : V)
  : list (string * V) :=
  match dict_get d k with
  | Some _ => d
  | None => dict_set d k v
  end.

(** [d.update(e)] *)
Definition dict_update (d e : list (string * V)) : list (string * V) :=
  fold_left (fun acc kv => dict_set acc (fst kv) (snd kv)) e d.

(** [dict(pairs)] for a sequence of pairs; later duplicates win. *)
Definition dict_of (e : list (string * V)) : list (string * V) :=
  dict_update [] e.
End Dict.

(** *** truthiness *)
Definition json_truthy (j : json) : bool :=
  match j with
  | JNull => false
  | JBool b => b
  | JInt z => negb (z =? 0)%Z
  | JFloat q => negb (Qeq_bool q 0)
  | JStr s => negb (String.eqb s "")
  | JList l => match l with [] => false | _ => true end
  | JDict d => match d with [] => false | _ => true end
  end.

Definition truthy (h : heap) (v : value) : bool :=
  match v with
  | VNone => false
  | VBool b => b
  | VInt z => negb (z =? 0)%Z
  | VFloat q => negb (Qeq_bool q 0)
  | VStr s => negb (String.eqb s "")
  | VRef a =>
      match h !! a with
      | Some (ODict []) | Some (OList []) => false
      | _ => true
      end
  end.

(** [v.get] exists only on dictionaries. *)
Definition as_dict (h : heap) (v : value) : result (list (string * value)) :=
  match v with
  | VRef a =>
      match h !! a with
      | Some (ODict d) => Ok d
      | _ => Raise (Exn AttributeError "object has no attribute 'get'")
      end
  | _ => Raise (Exn AttributeError "object has no attribute 'get'")
  end.

(** *** [str.lower] on the ASCII letters.  The strategy names it is
    compared with are ASCII and contain no [k], the only ASCII letter
    that is the lower case of a non-ASCII character. *)
Definition lower_ascii (c : ascii) : ascii :=
  let n := nat_of_ascii c in
  if (65 <=? n)%nat && (n <=? 90)%nat then ascii_of_nat (n + 32) else c.

Fixpoint lower (s : string) : string :=
  match s with
  | EmptyString => EmptyString
  | String c s' => String (lower_ascii c) (lower s')
  end.

(** [str(n)] for an [int] *)
Definition str_of_int (z : Z) : string := NilZero.string_of_int (Z.to_int z).

(** *** deep read of a heap value, as [json.dumps] traverses it.
    With [fuel] above the number of heap objects, running out of fuel
    means a reference cycle, for which [json.dumps] raises [ValueError]. *)
Fixpoint snapshot (fuel : nat) (h : heap) (v : value) : option json :=
  match v with
  | VNone => Some JNull
  | VBool b => Some (JBool b)
  | VInt z => Some (JInt z)
  | VFloat q => Some (JFloat q)
  | VStr s => Some (JStr s)
  | VRef a =>
      match fuel with
      | O => None
      | S fuel' =>
          match h !! a with
          | Some (ODict d) =>
              option_map JDict
                (mapM (fun kv => option_map (pair (fst kv))
                                   (snapshot fuel' h (snd kv))) d)
          | Some (OList l) => option_map JList (mapM (snapshot fuel' h) l)
          | None => None
          end
      end
  end.

Definition deep (h : heap) (v : value) : result json :=
  match snapshot (S (length h)) h v with
  | Some j => Ok j
  | None => Raise (Exn ValueError "Circular reference detected")
  end.

End Py.
Export Py.

Notation "'let!' x ':=' m 'in' k" := (Py.bind m (fun x => k))
  (at level 10, x name, m at level 100, k at level 200).

(** ** Library functions the code calls (json, codecs, os.path, str) *)
Class Platform := {
  json_loads : string -> option json;        (* None: json.loads raises *)
  json_dumps : json -> string;
  utf8_decode : string -> option string;     (* bytes.decode("utf-8") *)
  utf8_decode_replace : string -> string;    (* errors="replace" *)
  expanduser : string -> string;             (* os.path.expanduser *)
  str_strip : string -> string;              (* str.strip *)
  repr_json : json -> string;                (* repr of floats, containers *)
  int_of_str : string -> option Z            (* int(s); None: ValueError *)
}.

(** ** config.py *)
Module Config.

Record AccountConfig := {
  id : string;
  state_dir : string;
  start_command : option (list json);
  health_command : option (list json);
  task_command : option (list json);
  env : list (string * string);
  max_concurrency : Z
}.

Record DispatcherConfig := {
  routing : string;
  global_queue_size : Z;
  per_account_queue_size : Z;
  task_timeout_seconds : Z;
  health_check_interval_seconds : Z
}.

Definition default_DispatcherConfig : DispatcherConfig :=
  {| routing := "round-robin";
     global_queue_size := 200;
     per_account_queue_size := 50;
     task_timeout_seconds := 600;
     health_check_interval_seconds := 10 |}.

Record ServerConfig := {
  host : string;
  port : Z
}.

Record OrchestratorConfig := {
  server : ServerConfig;
  dispatcher : DispatcherConfig;
  accounts : list AccountConfig
}.

Section Load.
Context `{Platform}.

(** [str(v)] *)
Definition py_str (v : json) : string :=
  match v with
  | JStr s => s
  | JInt z => str_of_int z
  | JNull => "None"
  | JBool true => "True"
  | JBool false => "False"
  | _ => repr_json v
  end.

(** [int(v)] *)
Definition py_int (v : json) : result Z :=
  match v with
  | JInt z => Ok z
  | JBool b => Ok (if b then 1 else 0)%Z
  | JFloat q => Ok (Z.quot (Qnum q) (Z.pos (Qden q)))
  | JStr s =>
      match int_of_str s with
      | Some z => Ok z
      | None => Raise (Exn ValueError "invalid literal for int()")
      end
  | _ => Raise (Exn TypeError "int() argument must be a string or a number")
  end.

(** [list(a.get(key) or []) or None].  A string is iterated by
    character; this model splits it by byte, which is the same for
    ASCII. *)
Definition command_of (a : list (string * json)) (key : string)
  : result (option (list json)) :=
  let v := default JNull (dict_get a key) in
  if json_truthy v then
    match v with
    | JList l => Ok (Some l)
    | JDict d => Ok (Some (map (fun kv => JStr (fst kv)) d))
    | JStr s =>
        Ok (Some (map (fun c => JStr (String c EmptyString))
                      (list_ascii_of_string s)))
    | _ => Raise (Exn TypeError "object is not iterable")
    end
  else Ok None.

(** [{str(k): str(v) for k, v in (a.get("env") or {}).items()}] *)
Definition env_of (a : list (string * json))
  : result (list (string * string)) :=
  let v := default JNull (dict_get a "env") in
  if json_truthy v then
    match v with
    | JDict d => Ok (dict_of (map (fun kv => (fst kv, py_str (snd kv))) d))
    | _ => Raise (Exn AttributeError "object has no attribute 'items'")
    end
  else Ok [].

(** The body of the [for a in accounts_raw] loop of [load_config]. *)
Definition load_account (a : json) : result AccountConfig :=
  match a with
  | JDict a =>
      let account_id := str_strip (py_str (default (JStr "") (dict_get a "id"))) in
      if String.eqb account_id "" then
        Raise (Exn ValueError "Account id is required")
      else
        let state_dir :=
          str_strip (py_str (default (JStr "") (dict_get a "stateDir"))) in
        if String.eqb state_dir "" then
          Raise (Exn ValueError ("Account " ++ account_id ++ " stateDir is required"))
        else
          let! env := env_of a in
          let env := dict_setdefault env "AG_CONFIG_DIR" state_dir in
          let! start := command_of a "startCommand" in
          let! health := command_of a "healthCommand" in
          let! task := command_of a "taskCommand" in
          let! mc := py_int (default (JInt 1) (dict_get a "maxConcurrency")) in
          Ok {| id := account_id;
                state_dir := expanduser state_dir;
                start_command := start;
                health_command := health;
                task_command := task;
                env := env;
                max_concurrency := Z.max 1 mc |}
  | _ => Raise (Exn ValueError "Each account must be an object")
  end.

(** *** [load_config], from the parsed document on (line 65).  The file
    checks and the YAML branch come before and are not modelled. *)

(** [raw.get(key, {}) or {}], as the [.get] calls that follow use it. *)
Definition section (raw : list (string * json)) (key : string)
  : result (list (string * json)) :=
  let v := default (JDict []) (dict_get raw key) in
  if json_truthy v then
    match v with
    | JDict d => Ok d
    | _ => Raise (Exn AttributeError "object has no attribute 'get'")
    end
  else Ok [].

(** What [for a in accounts_raw] iterates over. *)
Definition accounts_items (raw : list (string * json)) : result (list json) :=
  let v := default (JList []) (dict_get raw "accounts") in
  if json_truthy v then
    match v with
    | JList l => Ok l
    | JDict d => Ok (map (fun kv => JStr (fst kv)) d)
    | JStr s =>
        Ok (map (fun c => JStr (String c EmptyString)) (list_ascii_of_string s))
    | _ => Raise (Exn TypeError "object is not iterable")
    end
  else Ok [].

(** The [for] loop: it stops at the first account that is refused. *)
Fixpoint load_accounts (l : list json) : result (list AccountConfig) :=
  match l with
  | [] => Ok []
  | a :: rest =>
      let! c := load_account a in
      let! cs := load_accounts rest in
      Ok (c :: cs)
  end.

Definition load_config (raw : json) : result OrchestratorConfig :=
  match raw with
  | JDict raw =>
      let! server_raw := section raw "server" in
      let host := py_str (default (JStr "127.0.0.1") (dict_get server_raw "host")) in
      let! port := py_int (default (JInt 8088) (dict_get server_raw "port")) in
      let! disp_raw := section raw "dispatcher" in
      let routing :=
        py_str (default (JStr (routing default_DispatcherConfig))
                  (dict_get disp_raw "routing")) in
      let! gqs :=
        py_int (default (JInt (global_queue_size default_DispatcherConfig))
                  (dict_get disp_raw "globalQueueSize")) in
      let! paqs :=
        py_int (default (JInt (per_account_queue_size default_DispatcherConfig))
                  (dict_get disp_raw "perAccountQueueSize")) in
      let! tts :=
        py_int (default (JInt (task_timeout_seconds default_DispatcherConfig))
                  (dict_get disp_raw "taskTimeoutSeconds")) in
      let! hcis :=
        py_int (default (JInt (health_check_interval_seconds default_DispatcherConfig))
                  (dict_get disp_raw "healthCheckIntervalSeconds")) in
      let! items := accounts_items raw in
      let! accounts := load_accounts items in
      match accounts with
      | [] => Raise (Exn ValueError "Config must contain at least one account")
      | _ =>
          Ok {| server := {| host := host; port := port |};
                dispatcher :=
                  {| routing := routing;
                     global_queue_size := gqs;
                     per_account_queue_size := paqs;
                     task_timeout_seconds := tts;
                     health_check_interval_seconds := hcis |};
                accounts := accounts |}
      end
  | _ => Raise (Exn AttributeError "object has no attribute 'get'")
  end.
End Load.

End Config.

(** ** sessions/subprocess_session.py *)
Module SubprocessSession.
Import Config.

(** What [asyncio.create_subprocess_exec] is called with. *)
Record Spawn := {
  argv : list json;
  spawn_env : list (string * string);
  stdin : option string         (* None: DEVNULL *)
}.

(** What the operating system answers. *)
Record Completed := {
  returncode : Z;
  stdout : string;              (* empty when not piped *)
  stderr : string
}.

Inductive spawn_result :=
| SpawnError (e : exn)          (* the exec itself raised *)
| Exited (c : Completed).

Definition _env (environ : list (string * string)) (cfg : AccountConfig)
  : list (string * string) :=
  let env := environ in
  let env := dict_update env (Config.env cfg) in
  dict_setdefault env "AG_CONFIG_DIR" (state_dir cfg).

Definition command_set (c : option (list json)) : option (list json) :=
  match c with
  | Some (x :: l) => Some (x :: l)
  | _ => None
  end.

(** [start]: the spawn it performs, if any ([live]: a child is running). *)
Definition start (environ : list (string * string)) (cfg : AccountConfig)
    (live : bool) : option Spawn :=
  match command_set (start_command cfg) with
  | None => None
  | Some cmd =>
      if live then None
      else Some {| argv := cmd; spawn_env := _env environ cfg; stdin := None |}
  end.

Definition _run_command_ok (environ : list (string * string))
    (cfg : AccountConfig) (cmd : list json) (os : Spawn -> spawn_result)
  : result bool :=
  match os {| argv := cmd; spawn_env := _env environ cfg; stdin := None |} with
  | SpawnError e => Raise e
  | Exited c => Ok (returncode c =? 0)%Z
  end.

Definition is_healthy (environ : list (string * string))
    (cfg : AccountConfig) (live : bool) (os : Spawn -> spawn_result)
  : result bool :=
  match command_set (start_command cfg) with
  | Some _ =>
      if live then
        match command_set (health_command cfg) with
        | Some cmd => _run_command_ok environ cfg cmd os
        | None => Ok true
        end
      else Ok false
  | None =>
      match command_set (health_command cfg) with
      | Some cmd => _run_command_ok environ cfg cmd os
      | None => Ok true
      end
  end.

Section RunTask.
Context `{Platform}.

Definition task_spawn (environ : list (string * string))
    (cfg : AccountConfig) (cmd : list json) (request : json) : Spawn :=
  {| argv := cmd;
     spawn_env := _env environ cfg;
     stdin := Some (json_dumps request) |}.

Definition run_task (environ : list (string * string))
    (cfg : AccountConfig) (request : json) (os : Spawn -> spawn_result)
  : result json :=
  match command_set (task_command cfg) with
  | None =>
      Raise (Exn RuntimeError
               ("Account " ++ id cfg ++ " has no taskCommand configured"))
  | Some cmd =>
      match os (task_spawn environ cfg cmd request) with
      | SpawnError e => Raise e
      | Exited c =>
          if negb (returncode c =? 0)%Z then
            Raise (Exn RuntimeError
                     ("taskCommand failed for " ++ id cfg ++ " rc="
                        ++ str_of_int (returncode c) ++ ": "
                        ++ utf8_decode_replace (stderr c)))
          else
            match utf8_decode (stdout c) with
            | Some text =>
                match json_loads text with
                | Some j => Ok j
                | None => Ok (JDict [("raw", JStr (utf8_decode_replace (stdout c)))])
                end
            | None => Ok (JDict [("raw", JStr (utf8_decode_replace (stdout c)))])
            end
      end
  end.
(** The stdout of a command parses as the JSON value [j]: it decodes as
    UTF-8 and [json.loads] accepts the text. *)
Definition parses_as (c : Completed) (j : json) : Prop :=
  exists text, utf8_decode (stdout c) = Some text /\ json_loads text = Some j.

(** The stdout of a command is not valid JSON. *)
Definition not_json (c : Completed) : Prop :=
  forall text, utf8_decode (stdout c) = Some text -> json_loads text = None.
End RunTask.

End SubprocessSession.

(** ** session_manager.py *)
Module SessionManager.

(** The dispatcher's view of a session; the [IDESession] behind it is
    the [SubprocessSession] of [session]. *)
Record SessionHandle := {
  account_id : string;
  session : Config.AccountConfig;
  max_concurrency : Z
}.

(** The [_sessions] dictionary after the loop of [start_all]. *)
Definition start_all (accounts : list Config.AccountConfig)
  : list (string * SessionHandle) :=
  fold_left
    (fun sessions a =>
       dict_set sessions (Config.id a)
         {| account_id := Config.id a;
            session := a;
            max_concurrency := Config.max_concurrency a |})
    accounts [].

End SessionManager.

(** ** dispatcher.py *)
Module Dispatcher.
Export SessionManager.
Local Open Scope list_scope.

(** [latency_ms_total] is a sum of rounded floats that no routing or
    scoring decision reads: it is left out. *)
Record AccountMetrics := {
  tasks_total : Z;
  errors_total : Z;
  last_success_ts : option Q;
  last_error_ts : option Q
}.

Record TaskItem := {
  request : addr;          (* the dict built by [dict(request)] *)
  future : nat;            (* index of the asyncio.Future *)
  created_ts : Q;
  task_id : string
}.

Record AccountState := {
  handle : SessionHandle;
  queue : list TaskItem;
  semaphore : Z;           (* free permits *)
  last_used_ts : Q;
  health_score : Q;
  inflight : Z;
  metrics : AccountMetrics
}.

Definition with_queue (q : list TaskItem) (a : AccountState) : AccountState :=
  {| handle := handle a; queue := q; semaphore := semaphore a;
     last_used_ts := last_used_ts a; health_score := health_score a;
     inflight := inflight a; metrics := metrics a |}.

Definition with_semaphore (n : Z) (a : AccountState) : AccountState :=
  {| handle := handle a; queue := queue a; semaphore := n;
     last_used_ts := last_used_ts a; health_score := health_score a;
     inflight := inflight a; metrics := metrics a |}.

Definition with_last_used_ts (t : Q) (a : AccountState) : AccountState :=
  {| handle := handle a; queue := queue a; semaphore := semaphore a;
     last_used_ts := t; health_score := health_score a;
     inflight := inflight a; metrics := metrics a |}.

Definition with_health_score (h : Q) (a : AccountState) : AccountState :=
  {| handle := handle a; queue := queue a; semaphore := semaphore a;
     last_used_ts := last_used_ts a; health_score := h;
     inflight := inflight a; metrics := metrics a |}.

Definition with_inflight (n : Z) (a : AccountState) : AccountState :=
  {| handle := handle a; queue := queue a; semaphore := semaphore a;
     last_used_ts := last_used_ts a; health_score := health_score a;
     inflight := n; metrics := metrics a |}.

Definition with_metrics (m : AccountMetrics) (a : AccountState) : AccountState :=
  {| handle := handle a; queue := queue a; semaphore := semaphore a;
     last_used_ts := last_used_ts a; health_score := health_score a;
     inflight := inflight a; metrics := m |}.

(** The state of an [asyncio.Future]. *)
Inductive FutureState :=
| Pending
| Result (r : json)
| Exception (e : exn)
| Cancelled.

Definition done (f : FutureState) : bool :=
  match f with Pending => false | _ => true end.

(** Where the router coroutine is suspended. *)
Inductive RouterPc :=
| RGet                                   (* await self._global_queue.get() *)
| RPick (item : TaskItem) (hint : value) (* after a sleep, at the head of the inner loop *)
| RWait (item : TaskItem) (hint : value) (* await wait_for(capacity_event.wait(), 1.0) *)
| RDone                                  (* the coroutine returned *)
| RFailed (e : exn).                     (* the coroutine raised *)

(** Where an account's worker coroutine is suspended. *)
Inductive WorkerPc :=
| WGet                                               (* await acc.queue.get() *)
| WAcquire (item : TaskItem) (start : Q)             (* await acc.semaphore.acquire() *)
| WRunning (item : TaskItem) (start : Q) (req : addr). (* await wait_for(run_task(req)) *)

(** History of the code points the statements are about (not program
    state): each [set_result]/[set_exception] call and each health-score
    assignment. *)
Inductive Obs :=
| Fulfilled (fut : nat) (by_account : string) (o : FutureState)
| TaskSuccess (k : string)        (* dispatcher.py line 166 *)
| TaskFailure (k : string)        (* line 175 *)
| QueueFullMiss (k : string).     (* line 142 *)

Record Dispatcher := {
  _cfg : Config.DispatcherConfig;
  _global_queue : list TaskItem;
  _accounts : list (string * AccountState);
  _router_task : option RouterPc;
  _workers : list (string * WorkerPc);
  _stop_event : bool;
  _rr_cursor : Z;
  _capacity_event : bool;
  (* the interpreter state shared with the callers *)
  mem : heap;
  owned : list addr;                (* objects only the dispatcher reaches *)
  futures : list FutureState;
  log : list Obs
}.

Definition set_global_queue (q : list TaskItem) (d : Dispatcher) : Dispatcher :=
  {| _cfg := _cfg d; _global_queue := q; _accounts := _accounts d;
     _router_task := _router_task d; _workers := _workers d;
     _stop_event := _stop_event d; _rr_cursor := _rr_cursor d;
     _capacity_event := _capacity_event d; mem := mem d; owned := owned d;
     futures := futures d; log := log d |}.

Definition set_accounts (a : list (string * AccountState)) (d : Dispatcher) : Dispatcher :=
  {| _cfg := _cfg d; _global_queue := _global_queue d; _accounts := a;
     _router_task := _router_task d; _workers := _workers d;
     _stop_event := _stop_event d; _rr_cursor := _rr_cursor d;
     _capacity_event := _capacity_event d; mem := mem d; owned := owned d;
     futures := futures d; log := log d |}.

Definition set_router_task (r : option RouterPc) (d : Dispatcher) : Dispatcher :=
  {| _cfg := _cfg d; _global_queue := _global_queue d; _accounts := _accounts d;
     _router_task := r; _workers := _workers d;
     _stop_event := _stop_event d; _rr_cursor := _rr_cursor d;
     _capacity_event := _capacity_event d; mem := mem d; owned := owned d;
     futures := futures d; log := log d |}.

Definition set_workers (w : list (string * WorkerPc)) (d : Dispatcher) : Dispatcher :=
  {| _cfg := _cfg d; _global_queue := _global_queue d; _accounts := _accounts d;
     _router_task := _router_task d; _workers := w;
     _stop_event := _stop_event d; _rr_cursor := _rr_cursor d;
     _capacity_event := _capacity_event d; mem := mem d; owned := owned d;
     futures := futures d; log := log d |}.

Definition set_stop_event (b : bool) (d : Dispatcher) : Dispatcher :=
  {| _cfg := _cfg d; _global_queue := _global_queue d; _accounts := _accounts d;
     _router_task := _router_task d; _workers := _workers d;
     _stop_event := b; _rr_cursor := _rr_cursor d;
     _capacity_event := _capacity_event d; mem := mem d; owned := owned d;
     futures := futures d; log := log d |}.

Definition set_rr_cursor (c : Z) (d : Dispatcher) : Dispatcher :=
  {| _cfg := _cfg d; _global_queue := _global_queue d; _accounts := _accounts d;
     _router_task := _router_task d; _workers := _workers d;
     _stop_event := _stop_event d; _rr_cursor := c;
     _capacity_event := _capacity_event d; mem := mem d; owned := owned d;
     futures := futures d; log := log d |}.

Definition set_capacity_event (b : bool) (d : Dispatcher) : Dispatcher :=
  {| _cfg := _cfg d; _global_queue := _global_queue d; _accounts := _accounts d;
     _router_task := _router_task d; _workers := _workers d;
     _stop_event := _stop_event d; _rr_cursor := _rr_cursor d;
     _capacity_event := b; mem := mem d; owned := owned d;
     futures := futures d; log := log d |}.

Definition set_mem (m : heap) (o : list addr) (d : Dispatcher) : Dispatcher :=
  {| _cfg := _cfg d; _global_queue := _global_queue d; _accounts := _accounts d;
     _router_task := _router_task d; _workers := _workers d;
     _stop_event := _stop_event d; _rr_cursor := _rr_cursor d;
     _capacity_event := _capacity_event d; mem := m; owned := o;
     futures := futures d; log := log d |}.

Definition set_futures (f : list FutureState) (d : Dispatcher) : Dispatcher :=
  {| _cfg := _cfg d; _global_queue := _global_queue d; _accounts := _accounts d;
     _router_task := _router_task d; _workers := _workers d;
     _stop_event := _stop_event d; _rr_cursor := _rr_cursor d;
     _capacity_event := _capacity_event d; mem := mem d; owned := owned d;
     futures := f; log := log d |}.

Definition add_log (o : Obs) (d : Dispatcher) : Dispatcher :=
  {| _cfg := _cfg d; _global_queue := _global_queue d; _accounts := _accounts d;
     _router_task := _router_task d; _workers := _workers d;
     _stop_event := _stop_event d; _rr_cursor := _rr_cursor d;
     _capacity_event := _capacity_event d; mem := mem d; owned := owned d;
     futures := futures d; log := log d ++ [o] |}.

(** Apply [f] to the account stored under key [k]. *)
Definition on_key (k : string) (f : AccountState -> AccountState)
    (ka : string * AccountState) : string * AccountState :=
  if String.eqb (fst ka) k then (fst ka, f (snd ka)) else ka.

Definition update_account (k : string) (f : AccountState -> AccountState)
    (d : Dispatcher) : Dispatcher :=
  set_accounts (map (on_key k f) (_accounts d)) d.

Definition set_worker (k : string) (pc : WorkerPc) (d : Dispatcher) : Dispatcher :=
  set_workers (dict_set (_workers d) k pc) d.

(** *** [Dispatcher.__init__] *)
Definition new_account (h : SessionHandle) : AccountState :=
  {| handle := h; queue := []; semaphore := max_concurrency h;
     last_used_ts := 0; health_score := 100; inflight := 0;
     metrics := {| tasks_total := 0; errors_total := 0;
                   last_success_ts := None; last_error_ts := None |} |}.

(** [asyncio.Semaphore(n)] raises [ValueError] for a negative [n]. *)
Fixpoint init_accounts (sessions : list (string * SessionHandle))
    (acc : list (string * AccountState))
  : result (list (string * AccountState)) :=
  match sessions with
  | [] => Ok acc
  | (k, h) :: rest =>
      if (max_concurrency h <? 0)%Z then
        Raise (Exn ValueError "Semaphore initial value must be >= 0")
      else init_accounts rest (dict_set acc k (new_account h))
  end.

Definition init (cfg : Config.DispatcherConfig)
    (sessions : list (string * SessionHandle)) (m : heap)
  : result Dispatcher :=
  let! accounts := init_accounts sessions [] in
  Ok {| _cfg := cfg; _global_queue := []; _accounts := accounts;
        _router_task := None; _workers := [];
        _stop_event := false; _rr_cursor := 0; _capacity_event := false;
        mem := m; owned := []; futures := []; log := [] |}.

(** A bounded [asyncio.Queue]; [maxsize <= 0] means unbounded. *)
Definition queue_full (maxsize : Z) (q : list TaskItem) : bool :=
  if (maxsize <=? 0)%Z then false else (maxsize <=? Z.of_nat (length q))%Z.

(** *** [Dispatcher.submit], up to [await fut].
    [hex12] is [uuid.uuid4().hex[:12]], [now] is [time.time()].  The
    signature asks for a mapping; for anything else the model raises
    [TypeError]. *)
Definition submit (request : addr) (now : Q) (hex12 : string)
    (d : Dispatcher) : result (TaskItem * Dispatcher) :=
  if queue_full (Config.global_queue_size (_cfg d)) (_global_queue d) then
    Raise (Exn RuntimeError "Global queue is full")
  else
    match mem d !! request with
    | Some (ODict entries) =>
        let copy := length (mem d) in            (* dict(request) *)
        let item := {| request := copy;
                       future := length (futures d);
                       created_ts := now;
                       task_id := ("task_" ++ hex12)%string |} in
        Ok (item,
            set_global_queue (_global_queue d ++ [item])
              (set_futures (futures d ++ [Pending])
                 (set_mem (mem d ++ [ODict entries]) (copy :: owned d) d)))
    | _ => Raise (Exn TypeError "object is not a mapping")
    end.

(** *** routing *)
Definition Qlt_bool (x y : Q) : bool := negb (Qle_bool y x).

Definition usable (a : AccountState) : bool := Qlt_bool 0 (health_score a).

Definition _usable_accounts (d : Dispatcher) : list (string * AccountState) :=
  List.filter (fun ka => usable (snd ka)) (_accounts d).

(** [min(l, key=...)] and [max(l, key=...)]: the first extremal element
    in iteration order. *)
Fixpoint min_by {A} (key : A -> Q) (best : A) (l : list A) : A :=
  match l with
  | [] => best
  | x :: l' => min_by key (if Qlt_bool (key x) (key best) then x else best) l'
  end.

Fixpoint max_by {A} (key : A -> Q) (best : A) (l : list A) : A :=
  match l with
  | [] => best
  | x :: l' => max_by key (if Qlt_bool (key best) (key x) then x else best) l'
  end.

(** [sorted(l, key=lambda a: a.handle.account_id)]: a stable sort,
    written as insertion from the right.  Python compares strings by code
    point, which is the byte order of their UTF-8 encodings. *)
Definition id_of (ka : string * AccountState) : string :=
  account_id (handle (snd ka)).

Fixpoint insert_by_id (x : string * AccountState)
    (l : list (string * AccountState)) : list (string * AccountState) :=
  match l with
  | [] => [x]
  | y :: l' =>
      if String.leb (id_of x) (id_of y) then x :: l else y :: insert_by_id x l'
  end.

Definition sorted_by_id (l : list (string * AccountState))
  : list (string * AccountState) :=
  fold_right insert_by_id [] l.

Definition lru_names : list string :=
  ["lru"; "least-recently-used"; "least_recently_used"].
Definition health_names : list string :=
  ["health"; "health-score"; "health_score"].

Definition str_in (s : string) (l : list string) : bool :=
  existsb (String.eqb s) l.

(** [(hint or self._cfg.routing or "round-robin").lower()] *)
Definition strategy_of (h : heap) (cfg : Config.DispatcherConfig)
    (hint : value) : result string :=
  if truthy h hint then
    match hint with
    | VStr s => Ok (lower s)
    | _ => Raise (Exn AttributeError "object has no attribute 'lower'")
    end
  else if negb (String.eqb (Config.routing cfg) "") then
    Ok (lower (Config.routing cfg))
  else Ok (lower "round-robin").

(** [_pick_account]: the key of the chosen account, and the dispatcher
    with its cursor advanced. *)
Definition _pick_account (hint : value) (d : Dispatcher)
  : result (option string * Dispatcher) :=
  let! strategy := strategy_of (mem d) (_cfg d) hint in
  match _usable_accounts d with
  | [] => Ok (None, d)
  | u :: us =>
      if str_in strategy lru_names then
        Ok (Some (fst (min_by (fun ka => last_used_ts (snd ka)) u us)), d)
      else if str_in strategy health_names then
        Ok (Some (fst (max_by (fun ka => health_score (snd ka)) u us)), d)
      else
        let ordered := sorted_by_id (u :: us) in
        let n := Z.of_nat (length ordered) in
        let cursor := (_rr_cursor d mod n)%Z in
        let chosen := nth (Z.to_nat cursor) ordered u in
        Ok (Some (fst chosen), set_rr_cursor ((cursor + 1) mod n)%Z d)
  end.

(** [(item.request.get("metadata") or {}).get("routing", {}).get("strategyHint")] *)
Definition get_hint (h : heap) (request : addr) : result value :=
  let! req := as_dict h (VRef request) in
  let metadata := default VNone (dict_get req "metadata") in
  let! md := (if truthy h metadata then as_dict h metadata else Ok []) in
  let! routing :=
    match dict_get md "routing" with
    | Some r => as_dict h r
    | None => Ok []
    end in
  Ok (default VNone (dict_get routing "strategyHint")).

(** *** [_router_loop]: one pass of the inner [while], from its head to
    the next [await] or to the [break]. *)
Definition router_place (item : TaskItem) (hint : value) (d : Dispatcher)
  : Dispatcher :=
  if _stop_event d then set_router_task (Some RDone) d
  else
    match _pick_account hint d with
    | Raise e => set_router_task (Some (RFailed e)) d
    | Ok (None, d) =>
        set_router_task (Some (RPick item hint)) d      (* sleep(0.1) *)
    | Ok (Some k, d) =>
        match dict_get (_accounts d) k with
        | None => d
        | Some acc =>
            if (max_concurrency (handle acc) <=? inflight acc)%Z then
              set_router_task (Some (RWait item hint))
                (set_capacity_event false d)
            else if queue_full (Config.per_account_queue_size (_cfg d))
                      (queue acc) then
              (* except asyncio.QueueFull *)
              set_router_task (Some (RPick item hint))  (* sleep(0) *)
                (add_log (QueueFullMiss k)
                   (update_account k
                      (fun a => with_health_score
                                  (Qmax 0 (health_score a - 1)) a) d))
            else
              (* put_nowait; break; task_done; back to queue.get() *)
              set_router_task (Some RGet)
                (update_account k (fun a => with_queue (queue a ++ [item]) a) d)
        end
    end.

(** The router runs from where it is suspended. *)
Definition router_step (d : Dispatcher) : Dispatcher :=
  match _router_task d with
  | Some RGet =>
      match _global_queue d with
      | [] => d
      | item :: q =>
          let d := set_global_queue q d in
          match get_hint (mem d) (request item) with
          | Raise e => set_router_task (Some (RFailed e)) d
          | Ok hint => router_place item hint d
          end
      end
  | Some (RPick item hint) => router_place item hint d
  | Some (RWait item hint) =>
      if _capacity_event d then router_place item hint d else d
  | _ => d
  end.

(** The 1 s timeout of [wait_for] expires before the event is set. *)
Definition capacity_timeout (d : Dispatcher) : Dispatcher :=
  match _router_task d with
  | Some (RWait item hint) =>
      if _capacity_event d then d
      else set_router_task
             (Some (RFailed (Exn TimeoutError ""))) d
  | _ => d
  end.

(** *** [_account_worker] *)

(** [if not item.future.done(): item.future.set_...(o)] *)
Definition fulfil (k : string) (fut : nat) (o : FutureState) (d : Dispatcher)
  : Dispatcher :=
  match futures d !! fut with
  | Some Pending =>
      add_log (Fulfilled fut k o) (set_futures (<[fut := o]> (futures d)) d)
  | _ => d
  end.

(** Lines 170-171: [result.setdefault("metadata", {})], then
    [result["metadata"] = {**(result.get("metadata") or {}), "account_id": id}]. *)
Definition inject_account_id (acc_id : string) (r : json) : result json :=
  match r with
  | JDict r =>
      let r := dict_setdefault r "metadata" (JDict []) in
      let md := default JNull (dict_get r "metadata") in
      let! base :=
        (if json_truthy md then
           match md with
           | JDict m => Ok m
           | _ => Raise (Exn TypeError "object is not a mapping")
           end
         else Ok []) in
      Ok (JDict (dict_set r "metadata"
                   (JDict (dict_set base "account_id" (JStr acc_id)))))
  | _ => Raise (Exn AttributeError "object has no attribute 'setdefault'")
  end.

(** The inner [finally]: [acc.inflight -= 1; acc.semaphore.release()]. *)
Definition release (a : AccountState) : AccountState :=
  with_semaphore (semaphore a + 1) (with_inflight (inflight a - 1) a).

(** The [except Exception as e] branch; [now] is its [time.time()]. *)
Definition worker_except (k : string) (item : TaskItem) (e : exn) (now : Q)
    (d : Dispatcher) : Dispatcher :=
  let d :=
    update_account k
      (fun a =>
         with_metrics
           {| tasks_total := tasks_total (metrics a);
              errors_total := errors_total (metrics a) + 1;
              last_success_ts := last_success_ts (metrics a);
              last_error_ts := Some now |}
           (with_health_score (Qmax 0 (health_score a - 5)) a)) d in
  fulfil k (future item) (Exception e) (add_log (TaskFailure k) d).

(** The outer [finally] ([task_done] only counts), then the loop head
    and [await acc.queue.get()]. *)
Definition worker_finally (k : string) (d : Dispatcher) : Dispatcher :=
  set_worker k WGet (set_capacity_event true d).

(** The readings of [time.time()] on lines 165, 169 and 177. *)
Record Clock := { t_used : Q; t_success : Q; t_error : Q }.

(** The worker of account [k] gets an item ([now]: line 151), acquires
    the permit and calls [run_task] on its copy of the request. *)
Definition worker_take (k : string) (now : Q) (d : Dispatcher) : Dispatcher :=
  match dict_get (_workers d) k, dict_get (_accounts d) k with
  | Some WGet, Some acc =>
      match queue acc with
      | [] => d
      | item :: q =>
          let d := update_account k (with_queue q) d in
          if (0 <? semaphore acc)%Z then
            let d :=
              update_account k
                (fun a => with_inflight (inflight a + 1)
                            (with_semaphore (semaphore a - 1) a)) d in
            match mem d !! request item with
            | Some (ODict entries) =>
                let req := length (mem d) in
                set_worker k (WRunning item now req)
                  (set_mem
                     (mem d ++ [ODict (dict_set entries "account_id"
                                         (VStr (account_id (handle acc))))])
                     (req :: owned d) d)
            | _ =>
                worker_finally k
                  (worker_except k item
                     (Exn TypeError "object is not a mapping") now
                     (update_account k release d))
            end
          else set_worker k (WAcquire item now) d
      end
  | _, _ => d
  end.

(** [run_task] under [wait_for] ends with [outcome] (a timeout is
    [Raise] of a [TimeoutError]). *)
Definition worker_done (k : string) (outcome : result json) (c : Clock)
    (d : Dispatcher) : Dispatcher :=
  match dict_get (_workers d) k, dict_get (_accounts d) k with
  | Some (WRunning item start req), Some acc =>
      let d := update_account k release d in
      match outcome with
      | Ok r =>
          let d :=
            update_account k
              (fun a =>
                 with_metrics
                   {| tasks_total := tasks_total (metrics a) + 1;
                      errors_total := errors_total (metrics a);
                      last_success_ts := Some (t_success c);
                      last_error_ts := last_error_ts (metrics a) |}
                   (with_health_score (Qmin 100 (health_score a + (1 # 2)))
                      (with_last_used_ts (t_used c) a))) d in
          let d := add_log (TaskSuccess k) d in
          match inject_account_id (account_id (handle acc)) r with
          | Ok r' => worker_finally k (fulfil k (future item) (Result r') d)
          | Raise e => worker_finally k (worker_except k item e (t_error c) d)
          end
      | Raise e => worker_finally k (worker_except k item e (t_error c) d)
      end
  | _, _ => d
  end.

(** *** [start] and [stop] *)

(** [start] on a dispatcher without fibers (a second [start] without a
    [stop] would duplicate them and is not modelled). *)
Definition start (d : Dispatcher) : Dispatcher :=
  match _router_task d, _workers d with
  | None, [] =>
      set_workers (map (fun ka => (fst ka, WGet)) (_accounts d))
        (set_router_task (Some RGet) (set_stop_event false d))
  | _, _ => d
  end.

(** What [CancelledError] does in a worker: it is not an [Exception], so
    only the [finally] blocks run. *)
Definition cancel_worker (d : Dispatcher) (kw : string * WorkerPc) : Dispatcher :=
  match snd kw with
  | WGet => d
  | WAcquire _ _ => set_capacity_event true d
  | WRunning _ _ _ =>
      set_capacity_event true (update_account (fst kw) release d)
  end.

Definition stop (d : Dispatcher) : Dispatcher :=
  let d := set_stop_event true d in
  let d := fold_left cancel_worker (_workers d) d in
  set_workers [] (set_router_task None d).

(** *** the events of a run *)
Inductive Event :=
| EvStart
| EvStop
| EvSubmit (request : addr) (now : Q) (hex12 : string)
| EvRouter
| EvCapacityTimeout
| EvWorkerTake (k : string) (now : Q)
| EvWorkerDone (k : string) (outcome : result json) (c : Clock)
| EvCallerMutate (a : addr) (o : obj)   (* the caller writes one of its objects *)
| EvCallerAlloc (o : obj)
| EvCallerCancel (fut : nat).           (* the awaiting caller is cancelled *)

Definition step (d : Dispatcher) (e : Event) : Dispatcher :=
  match e with
  | EvStart => start d
  | EvStop => stop d
  | EvSubmit request now hex12 =>
      match submit request now hex12 d with
      | Ok (_, d') => d'
      | Raise _ => d
      end
  | EvRouter => router_step d
  | EvCapacityTimeout => capacity_timeout d
  | EvWorkerTake k now => worker_take k now d
  | EvWorkerDone k outcome c => worker_done k outcome c d
  | EvCallerMutate a o =>
      if existsb (Nat.eqb a) (owned d) then d
      else set_mem (<[a := o]> (mem d)) (owned d) d
  | EvCallerAlloc o => set_mem (mem d ++ [o]) (owned d) d
  | EvCallerCancel fut =>
      match futures d !! fut with
      | Some Pending => set_futures (<[fut := Cancelled]> (futures d)) d
      | _ => d
      end
  end.

Definition run (d : Dispatcher) (evs : list Event) : Dispatcher :=
  fold_left step evs d.

(** *** reading the history *)

(** The futures that were fulfilled, and the accounts that served them,
    in order. *)
Definition fulfilled (l : list Obs) : list nat :=
  flat_map (fun o => match o with Fulfilled fut _ _ => [fut] | _ => [] end) l.

Definition served_by (l : list Obs) : list string :=
  flat_map (fun o => match o with Fulfilled _ k _ => [k] | _ => [] end) l.

(** The health-score discipline in the words of the specification: the
    score starts at 100 and drifts by -5 per error, -1 per local-queue-full
    miss and +0.5 per success, clamped to [0, 100]. *)
Definition clamp (x : Q) : Q := Qmax 0 (Qmin 100 x).



(** *** the primitive changes a step is made of

    [micro d d'] relates two dispatcher states that differ by one
    assignment of the code to the accounts, the futures, the heap or the
    history; everything else is framed. *)
Definition outcome (o : FutureState) : Prop :=
  match o with Result _ | Exception _ => True | _ => False end.

Inductive score_obs (k : string) (f : AccountState -> AccountState) : Obs -> Prop :=
| score_success :
    (forall a, health_score (f a) = Qmin 100 (health_score a + (1 # 2))) ->
    score_obs k f (TaskSuccess k)
| score_failure :
    (forall a, health_score (f a) = Qmax 0 (health_score a - 5)) ->
    score_obs k f (TaskFailure k)
| score_miss :
    (forall a, health_score (f a) = Qmax 0 (health_score a - 1)) ->
    score_obs k f (QueueFullMiss k).

Inductive micro (d d' : Dispatcher) : Prop :=
| micro_frame :
    _accounts d' = _accounts d -> log d' = log d -> futures d' = futures d ->
    mem d' = mem d -> owned d' = owned d ->
    micro d d'
| micro_account (k : string) (f : AccountState -> AccountState) :
    _accounts d' = map (on_key k f) (_accounts d) ->
    (forall a, health_score (f a) = health_score a) ->
    log d' = log d -> futures d' = futures d ->
    mem d' = mem d -> owned d' = owned d ->
    micro d d'
| micro_score (k : string) (f : AccountState -> AccountState) (o : Obs) :
    _accounts d' = map (on_key k f) (_accounts d) ->
    score_obs k f o ->
    log d' = log d ++ [o] -> futures d' = futures d ->
    mem d' = mem d -> owned d' = owned d ->
    micro d d'
| micro_fulfil (fut : nat) (k : string) (o : FutureState) :
    futures d !! fut = Some Pending -> outcome o ->
    futures d' = <[fut := o]> (futures d) ->
    log d' = log d ++ [Fulfilled fut k o] ->
    _accounts d' = _accounts d -> mem d' = mem d -> owned d' = owned d ->
    micro d d'
| micro_new_future :
    futures d' = futures d ++ [Pending] ->
    _accounts d' = _accounts d -> log d' = log d ->
    mem d' = mem d -> owned d' = owned d ->
    micro d d'
| micro_cancel (fut : nat) :
    futures d !! fut = Some Pending ->
    futures d' = <[fut := Cancelled]> (futures d) ->
    _accounts d' = _accounts d -> log d' = log d ->
    mem d' = mem d -> owned d' = owned d ->
    micro d d'
| micro_alloc (o : obj) (own : bool) :
    mem d' = mem d ++ [o] ->
    owned d' = (if own then length (mem d) :: owned d else owned d) ->
    _accounts d' = _accounts d -> log d' = log d -> futures d' = futures d ->
    micro d d'
| micro_mutate (a : addr) (o : obj) :
    ~ In a (owned d) ->
    mem d' = <[a := o]> (mem d) ->
    owned d' = owned d ->
    _accounts d' = _accounts d -> log d' = log d -> futures d' = futures d ->
    micro d d'.

(** A sequence of primitive changes. *)
Inductive micros (d : Dispatcher) : Dispatcher -> Prop :=
| micros_nil : micros d d
| micros_snoc d1 d2 : micros d d1 -> micro d1 d2 -> micros d d2.

(** *** invariants of a run *)



(** No future is fulfilled twice, and a fulfilled future keeps what it
    was fulfilled with. *)
Definition FutInv (d : Dispatcher) : Prop :=
  NoDup (fulfilled (log d))
  /\ forall fut k o, In (Fulfilled fut k o) (log d) ->
                     futures d !! fut = Some o /\ outcome o.

(** The dispatcher's own objects exist, and [a] is one of them, holding [o]. *)
Definition owned_ok (d : Dispatcher) : Prop :=
  forall x, In x (owned d) -> x < length (mem d).

Definition OwnedInv (a : addr) (o : obj) (d : Dispatcher) : Prop :=
  owned_ok d /\ In a (owned d) /\ mem d !! a = Some o.

(** What the worker of [acc] puts in the future when [run_task] ends
    with [out]. *)
Definition delivered (acc : AccountState) (out : result json) : FutureState :=
  match out with
  | Ok r =>
      match inject_account_id (account_id (handle acc)) r with
      | Ok r' => Result r'
      | Raise e => Exception e
      end
  | Raise e => Exception e
  end.

(** *** what the routing strategies choose *)

(** Order of the account ids. *)
Definition id_le (x y : string * AccountState) : Prop :=
  String.leb (id_of x) (id_of y) = true.

(** [x] is the first element of [l] with the smallest (largest) key. *)
Definition first_min {A} (key : A -> Q) (l : list A) (x : A) : Prop :=
  exists l1 l2, l = l1 ++ x :: l2
    /\ (forall y, In y l1 -> (key x < key y)%Q)
    /\ (forall y, In y l2 -> (key x <= key y)%Q).

Definition first_max {A} (key : A -> Q) (l : list A) (x : A) : Prop :=
  exists l1 l2, l = l1 ++ x :: l2
    /\ (forall y, In y l1 -> (key y < key x)%Q)
    /\ (forall y, In y l2 -> (key y <= key x)%Q).

(** The dispatcher has no router and no workers (before [start], after
    [stop]). *)
Definition no_fibers (d : Dispatcher) : Prop :=
  _router_task d = None /\ _workers d = [].

(** *** bookkeeping of the fleet *)

(** The handle [start_all] builds for an account. *)
Definition handle_of (a : Config.AccountConfig) : SessionHandle :=
  {| account_id := Config.id a; session := a;
     max_concurrency := Config.max_concurrency a |}.

(** The metadata a result carries when it reaches line 171: the entries
    of its [metadata] object, none when it is absent or falsy. *)
Definition metadata_of (r : list (string * json)) : list (string * json) :=
  match dict_get r "metadata" with
  | Some (JDict m) => m
  | _ => []
  end.

(** 1 when the worker of [k] is suspended inside [run_task], else 0. *)
Definition running (w : list (string * WorkerPc)) (k : string) : Z :=
  match dict_get w k with
  | Some (WRunning _ _ _) => 1
  | _ => 0
  end.

(** How often lines 166 and 175 ran for account [k]. *)
Definition successes (k : string) (l : list Obs) : Z :=
  Z.of_nat (length (List.filter
    (fun o => match o with TaskSuccess k' => String.eqb k' k | _ => false end) l)).

Definition failures (k : string) (l : list Obs) : Z :=
  Z.of_nat (length (List.filter
    (fun o => match o with TaskFailure k' => String.eqb k' k | _ => false end) l)).

(** A queue respects its [maxsize] (none when [maxsize <= 0]). *)
Definition bounded (maxsize : Z) (q : list TaskItem) : Prop :=
  (0 < maxsize -> Z.of_nat (length q) <= maxsize)%Z.

(** The books of one account balance: [inflight] counts its running
    worker, permits are conserved, its queue respects its bound and its
    counters agree with the history. *)
Definition account_ok (cfg : Config.DispatcherConfig)
    (w : list (string * WorkerPc)) (l : list Obs)
    (ka : string * AccountState) : Prop :=
  inflight (snd ka) = running w (fst ka)
  /\ (semaphore (snd ka) + inflight (snd ka) = max_concurrency (handle (snd ka)))%Z
  /\ bounded (Config.per_account_queue_size cfg) (queue (snd ka))
  /\ tasks_total (metrics (snd ka)) = successes (fst ka) l
  /\ errors_total (metrics (snd ka)) = failures (fst ka) l.

Definition FleetInv (d : Dispatcher) : Prop :=
  NoDup (map fst (_accounts d))
  /\ NoDup (map fst (_workers d))
  /\ bounded (Config.global_queue_size (_cfg d)) (_global_queue d)
  /\ Forall (account_ok (_cfg d) (_workers d) (log d)) (_accounts d).

(** The part of the fleet no step writes: keys and handles. *)
Definition fleet (d : Dispatcher) : list (string * SessionHandle) :=
  map (fun ka => (fst ka, handle (snd ka))) (_accounts d).

(** [d'] has the configuration and the fleet of [d]. *)
Definition static (d d' : Dispatcher) : Prop :=
  _cfg d' = _cfg d /\ fleet d' = fleet d.

(** The router is not waiting for capacity and has not ended with
    anything but the [AttributeError] of a malformed request. *)
Definition router_ok (d : Dispatcher) : Prop :=
  match _router_task d with
  | Some (RWait _ _) => False
  | Some (RFailed e) => exn_cls e = AttributeError
  | _ => True
  end.


(** The result is an object whose [metadata] is absent, falsy or an
    object: what lines 170-171 need to run through. *)
Definition annotatable (r : json) : Prop :=
  match r with
  | JDict r0 =>
      match dict_get r0 "metadata" with
      | None | Some (JDict _) => True
      | Some v => json_truthy v = false
      end
  | _ => False
  end.

(** [n] calls of [_pick_account] in a row, with the same hint. *)
Fixpoint picks (n : nat) (hint : value) (d : Dispatcher)
  : result (list (option string) * Dispatcher) :=
  match n with
  | O => Ok ([], d)
  | S n' =>
      let! rd := _pick_account hint d in
      let! rest := picks n' hint (snd rd) in
      Ok (fst rd :: fst rest, snd rest)
  end.

(** The queues of the accounts. *)
Definition queues (d : Dispatcher) : list (string * list TaskItem) :=
  map (fun ka => (fst ka, queue (snd ka))) (_accounts d).

(** The dispatcher has fibers: a router task or workers. *)
Definition has_fibers (d : Dispatcher) : bool :=
  match _router_task d, _workers d with
  | None, [] => false
  | _, _ => true
  end.

(** No [start] is called on a dispatcher that has fibers: the runs in
    which every account has the one worker [start] above gives it. *)
Fixpoint starts_once (d : Dispatcher) (evs : list Event) : bool :=
  match evs with
  | [] => true
  | e :: evs' =>
      match e with
      | EvStart => negb (has_fibers d)
      | _ => true
      end && starts_once (step d e) evs'
  end.

End Dispatcher.

(** ** api.py *)
Module Api.
Import Dispatcher.

Inductive Response :=
| JSONResponse (body : json)                    (* status 200 *)
| HTTPException (status_code : Z) (detail : string)
| Unhandled (e : exn).                          (* the framework answers 500 *)

Definition status (r : Response) : Z :=
  match r with
  | JSONResponse _ => 200
  | HTTPException c _ => c
  | Unhandled _ => 500
  end.

(** [str(e)] of an exception built from one message. *)
Definition str_exn (e : exn) : string := exn_msg e.

(** The [try: result = await dispatcher.submit(body)] statement of
    [v1_messages] with its two [except] clauses, given how the call
    ended.  [Inl r]: it returned [r]. *)
Definition v1_messages_submit (outcome : result json) : json + Response :=
  match outcome with
  | Ok r => inl r
  | Raise e =>
      if isinstance_RuntimeError e then
        inr (HTTPException 429 (str_exn e))
      else if isinstance_TimeoutError e then
        inr (HTTPException 504 "Task timed out")
      else inr (Unhandled e)
  end.

(** The two checks of [v1_messages] on the parsed body: the model name,
    or the response that ends the request. *)
Definition v1_messages_validate (h : heap) (body : addr) : Response + string :=
  match as_dict h (VRef body) with
  | Raise e => inl (Unhandled e)
  | Ok b =>
      match dict_get b "model" with
      | Some (VStr model) =>
          if String.eqb model "" then
            inl (HTTPException 400 "model is required")
          else
            match dict_get b "messages" with
            | Some (VRef a) =>
                match h !! a with
                | Some (OList (_ :: _)) => inr model
                | _ => inl (HTTPException 400 "messages[] is required")
                end
            | _ => inl (HTTPException 400 "messages[] is required")
            end
      | _ => inl (HTTPException 400 "model is required")
      end
  end.

Section Shape.
Context `{Platform}.

Definition _anthropic_message_response (hex16 model text : string)
    (account_id : json) : json :=
  JDict [("id", JStr ("msg_" ++ hex16));
         ("type", JStr "message");
         ("role", JStr "assistant");
         ("model", JStr model);
         ("content", JList [JDict [("type", JStr "text"); ("text", JStr text)]]);
         ("metadata", if json_truthy account_id
                      then JDict [("account_id", account_id)]
                      else JDict [])].

(** The part of [v1_messages] after a successful [submit]. *)
Definition shape (hex16 model : string) (r : json) : Response :=
  match r with
  | JDict d =>
      match dict_get d "type" with
      | Some (JStr "message") => JSONResponse r
      | _ =>
          let text :=
            match dict_get d "content", dict_get d "raw" with
            | Some (JStr c), _ => c
            | _, Some raw => Config.py_str raw
            | _, None => Config.py_str r
            end in
          let md := default JNull (dict_get d "metadata") in
          match (if json_truthy md then
                   match md with
                   | JDict m => Ok m
                   | _ => Raise (Exn AttributeError "object has no attribute 'get'")
                   end
                 else Ok []) with
          | Raise e => Unhandled e
          | Ok m =>
              let a := default JNull (dict_get m "account_id") in
              let account_id :=
                if json_truthy a then a
                else default JNull (dict_get d "account_id") in
              JSONResponse (_anthropic_message_response hex16 model text account_id)
          end
      end
  | _ =>
      JSONResponse (_anthropic_message_response hex16 model (Config.py_str r) JNull)
  end.

(** [v1_messages]: [ready] says whether the dispatcher exists, [h] and
    [body] are the parsed request, [outcome] is how [submit] ended. *)
Definition v1_messages (ready : bool) (h : heap) (body : addr)
    (hex16 : string) (outcome : result json) : Response :=
  if negb ready then HTTPException 503 "Dispatcher not ready"
  else
    match v1_messages_validate h body with
    | inl r => r
    | inr model =>
        match v1_messages_submit outcome with
        | inr r => r
        | inl r => shape hex16 model r
        end
    end.
End Shape.

End Api.

(** ** The dispatcher wired to subprocess sessions, as [create_app] does *)
Module System.
Import Dispatcher.

Section Wiring.
Context `{Platform}.
Variable environ : list (string * string).        (* os.environ *)
Variable os : SubprocessSession.Spawn -> SubprocessSession.spawn_result.

(** The request the worker of account [k], suspended in [run_task], has
    passed to the session, as [json.dumps] reads it through the heap. *)
Definition session_request (d : Dispatcher) (k : string) : option (result json) :=
  match dict_get (_workers d) k with
  | Some (WRunning item start req) => Some (deep (mem d) (VRef req))
  | _ => None
  end.

(** The call [acc.handle.session.run_task(req)] of that worker. *)
Definition session_call (d : Dispatcher) (k : string) : option (result json) :=
  match session_request d k, dict_get (_accounts d) k with
  | Some req, Some acc =>
      Some (let! request := req in
            SubprocessSession.run_task environ (session (handle acc)) request os)
  | _, _ => None
  end.

(** The worker of [k] takes an item, and its task command runs to its end. *)
Definition worker_run (k : string) (now : Q) (c : Clock) (d : Dispatcher)
  : Dispatcher :=
  let d := worker_take k now d in
  match session_call d k with
  | Some outcome => worker_done k outcome c d
  | None => d
  end.

(** The first account whose local queue holds an item. *)
Definition ready_worker (d : Dispatcher) : option string :=
  option_map fst
    (List.find (fun ka => match queue (snd ka) with [] => false | _ => true end)
       (_accounts d)).

(** One request served from [submit] to the end of its task command, with
    nothing else going on: the router places it, the worker of the account
    it was placed on runs it.  The result is what the awaiting caller
    receives ([None]: it is still waiting). *)
Definition serve (request : addr) (now : Q) (hex12 : string)
    (c : Clock) (d : Dispatcher) : option (result json) * Dispatcher :=
  match submit request now hex12 d with
  | Raise e => (Some (Raise e), d)
  | Ok (item, d) =>
      let d := router_step d in
      let d :=
        match ready_worker d with
        | Some k => worker_run k now c d
        | None => d
        end in
      match futures d !! future item with
      | Some (Result r) => (Some (Ok r), d)
      | Some (Exception e) => (Some (Raise e), d)
      | _ => (None, d)
      end
  end.
End Wiring.

End System.

(** ** Concrete configurations used by the examples *)
Module Demo.
Import Dispatcher.

Definition is_space (c : ascii) : bool :=
  let n := nat_of_ascii c in
  ((9 <=? n)%nat && (n <=? 13)%nat) || ((28 <=? n)%nat && (n <=? 32)%nat).

Fixpoint lstrip (s : string) : string :=
  match s with
  | String c s' => if is_space c then lstrip s' else s
  | EmptyString => EmptyString
  end.

Fixpoint rstrip (s : string) : string :=
  match s with
  | String c s' =>
      match rstrip s' with
      | EmptyString => if is_space c then EmptyString else String c EmptyString
      | t => String c t
      end
  | EmptyString => EmptyString
  end.

Definition is_ascii_text (s : string) : bool :=
  forallb (fun c => (nat_of_ascii c <? 128)%nat) (list_ascii_of_string s).

(** A platform that agrees with CPython on the inputs of the examples:
    ASCII text, home directory [/home/u], and the JSON documents [null],
    [42] and [{}]. *)
Definition platform : Platform :=
  {| json_loads := fun s =>
       if String.eqb s "null" then Some JNull
       else if String.eqb s "42" then Some (JInt 42)
       else if String.eqb s "{}" then Some (JDict [])
       else None;
     json_dumps := fun j =>
       match j with
       | JInt z => str_of_int z
       | JDict [] => "{}"
       | _ => "null"
       end;
     utf8_decode := fun s => if is_ascii_text s then Some s else None;
     utf8_decode_replace := fun s => s;
     expanduser := fun s =>
       match s with
       | String "~" EmptyString => "/home/u"
       | String "~" (String "/" rest) => "/home/u/" ++ rest
       | _ => s
       end;
     str_strip := fun s => rstrip (lstrip s);
     repr_json := fun _ => "";
     int_of_str := fun _ => None |}.

Definition account (i : string) (n : Z) : Config.AccountConfig :=
  {| Config.id := i;
     Config.state_dir := "/var/agyc/" ++ i;
     Config.start_command := None;
     Config.health_command := None;
     Config.task_command := Some [JStr "agyc-task"];
     Config.env := [("AG_CONFIG_DIR", "/var/agyc/" ++ i)];
     Config.max_concurrency := n |}.

Definition sessions_ab : list (string * SessionHandle) :=
  SessionManager.start_all [account "a" 1; account "b" 1].

Definition sessions_ba : list (string * SessionHandle) :=
  SessionManager.start_all [account "b" 1; account "a" 1].

Definition sessions_a : list (string * SessionHandle) :=
  SessionManager.start_all [account "a" 1].

Definition config (routing : string) : Config.DispatcherConfig :=
  {| Config.routing := routing;
     Config.global_queue_size := 200;
     Config.per_account_queue_size := 50;
     Config.task_timeout_seconds := 600;
     Config.health_check_interval_seconds := 10 |}.

(** The body [{"model": "m", "messages": [{"role": "user"}]}] at address 0. *)
Definition plain_request : heap :=
  [ODict [("model", VStr "m"); ("messages", VRef 1)];
   OList [VRef 2];
   ODict [("role", VStr "user")]].

(** The same body with [metadata.routing.strategyHint = hint]. *)
Definition hinted_request (hint : value) : heap :=
  [ODict [("model", VStr "m"); ("messages", VRef 1); ("metadata", VRef 3)];
   OList [VRef 2];
   ODict [("role", VStr "user")];
   ODict [("routing", VRef 4)];
   ODict [("strategyHint", hint)]].

(** A task command that prints [{}] and exits 0, and one that prints
    [boom] on stderr and exits 1. *)
Definition os_ok (_ : SubprocessSession.Spawn) : SubprocessSession.spawn_result :=
  SubprocessSession.Exited
    {| SubprocessSession.returncode := 0;
       SubprocessSession.stdout := "{}";
       SubprocessSession.stderr := "" |}.

Definition os_text (_ : SubprocessSession.Spawn) : SubprocessSession.spawn_result :=
  SubprocessSession.Exited
    {| SubprocessSession.returncode := 0;
       SubprocessSession.stdout := "done";
       SubprocessSession.stderr := "" |}.

Definition os_fail (_ : SubprocessSession.Spawn) : SubprocessSession.spawn_result :=
  SubprocessSession.Exited
    {| SubprocessSession.returncode := 1;
       SubprocessSession.stdout := "";
       SubprocessSession.stderr := "boom" |}.

Definition clock (t : Q) : Clock := {| t_used := t; t_success := t; t_error := t |}.

(** The dispatcher [init] builds (without accounts if [init] raises). *)
Definition fresh (cfg : Config.DispatcherConfig)
    (sessions : list (string * SessionHandle)) (m : heap) : Dispatcher :=
  match init cfg sessions m with
  | Ok d => d
  | Raise _ =>
      {| _cfg := cfg; _global_queue := []; _accounts := [];
         _router_task := None; _workers := [];
         _stop_event := false; _rr_cursor := 0; _capacity_event := false;
         mem := m; owned := []; futures := []; log := [] |}
  end.

(** Four requests submitted one after the other, each served before the
    next is submitted, by task commands that print [{}] and exit 0. *)
Definition four_requests (sessions : list (string * SessionHandle))
    (t1 t2 t3 t4 : Q) : Dispatcher :=
  let serve := @System.serve platform [] os_ok 0 in
  let d := start (fresh (config "round-robin") sessions plain_request) in
  let d := snd (serve t1 "000000000001" (clock t1) d) in
  let d := snd (serve t2 "000000000002" (clock t2) d) in
  let d := snd (serve t3 "000000000003" (clock t3) d) in
  snd (serve t4 "000000000004" (clock t4) d).

(** An account as it stands in the configuration file. *)
Definition raw_account : json :=
  JDict [("id", JStr "a");
         ("stateDir", JStr "~/agyc/a");
         ("startCommand", JList [JStr "agyc-ide"]);
         ("taskCommand", JList [JStr "agyc-task"])].

End Demo.

(** * Properties *)

(** Statements about concrete runs are settled by evaluation. *)
Ltac evaluate :=
  repeat match goal with |- _ /\ _ => split end; vm_compute; reflexivity.

Import Dispatcher.

(** ** run_task *)
Section RunTaskFacts.
Context `{Platform}.
Import SubprocessSession.

(** C4: with a task command configured and the spawned command exited,
    [run_task] returns the parsed stdout on exit status 0, the object
    [{"raw": stdout as text}] on exit status 0 with a stdout that is not
    JSON, and on any other exit status raises the error whose message
    carries the account id, the exit code and the stderr text. *)
Theorem C4_run_task_outcomes
    (environ : list (string * string)) (cfg : Config.AccountConfig)
    (request : json) (os : Spawn -> spawn_result)
    (cmd : list json) (c : Completed) :
  command_set (Config.task_command cfg) = Some cmd ->
  os (task_spawn environ cfg cmd request) = Exited c ->
  (forall j, returncode c = 0%Z -> parses_as c j ->
             run_task environ cfg request os = Ok j)
  /\ (returncode c = 0%Z -> not_json c ->
      run_task environ cfg request os
      = Ok (JDict [("raw", JStr (utf8_decode_replace (stdout c)))]))
  /\ (returncode c <> 0%Z ->
      run_task environ cfg request os
      = Raise (Exn RuntimeError
                 ("taskCommand failed for " ++ Config.id cfg ++ " rc="
                    ++ str_of_int (returncode c) ++ ": "
                    ++ utf8_decode_replace (stderr c)))).
Proof.
  intros Hcmd Hos. unfold run_task. rewrite Hcmd, Hos.
  split; [|split].
  - intros j Hrc (text & Hdec & Hload).
    rewrite Hrc, Hdec, Hload. reflexivity.
  - intros Hrc Hnot. rewrite Hrc. cbn.
    destruct (utf8_decode (stdout c)) as [text|] eqn:Hdec; [|reflexivity].
    rewrite (Hnot text Hdec). reflexivity.
  - intros Hrc. apply Z.eqb_neq in Hrc. rewrite Hrc. reflexivity.
Qed.
End RunTaskFacts.

(** The three outcomes on the example commands of account [a]. *)
Lemma C4_run_task_outcomes_witness :
  let run := @SubprocessSession.run_task Demo.platform [] (Demo.account "a" 1) (JDict []) in
  run Demo.os_ok = Ok (JDict [])
  /\ run Demo.os_text = Ok (JDict [("raw", JStr "done")])
  /\ run Demo.os_fail
     = Raise (Exn RuntimeError "taskCommand failed for a rc=1: boom").
Proof.
  cbv zeta. split; [|split].
  - refine (proj1 (@C4_run_task_outcomes Demo.platform [] (Demo.account "a" 1)
              (JDict []) Demo.os_ok [JStr "agyc-task"] _ eq_refl eq_refl)
              (JDict []) eq_refl _).
    exists "{}". split; reflexivity.
  - refine (proj1 (proj2 (@C4_run_task_outcomes Demo.platform [] (Demo.account "a" 1)
              (JDict []) Demo.os_text [JStr "agyc-task"] _ eq_refl eq_refl))
              eq_refl _).
    intros text Hdec. vm_compute in Hdec. injection Hdec as <-. reflexivity.
  - refine (proj2 (proj2 (@C4_run_task_outcomes Demo.platform [] (Demo.account "a" 1)
              (JDict []) Demo.os_fail [JStr "agyc-task"] _ eq_refl eq_refl)) _).
    vm_compute. discriminate.
Defined.

Open Scope list_scope.

(** ** Every step is a sequence of primitive changes *)

Lemma micros_trans (a b c : Dispatcher) :
  micros a b -> micros b c -> micros a c.
Proof.
  intros Hab Hbc. induction Hbc as [|d1 d2 _ IH Hm]; [exact Hab|].
  exact (micros_snoc a d1 d2 IH Hm).
Qed.

Lemma micros_one (a b : Dispatcher) : micro a b -> micros a b.
Proof. intros Hm. exact (micros_snoc a a b (micros_nil a) Hm). Qed.

Lemma micros_then (a b c : Dispatcher) :
  micros a b -> micro b c -> micros a c.
Proof. intros Hab Hbc. exact (micros_snoc a b c Hab Hbc). Qed.

Ltac framed := apply micro_frame; reflexivity.

Lemma micro_set_global_queue q d : micro d (set_global_queue q d).
Proof. framed. Qed.
Lemma micro_set_router_task r d : micro d (set_router_task r d).
Proof. framed. Qed.
Lemma micro_set_workers w d : micro d (set_workers w d).
Proof. framed. Qed.
Lemma micro_set_worker k pc d : micro d (set_worker k pc d).
Proof. framed. Qed.
Lemma micro_set_stop_event b d : micro d (set_stop_event b d).
Proof. framed. Qed.
Lemma micro_set_rr_cursor c d : micro d (set_rr_cursor c d).
Proof. framed. Qed.
Lemma micro_set_capacity_event b d : micro d (set_capacity_event b d).
Proof. framed. Qed.

Lemma micro_update_account k f d :
  (forall a, health_score (f a) = health_score a) ->
  micro d (update_account k f d).
Proof. intros Hf. eapply micro_account; [reflexivity|exact Hf|..]; reflexivity. Qed.

Lemma micro_scored k f o d :
  score_obs k f o -> micro d (add_log o (update_account k f d)).
Proof. intros Ho. eapply micro_score; [reflexivity|exact Ho|..]; reflexivity. Qed.

Lemma micro_alloc_owned o d :
  micro d (set_mem (mem d ++ [o]) (length (mem d) :: owned d) d).
Proof. apply (micro_alloc d _ o true); reflexivity. Qed.

Create HintDb micro_db.
#[local] Hint Resolve micro_set_global_queue micro_set_router_task
  micro_set_workers micro_set_worker micro_set_stop_event micro_set_rr_cursor
  micro_set_capacity_event micro_alloc_owned : micro_db.
#[local] Hint Resolve micros_nil micros_one : micro_db.

(** Close a goal [micros d (f_n (... (f_1 d)))] one assignment at a time. *)
Ltac peel :=
  repeat first
    [ apply micros_nil
    | eapply micros_then; [|solve [eauto with micro_db]] ].

Lemma fulfil_micros k fut o d : outcome o -> micros d (fulfil k fut o d).
Proof.
  intros Ho. unfold fulfil.
  destruct (futures d !! fut) as [[| | |]|] eqn:Hf; try apply micros_nil.
  apply micros_one. eapply micro_fulfil; eauto; reflexivity.
Qed.

Lemma release_health a : health_score (release a) = health_score a.
Proof. reflexivity. Qed.

Lemma worker_except_micros k item e now d :
  micros d (worker_except k item e now d).
Proof.
  unfold worker_except.
  eapply micros_trans; [|apply fulfil_micros; exact I].
  apply micros_one, micro_scored, score_failure. reflexivity.
Qed.

Lemma worker_finally_micros k d : micros d (worker_finally k d).
Proof. unfold worker_finally. peel. Qed.

Lemma _pick_account_micro hint d r d' :
  _pick_account hint d = Ok (r, d') -> micro d d'.
Proof.
  unfold _pick_account. destruct (strategy_of _ _ _) as [s|]; [|discriminate].
  cbn [Py.bind]. destruct (_usable_accounts d) as [|u us].
  - intros [= _ <-]. framed.
  - destruct (str_in s lru_names); [intros [= _ <-]; framed|].
    destruct (str_in s health_names); [intros [= _ <-]; framed|].
    intros [= _ <-]. framed.
Qed.

Lemma router_place_micros item hint d : micros d (router_place item hint d).
Proof.
  unfold router_place. destruct (_stop_event d); [peel|].
  destruct (_pick_account hint d) as [[[k|] d']|e] eqn:Hpick; [| |peel].
  - apply _pick_account_micro in Hpick.
    eapply micros_trans; [apply micros_one, Hpick|].
    destruct (dict_get (_accounts d') k) as [acc|]; [|apply micros_nil].
    destruct (_ <=? _)%Z; [peel|].
    destruct (queue_full _ _).
    + eapply micros_then; [|apply micro_set_router_task].
      apply micros_one, micro_scored, score_miss. reflexivity.
    + eapply micros_then; [|apply micro_set_router_task].
      apply micros_one, micro_update_account. reflexivity.
  - apply _pick_account_micro in Hpick.
    eapply micros_then; [apply micros_one, Hpick|apply micro_set_router_task].
Qed.

Lemma router_step_micros d : micros d (router_step d).
Proof.
  unfold router_step.
  destruct (_router_task d) as [[|item hint|item hint| |e]|]; try apply micros_nil.
  - destruct (_global_queue d) as [|item q]; [apply micros_nil|].
    cbv zeta. destruct (get_hint _ _) as [hint|e].
    + eapply micros_trans; [|apply router_place_micros]. peel.
    + peel.
  - apply router_place_micros.
  - destruct (_capacity_event d); [apply router_place_micros|apply micros_nil].
Qed.

Lemma capacity_timeout_micros d : micros d (capacity_timeout d).
Proof.
  unfold capacity_timeout.
  destruct (_router_task d) as [[| | | |]|]; try apply micros_nil.
  destruct (_capacity_event d); peel.
Qed.

Lemma submit_micros request now hex12 d item d' :
  submit request now hex12 d = Ok (item, d') -> micros d d'.
Proof.
  unfold submit. destruct (queue_full _ _); [discriminate|].
  destruct (mem d !! request) as [[entries|]|]; try discriminate.
  intros [= _ <-].
  eapply micros_then; [|apply micro_set_global_queue].
  eapply micros_then; [apply micros_one, micro_alloc_owned|].
  apply micro_new_future; reflexivity.
Qed.

Lemma worker_take_micros k now d : micros d (worker_take k now d).
Proof.
  unfold worker_take.
  destruct (dict_get (_workers d) k) as [[| |]|]; try apply micros_nil.
  destruct (dict_get (_accounts d) k) as [acc|]; [|apply micros_nil].
  destruct (queue acc) as [|item q]; [apply micros_nil|].
  cbv zeta.
  assert (H1 : micros d (update_account k (with_queue q) d))
    by (apply micros_one, micro_update_account; reflexivity).
  destruct (0 <? semaphore acc)%Z; [|eapply micros_then; [exact H1|apply micro_set_worker]].
  set (d2 := update_account k _ (update_account k (with_queue q) d)).
  assert (H2 : micros d d2).
  { eapply micros_then; [exact H1|]. apply micro_update_account. reflexivity. }
  destruct (mem d2 !! request item) as [[entries|]|].
  - eapply micros_then; [|apply micro_set_worker].
    eapply micros_then; [exact H2|apply micro_alloc_owned].
  - eapply micros_trans; [|apply worker_finally_micros].
    eapply micros_trans; [|apply worker_except_micros].
    eapply micros_then; [exact H2|]. apply micro_update_account. reflexivity.
  - eapply micros_trans; [|apply worker_finally_micros].
    eapply micros_trans; [|apply worker_except_micros].
    eapply micros_then; [exact H2|]. apply micro_update_account. reflexivity.
Qed.

Lemma worker_done_micros k outcome c d : micros d (worker_done k outcome c d).
Proof.
  unfold worker_done.
  destruct (dict_get (_workers d) k) as [[| |item start req]|]; try apply micros_nil.
  destruct (dict_get (_accounts d) k) as [acc|]; [|apply micros_nil].
  cbv zeta.
  assert (H1 : micros d (update_account k release d))
    by (apply micros_one, micro_update_account; reflexivity).
  destruct outcome as [r|e].
  - match goal with
    | |- context [add_log (TaskSuccess k) (update_account k ?f ?d1)] =>
        assert (H2 : micros d (add_log (TaskSuccess k) (update_account k f d1)))
    end.
    { eapply micros_then; [exact H1|]. apply micro_scored, score_success. reflexivity. }
    destruct (inject_account_id _ r) as [r'|e].
    + eapply micros_trans; [|apply worker_finally_micros].
      eapply micros_trans; [exact H2|apply fulfil_micros; exact I].
    + eapply micros_trans; [|apply worker_finally_micros].
      eapply micros_trans; [exact H2|apply worker_except_micros].
  - eapply micros_trans; [|apply worker_finally_micros].
    eapply micros_trans; [exact H1|apply worker_except_micros].
Qed.

Lemma start_micros d : micros d (start d).
Proof.
  unfold start. destruct (_router_task d); [apply micros_nil|].
  destruct (_workers d); [peel|apply micros_nil].
Qed.

Lemma cancel_worker_micros d kw : micros d (cancel_worker d kw).
Proof.
  unfold cancel_worker. destruct (snd kw); [apply micros_nil|peel|].
  eapply micros_then; [|apply micro_set_capacity_event].
  apply micros_one, micro_update_account. reflexivity.
Qed.

Lemma cancel_workers_micros ws d : micros d (fold_left cancel_worker ws d).
Proof.
  revert d. induction ws as [|kw ws IH]; intros d; [apply micros_nil|].
  cbn. eapply micros_trans; [apply cancel_worker_micros|apply IH].
Qed.

Lemma stop_micros d : micros d (stop d).
Proof.
  unfold stop. cbv zeta.
  eapply micros_then; [|apply micro_set_workers].
  eapply micros_then; [|apply micro_set_router_task].
  eapply micros_trans; [|apply cancel_workers_micros].
  apply micros_one, micro_set_stop_event.
Qed.

Lemma step_micros d e : micros d (step d e).
Proof.
  destruct e as [| |request now hex12| | |k now|k outcome c|a o|o|fut]; cbn.
  - apply start_micros.
  - apply stop_micros.
  - destruct (submit request now hex12 d) as [[item d']|e] eqn:Hs; [|apply micros_nil].
    exact (submit_micros _ _ _ _ _ _ Hs).
  - apply router_step_micros.
  - apply capacity_timeout_micros.
  - apply worker_take_micros.
  - apply worker_done_micros.
  - destruct (existsb (Nat.eqb a) (owned d)) eqn:Hown; [apply micros_nil|].
    apply micros_one. eapply (micro_mutate d _ a o); try reflexivity.
    intros Hin. apply not_true_iff_false in Hown. apply Hown.
    apply existsb_exists. exists a. split; [exact Hin|apply Nat.eqb_refl].
  - apply micros_one. apply (micro_alloc d _ o false); reflexivity.
  - destruct (futures d !! fut) as [[| | |]|] eqn:Hf; try apply micros_nil.
    apply micros_one. eapply micro_cancel; eauto; reflexivity.
Qed.

Lemma run_micros evs d : micros d (run d evs).
Proof.
  revert d. induction evs as [|e evs IH]; intros d; [apply micros_nil|].
  cbn. eapply micros_trans; [apply step_micros|apply IH].
Qed.

(** ** The health score follows the history *)



#[local] Instance clamp_proper : Proper (Qeq ==> Qeq) clamp.
Proof. intros x y E. unfold clamp. rewrite E. reflexivity. Qed.





Lemma micros_preserve (P : Dispatcher -> Prop) :
  (forall d d', micro d d' -> P d -> P d') ->
  forall d d', micros d d' -> P d -> P d'.
Proof.
  intros Hstep d d' Hms Hd. induction Hms as [|d1 d2 _ IH Hm]; [exact Hd|].
  exact (Hstep d1 d2 Hm IH).
Qed.

Lemma dict_set_Forall {V} (P : string * V -> Prop) d k v :
  Forall P d -> (forall k', P (k', v)) -> Forall P (dict_set d k v).
Proof.
  intros Hd Hv. induction Hd as [|[k' v'] d' Hx Hd' IH]; cbn.
  - constructor; [apply Hv|constructor].
  - destruct (k' =? k)%string; constructor; auto.
Qed.

Lemma init_accounts_Forall (P : string * AccountState -> Prop) sessions acc accs :
  (forall k h, P (k, new_account h)) ->
  Forall P acc -> init_accounts sessions acc = Ok accs -> Forall P accs.
Proof.
  intros Hnew. revert acc. induction sessions as [|[k h] rest IH]; intros acc Hacc; cbn.
  - intros [= <-]. exact Hacc.
  - destruct (max_concurrency h <? 0)%Z; [discriminate|].
    apply IH. apply dict_set_Forall; [exact Hacc|]. intros k'. apply Hnew.
Qed.

Lemma init_inv cfg sessions m d0 :
  init cfg sessions m = Ok d0 ->
  Forall (fun ka => health_score (snd ka) = 100%Q) (_accounts d0)
  /\ log d0 = [] /\ futures d0 = [] /\ owned d0 = [] /\ mem d0 = m
  /\ _router_task d0 = None /\ _workers d0 = [] /\ _rr_cursor d0 = 0%Z
  /\ _cfg d0 = cfg.
Proof.
  unfold init. destruct (init_accounts sessions []) as [accs|e] eqn:Hacc; [|discriminate].
  cbn. intros [= <-]. cbn. repeat split.
  eapply init_accounts_Forall; [|constructor|exact Hacc]. reflexivity.
Qed.



(** Every score the code produces is a multiple of 1/2, so the binary64
    arithmetic of the program is exact on it. *)
Lemma half_step (h : Q) (n : Z) :
  h == n # 2 ->
  (exists n', Qmin 100 (h + (1 # 2)) == n' # 2)
  /\ (exists n', Qmax 0 (h - 5) == n' # 2)
  /\ (exists n', Qmax 0 (h - 1) == n' # 2).
Proof.
  intros E. split; [|split].
  - destruct (Q.min_spec 100 (h + (1 # 2))) as [[_ Em]|[_ Em]].
    + exists 200%Z. rewrite Em. reflexivity.
    + exists (n + 1)%Z. rewrite Em, E. unfold Qeq, Qplus. cbn. lia.
  - destruct (Q.max_spec 0 (h - 5)) as [[_ Em]|[_ Em]].
    + exists (n - 10)%Z. rewrite Em, E. unfold Qeq, Qminus, Qplus. cbn. lia.
    + exists 0%Z. rewrite Em. reflexivity.
  - destruct (Q.max_spec 0 (h - 1)) as [[_ Em]|[_ Em]].
    + exists (n - 2)%Z. rewrite Em, E. unfold Qeq, Qminus, Qplus. cbn. lia.
    + exists 0%Z. rewrite Em. reflexivity.
Qed.

Lemma micro_half d d' :
  micro d d' ->
  Forall (fun ka => exists n, health_score (snd ka) == n # 2) (_accounts d) ->
  Forall (fun ka => exists n, health_score (snd ka) == n # 2) (_accounts d').
Proof.
  intros [Ha _ _ _ _|k f Ha Hf _ _ _ _|k f o Ha Ho _ _ _ _
         |fut k o _ _ _ _ Ha _ _|_ Ha _ _ _|fut _ _ Ha _ _ _
         |o own _ _ Ha _ _|a o _ _ _ Ha _ _] Inv;
    rewrite Ha; try exact Inv.
  - apply Forall_map. eapply Forall_impl; [exact Inv|].
    intros ka [n E]. unfold on_key. destruct (fst ka =? k)%string; [|eauto].
    cbn [snd]. rewrite Hf. eauto.
  - apply Forall_map. eapply Forall_impl; [exact Inv|].
    intros ka [n E]. unfold on_key. destruct (fst ka =? k)%string; [|eauto].
    cbn [snd]. destruct (half_step _ _ E) as (H1 & H2 & H3).
    destruct Ho as [Hf|Hf|Hf]; rewrite Hf; assumption.
Qed.

Lemma health_score_half_integral cfg sessions m d0 evs k a :
  init cfg sessions m = Ok d0 ->
  In (k, a) (_accounts (run d0 evs)) ->
  exists n : Z, health_score a == n # 2.
Proof.
  intros Hinit Hin.
  assert (Inv : Forall (fun ka => exists n, health_score (snd ka) == n # 2)
                  (_accounts (run d0 evs))).
  { eapply (micros_preserve _ micro_half); [apply run_micros|].
    destruct (init_inv _ _ _ _ Hinit) as (Hh & _).
    eapply Forall_impl; [exact Hh|]. intros ka E. exists 200%Z. rewrite E. reflexivity. }
  rewrite List.Forall_forall in Inv. exact (Inv (k, a) Hin).
Qed.

(** ** Result slots *)

Lemma fulfilled_app l1 l2 : fulfilled (l1 ++ l2) = fulfilled l1 ++ fulfilled l2.
Proof. unfold fulfilled. apply flat_map_app. Qed.

Lemma In_fulfilled fut l :
  In fut (fulfilled l) <-> exists k o, In (Fulfilled fut k o) l.
Proof.
  unfold fulfilled. rewrite in_flat_map. split.
  - intros ([f k o| | |] & Hin & Hf); cbn in Hf; try contradiction.
    destruct Hf as [<-|[]]. eauto.
  - intros (k & o & Hin). exists (Fulfilled fut k o). split; [exact Hin|left; reflexivity].
Qed.

Lemma outcome_not_pending o : outcome o -> o <> Pending.
Proof. intros Ho ->. exact Ho. Qed.

Lemma FutInv_pending_fresh d fut :
  FutInv d -> futures d !! fut = Some Pending -> ~ In fut (fulfilled (log d)).
Proof.
  intros [_ Hlog] Hp Hin. apply In_fulfilled in Hin as (k & o & Hin).
  destruct (Hlog _ _ _ Hin) as [Hf Ho]. rewrite Hp in Hf. injection Hf as <-. exact Ho.
Qed.

Lemma FutInv_overwrite d d' fut o' l' :
  FutInv d -> futures d !! fut = Some Pending ->
  futures d' = <[fut := o']> (futures d) ->
  log d' = log d ++ l' ->
  NoDup (fulfilled (log d) ++ fulfilled l') ->
  (forall f k o, In (Fulfilled f k o) l' -> f = fut /\ o = o' /\ outcome o) ->
  FutInv d'.
Proof.
  intros Inv Hp Hf Hl Hnd Hnew. split.
  - rewrite Hl, fulfilled_app. exact Hnd.
  - intros f k o. rewrite Hl, Hf, in_app_iff. intros [Hin|Hin].
    + destruct (proj2 Inv _ _ _ Hin) as [Hlk Ho]. split; [|exact Ho].
      rewrite list_lookup_insert_ne; [exact Hlk|].
      intros <-. rewrite Hp in Hlk. injection Hlk as <-. exact Ho.
    + destruct (Hnew _ _ _ Hin) as (-> & -> & Ho). split; [|exact Ho].
      apply list_lookup_insert_eq. eapply lookup_lt_Some; exact Hp.
Qed.

Lemma micro_FutInv d d' : micro d d' -> FutInv d -> FutInv d'.
Proof.
  intros [_ Hl Hf _ _|k f _ _ Hl Hf _ _|k f o _ Ho Hl Hf _ _
         |fut k o Hp Ho Hf Hl _ _ _|Hf _ Hl _ _|fut Hp Hf _ Hl _ _
         |o own _ _ _ Hl Hf|a o _ _ _ _ Hl Hf] Inv;
    try (unfold FutInv; rewrite Hl, Hf; exact Inv).
  - destruct Inv as [Hnd Hlog]. unfold FutInv. rewrite Hl, Hf, fulfilled_app.
    assert (Hnone : fulfilled [o] = []) by (destruct Ho; reflexivity).
    rewrite Hnone, app_nil_r. split; [exact Hnd|].
    intros fu k' o' Hin. apply in_app_or in Hin as [Hin|[Heq|[]]]; [exact (Hlog _ _ _ Hin)|].
    subst o. inversion Ho.
  - eapply (FutInv_overwrite d d' fut o [Fulfilled fut k o]); eauto.
    + cbn. apply NoDup_app. split; [exact (proj1 Inv)|]. split.
      * intros x Hx. rewrite list_elem_of_In in Hx.
        intros Hx'. apply list_elem_of_In in Hx'. destruct Hx' as [<-|[]].
        exact (FutInv_pending_fresh d fut Inv Hp Hx).
      * apply NoDup_singleton.
    + intros f k' o' [[= <- <- <-]|[]]. auto.
  - destruct Inv as [Hnd Hlog]. split; [rewrite Hl; exact Hnd|].
    intros f k o. rewrite Hl, Hf. intros Hin.
    destruct (Hlog _ _ _ Hin) as [Hlk Ho]. split; [|exact Ho].
    apply lookup_app_l_Some. exact Hlk.
  - eapply (FutInv_overwrite d d' fut Cancelled []); eauto.
    + rewrite app_nil_r. exact Hl.
    + cbn. rewrite app_nil_r. exact (proj1 Inv).
    + intros f k o [].
Qed.

Lemma run_FutInv cfg sessions m d0 evs :
  init cfg sessions m = Ok d0 -> FutInv (run d0 evs).
Proof.
  intros Hinit. eapply (micros_preserve FutInv micro_FutInv); [apply run_micros|].
  destruct (init_inv _ _ _ _ Hinit) as (_ & Hl & _).
  split; rewrite Hl; [constructor|intros f k o []].
Qed.

(** What a finished [run_task] puts in a pending slot. *)
Lemma worker_done_delivers d k item start req acc out c :
  dict_get (_workers d) k = Some (WRunning item start req) ->
  dict_get (_accounts d) k = Some acc ->
  futures d !! future item = Some Pending ->
  futures (worker_done k out c d) !! future item = Some (delivered acc out).
Proof.
  intros Hw Ha Hp. unfold worker_done, delivered. rewrite Hw, Ha. cbv zeta.
  assert (Hlt : future item < length (futures d)) by (eapply lookup_lt_Some; exact Hp).
  destruct out as [r|e]; [destruct (inject_account_id _ r) as [r'|e]|];
    unfold worker_finally, worker_except, fulfil; cbn; rewrite Hp; cbn;
    apply list_lookup_insert_eq; exact Hlt.
Qed.

Lemma cancel_workers_frame ws d :
  futures (fold_left cancel_worker ws d) = futures d
  /\ log (fold_left cancel_worker ws d) = log d
  /\ _global_queue (fold_left cancel_worker ws d) = _global_queue d.
Proof.
  revert d. induction ws as [|kw ws IH]; intros d; [repeat split|].
  cbn [fold_left]. destruct (IH (cancel_worker d kw)) as (-> & -> & ->).
  unfold cancel_worker. destruct (snd kw); repeat split.
Qed.

(** [stop] touches no future and records nothing. *)
Lemma stop_fulfils_nothing d :
  futures (stop d) = futures d /\ log (stop d) = log d.
Proof.
  unfold stop. cbv zeta. cbn.
  destruct (cancel_workers_frame (_workers d) (set_stop_event true d)) as (-> & -> & _).
  split; reflexivity.
Qed.


Lemma step_no_fibers d e :
  e <> EvStart -> no_fibers d ->
  no_fibers (step d e) /\ log (step d e) = log d
  /\ forall fut, e <> EvCallerCancel fut ->
       futures d !! fut = Some Pending -> futures (step d e) !! fut = Some Pending.
Proof.
  intros Hne [Hr Hw].
  destruct e as [| |request now hex12| | |k now|k out c|a o|o|fut']; cbn.
  - contradiction.
  - unfold stop. cbv zeta. rewrite Hw. cbn. repeat split; auto.
  - unfold submit. destruct (queue_full _ _); [repeat split; auto|].
    destruct (mem d !! request) as [[entries|]|]; cbn; repeat split; auto.
    intros fut _ Hp. apply lookup_app_l_Some. exact Hp.
  - unfold router_step. rewrite Hr. repeat split; auto.
  - unfold capacity_timeout. rewrite Hr. repeat split; auto.
  - unfold worker_take. rewrite Hw. cbn. repeat split; auto.
  - unfold worker_done. rewrite Hw. cbn. repeat split; auto.
  - destruct (existsb _ _); cbn; repeat split; auto.
  - repeat split; auto.
  - destruct (futures d !! fut') as [[| | |]|] eqn:Hf; cbn; repeat split; auto.
    intros fut Hcancel Hp. rewrite list_lookup_insert_ne; [exact Hp|].
    intros ->. apply Hcancel. reflexivity.
Qed.

Lemma run_no_fibers evs d fut :
  Forall (fun e => e <> EvStart /\ e <> EvCallerCancel fut) evs ->
  no_fibers d -> futures d !! fut = Some Pending ->
  log (run d evs) = log d /\ futures (run d evs) !! fut = Some Pending.
Proof.
  intros Hevs. revert d. induction Hevs as [|e evs [He1 He2] _ IH]; intros d Hn Hp.
  - split; [reflexivity|exact Hp].
  - change (run d (e :: evs)) with (run (step d e) evs).
    destruct (step_no_fibers d e He1 Hn) as (Hn' & Hl & Hf).
    destruct (IH (step d e) Hn' (Hf fut He2 Hp)) as [Hl' Hp'].
    split; [rewrite Hl', Hl; reflexivity|exact Hp'].
Qed.

Lemma stop_no_fibers d : no_fibers (stop d).
Proof. unfold stop. cbv zeta. split; reflexivity. Qed.

(** C1 fails as stated: a task is submitted and accepted, the dispatcher
    stops before the router has taken it, and its slot is not failed with
    a shutdown error: it is still pending after [stop] and stays so. *)
Lemma C1_pending_slot_left_at_stop :
  let d0 := Demo.fresh (Demo.config "round-robin") Demo.sessions_a Demo.plain_request in
  exists item d,
    init (Demo.config "round-robin") Demo.sessions_a Demo.plain_request = Ok d0
    /\ submit 0 0 "000000000001" (start d0) = Ok (item, d)
    /\ futures (stop d) !! future item = Some Pending
    /\ fulfilled (log (stop d)) = []
    /\ forall later,
         Forall (fun e => e <> EvStart /\ e <> EvCallerCancel (future item)) later ->
         futures (run (stop d) later) !! future item = Some Pending.
Proof.
  cbv zeta.
  destruct (submit 0 0 "000000000001" _) as [[item d]|e] eqn:Hs;
    [|vm_compute in Hs; discriminate].
  exists item, d. split; [evaluate|]. split; [reflexivity|].
  vm_compute in Hs. injection Hs as <- <-.
  split; [evaluate|]. split; [evaluate|].
  intros later Hlater.
  refine (proj2 (run_no_fibers later _ _ Hlater (stop_no_fibers _) _)).
  evaluate.
Qed.

(** ** The router and the capacity wait *)

(** C2 fails on the code: account [a] has [max_concurrency = 1] and is
    running a first task when a second one is routed; the router waits
    for capacity, no worker finishes within the second, and the
    [TimeoutError] of [wait_for] ends the router coroutine.  The second
    task is lost with it, and a third one is never taken from the global
    queue, also after the worker has finished and signalled capacity. *)
Theorem C2_capacity_timeout_ends_router :
  let d0 := Demo.fresh (Demo.config "round-robin") Demo.sessions_a Demo.plain_request in
  let waiting := run d0 [EvStart;
                         EvSubmit 0 0 "000000000001"; EvRouter; EvWorkerTake "a" 0;
                         EvSubmit 0 1 "000000000002"; EvRouter] in
  let dead := step waiting EvCapacityTimeout in
  let later := run dead [EvWorkerDone "a" (Ok (JDict [])) (Demo.clock 3);
                         EvRouter;
                         EvSubmit 0 4 "000000000003"; EvRouter] in
  init (Demo.config "round-robin") Demo.sessions_a Demo.plain_request = Ok d0
  /\ match _router_task waiting with
     | Some (RWait item hint) => future item = 1
     | _ => False
     end
  /\ _capacity_event waiting = false
  /\ _router_task dead = Some (RFailed (Exn TimeoutError ""))
  /\ _router_task later = Some (RFailed (Exn TimeoutError ""))
  /\ _capacity_event later = true
  /\ map future (_global_queue later) = [2]
  /\ map done (futures later) = [true; false; false].
Proof.
  cbv zeta. evaluate.
Qed.

(** ** HTTP status of a failed task *)


Lemma submit_queue_full request now hex12 d :
  queue_full (Config.global_queue_size (_cfg d)) (_global_queue d) = true ->
  submit request now hex12 d = Raise (Exn RuntimeError "Global queue is full").
Proof. intros Hfull. unfold submit. rewrite Hfull. reflexivity. Qed.

(** C3 fails on the code: the request passes validation, the task
    command of account [a] exits with status 1, the worker hands the
    [RuntimeError] of [run_task] to the caller, and [v1_messages] answers
    429 (its [except RuntimeError] clause), not 500. *)
Theorem C3_backend_error_answered_429 :
  let d := start (Demo.fresh (Demo.config "round-robin") Demo.sessions_a
                    Demo.plain_request) in
  let failure := Exn RuntimeError "taskCommand failed for a rc=1: boom" in
  Api.v1_messages_validate Demo.plain_request 0 = inr "m"
  /\ fst (@System.serve Demo.platform [] Demo.os_fail 0 0 "000000000001"
            (Demo.clock 1) d) = Some (Raise failure)
  /\ @Api.v1_messages Demo.platform true Demo.plain_request 0 "0123456789abcdef"
       (Raise failure)
     = Api.HTTPException 429 "taskCommand failed for a rc=1: boom"
  /\ Api.status (@Api.v1_messages Demo.platform true Demo.plain_request 0
                   "0123456789abcdef" (Raise failure)) = 429%Z.
Proof. cbv zeta. evaluate. Qed.

(** ** Environment of the spawned commands *)

Lemma dict_get_set_same {V} (d : list (string * V)) k v :
  dict_get (dict_set d k v) k = Some v.
Proof.
  induction d as [|[k' v'] d IH]; cbn.
  - rewrite String.eqb_refl. reflexivity.
  - destruct (k' =? k)%string eqn:E; cbn; rewrite E; [reflexivity|exact IH].
Qed.

(** C9 fails on the code: for the account [{"id": "a", "stateDir":
    "~/agyc/a", ...}] without an [env], [load_config] expands the state
    directory to [/home/u/agyc/a] but defaults [AG_CONFIG_DIR] to the
    unexpanded text, and every spawn of the account receives
    [AG_CONFIG_DIR=~/agyc/a], whatever the process environment. *)
Theorem C9_AG_CONFIG_DIR_not_expanded :
  let cfg :=
    {| Config.id := "a";
       Config.state_dir := "/home/u/agyc/a";
       Config.start_command := Some [JStr "agyc-ide"];
       Config.health_command := None;
       Config.task_command := Some [JStr "agyc-task"];
       Config.env := [("AG_CONFIG_DIR", "~/agyc/a")];
       Config.max_concurrency := 1 |} in
  @Config.load_account Demo.platform Demo.raw_account = Ok cfg
  /\ forall environ,
       dict_get (SubprocessSession._env environ cfg) "AG_CONFIG_DIR"
       = Some "~/agyc/a"
       /\ SubprocessSession.start environ cfg false
          = Some {| SubprocessSession.argv := [JStr "agyc-ide"];
                    SubprocessSession.spawn_env := SubprocessSession._env environ cfg;
                    SubprocessSession.stdin := None |}
       /\ forall request,
            SubprocessSession.spawn_env
              (@SubprocessSession.task_spawn Demo.platform environ cfg
                 [JStr "agyc-task"] request)
            = SubprocessSession._env environ cfg.
Proof.
  cbv zeta. split; [vm_compute; reflexivity|].
  intros environ. split; [|split; [reflexivity|reflexivity]].
  unfold SubprocessSession._env, dict_setdefault, dict_update. cbn [fold_left fst snd Config.env].
  rewrite dict_get_set_same. apply dict_get_set_same.
Qed.

(** ** Routing *)

Lemma Qlt_bool_iff x y : Qlt_bool x y = true <-> (x < y)%Q.
Proof.
  unfold Qlt_bool. rewrite negb_true_iff. split.
  - intros Hle. apply Qnot_le_lt. intros Hyx. apply Qle_bool_iff in Hyx. congruence.
  - intros Hlt. destruct (Qle_bool y x) eqn:E; [|reflexivity].
    apply Qle_bool_iff in E. lra.
Qed.

Lemma Qlt_bool_false x y : Qlt_bool x y = false <-> (y <= x)%Q.
Proof.
  unfold Qlt_bool. rewrite negb_false_iff. apply Qle_bool_iff.
Qed.

Lemma min_by_first {A} (key : A -> Q) (l pre mid : list A) (best : A) :
  (forall y, In y pre -> (key best < key y)%Q) ->
  (forall y, In y mid -> (key best <= key y)%Q) ->
  first_min key (pre ++ best :: mid ++ l) (min_by key best l).
Proof.
  revert pre mid best. induction l as [|z l IH]; intros pre mid best Hpre Hmid; cbn.
  - exists pre, mid. rewrite app_nil_r. auto.
  - destruct (Qlt_bool (key z) (key best)) eqn:E.
    + apply Qlt_bool_iff in E.
      replace (pre ++ best :: mid ++ z :: l)
        with ((pre ++ best :: mid) ++ z :: [] ++ l)
        by (rewrite <- app_assoc; reflexivity).
      apply IH; [|intros y []].
      intros y Hy. apply in_app_or in Hy as [Hy|[<-|Hy]].
      * specialize (Hpre y Hy). lra.
      * exact E.
      * specialize (Hmid y Hy). lra.
    + apply Qlt_bool_false in E.
      replace (pre ++ best :: mid ++ z :: l)
        with (pre ++ best :: (mid ++ [z]) ++ l)
        by (rewrite <- app_assoc; reflexivity).
      apply IH; [exact Hpre|].
      intros y Hy. apply in_app_or in Hy as [Hy|[<-|[]]]; [exact (Hmid y Hy)|exact E].
Qed.

Lemma max_by_first {A} (key : A -> Q) (l pre mid : list A) (best : A) :
  (forall y, In y pre -> (key y < key best)%Q) ->
  (forall y, In y mid -> (key y <= key best)%Q) ->
  first_max key (pre ++ best :: mid ++ l) (max_by key best l).
Proof.
  revert pre mid best. induction l as [|z l IH]; intros pre mid best Hpre Hmid; cbn.
  - exists pre, mid. rewrite app_nil_r. auto.
  - destruct (Qlt_bool (key best) (key z)) eqn:E.
    + apply Qlt_bool_iff in E.
      replace (pre ++ best :: mid ++ z :: l)
        with ((pre ++ best :: mid) ++ z :: [] ++ l)
        by (rewrite <- app_assoc; reflexivity).
      apply IH; [|intros y []].
      intros y Hy. apply in_app_or in Hy as [Hy|[<-|Hy]].
      * specialize (Hpre y Hy). lra.
      * exact E.
      * specialize (Hmid y Hy). lra.
    + apply Qlt_bool_false in E.
      replace (pre ++ best :: mid ++ z :: l)
        with (pre ++ best :: (mid ++ [z]) ++ l)
        by (rewrite <- app_assoc; reflexivity).
      apply IH; [exact Hpre|].
      intros y Hy. apply in_app_or in Hy as [Hy|[<-|[]]]; [exact (Hmid y Hy)|exact E].
Qed.

Lemma insert_by_id_length x l : length (insert_by_id x l) = S (length l).
Proof.
  induction l as [|y l IH]; cbn; [reflexivity|].
  destruct (String.leb _ _); cbn; [reflexivity|]. rewrite IH. reflexivity.
Qed.

Lemma insert_by_id_perm x l : Permutation (insert_by_id x l) (x :: l).
Proof.
  induction l as [|y l IH]; cbn; [reflexivity|].
  destruct (String.leb _ _); [reflexivity|].
  rewrite IH. apply perm_swap.
Qed.

Lemma insert_by_id_sorted x l : Sorted id_le l -> Sorted id_le (insert_by_id x l).
Proof.
  induction 1 as [|y l Hs IH Hhd]; cbn.
  - constructor; constructor.
  - destruct (String.leb (id_of x) (id_of y)) eqn:E.
    + constructor; [constructor; assumption|constructor; exact E].
    + constructor; [exact IH|].
      assert (Hyx : id_le y x).
      { unfold id_le. destruct (String.leb_total (id_of x) (id_of y)); congruence. }
      destruct Hhd as [|z l' Hyz]; cbn; [constructor; exact Hyx|].
      destruct (String.leb (id_of x) (id_of z)); constructor; assumption.
Qed.

Lemma sorted_by_id_length l : length (sorted_by_id l) = length l.
Proof.
  induction l as [|x l IH]; cbn; [reflexivity|].
  rewrite insert_by_id_length. f_equal. exact IH.
Qed.

Lemma sorted_by_id_perm l : Permutation (sorted_by_id l) l.
Proof.
  induction l as [|x l IH]; cbn; [reflexivity|].
  rewrite insert_by_id_perm. constructor. exact IH.
Qed.

Lemma sorted_by_id_sorted l : Sorted id_le (sorted_by_id l).
Proof.
  induction l as [|x l IH]; cbn; [constructor|].
  apply insert_by_id_sorted. exact IH.
Qed.

Lemma strategy_of_str h cfg s :
  s <> "" -> strategy_of h cfg (VStr s) = Ok (lower s).
Proof.
  intros Hs. unfold strategy_of. cbn.
  apply String.eqb_neq in Hs. rewrite Hs. reflexivity.
Qed.

(** The round-robin branch of [_pick_account]. *)
Lemma pick_round_robin hint d s u us :
  strategy_of (mem d) (_cfg d) hint = Ok s ->
  str_in s lru_names = false -> str_in s health_names = false ->
  _usable_accounts d = u :: us ->
  let ordered := sorted_by_id (_usable_accounts d) in
  let n := Z.of_nat (length ordered) in
  exists chosen,
    ordered !! Z.to_nat (_rr_cursor d mod n) = Some chosen
    /\ _pick_account hint d
       = Ok (Some (fst chosen), set_rr_cursor ((_rr_cursor d + 1) mod n) d).
Proof.
  intros Hs Hlru Hhealth Hu. cbv zeta. unfold _pick_account.
  rewrite Hs. cbn [Py.bind]. rewrite Hu, Hlru, Hhealth. cbv zeta.
  set (ordered := sorted_by_id (u :: us)).
  set (n := Z.of_nat (length ordered)).
  assert (Hn : (0 < n)%Z).
  { unfold n, ordered. rewrite sorted_by_id_length. cbn [length]. lia. }
  assert (Hlt : Z.to_nat (_rr_cursor d mod n) < length ordered).
  { pose proof (Z.mod_pos_bound (_rr_cursor d) n Hn). unfold n in *. lia. }
  destruct (lookup_lt_is_Some_2 _ _ Hlt) as [chosen Hc].
  exists chosen. split; [exact Hc|].
  rewrite nth_lookup, Hc. cbn [default].
  rewrite Z.add_mod_idemp_l by lia. reflexivity.
Qed.

Lemma pick_none hint d s :
  strategy_of (mem d) (_cfg d) hint = Ok s -> _usable_accounts d = [] ->
  _pick_account hint d = Ok (None, d).
Proof.
  intros Hs Hu. unfold _pick_account. rewrite Hs. cbn [Py.bind]. rewrite Hu. reflexivity.
Qed.

(** C6: under round-robin a pick sorts the usable accounts by account id,
    takes the account at the cursor modulo their number and leaves the
    cursor one further (modulo that number); two accounts [a] and [b] that
    stay usable serve four requests submitted one after the other in the
    order a, b, a, b, in whichever order they were configured. *)
Theorem C6_round_robin_pick
    (hint : value) (d : Dispatcher) (s : string)
    (u : string * AccountState) (us : list (string * AccountState)) :
  strategy_of (mem d) (_cfg d) hint = Ok s ->
  str_in s lru_names = false -> str_in s health_names = false ->
  _usable_accounts d = u :: us ->
  let ordered := sorted_by_id (_usable_accounts d) in
  let n := Z.of_nat (length ordered) in
  Sorted id_le ordered
  /\ Permutation ordered (_usable_accounts d)
  /\ (exists chosen,
        ordered !! Z.to_nat (_rr_cursor d mod n) = Some chosen
        /\ _pick_account hint d
           = Ok (Some (fst chosen), set_rr_cursor ((_rr_cursor d + 1) mod n) d))
  /\ (forall sessions t1 t2 t3 t4,
        sessions = Demo.sessions_ab \/ sessions = Demo.sessions_ba ->
        served_by (log (Demo.four_requests sessions t1 t2 t3 t4))
        = ["a"; "b"; "a"; "b"]).
Proof.
  intros Hs Hlru Hhealth Hu ordered n.
  split; [apply sorted_by_id_sorted|]. split; [apply sorted_by_id_perm|].
  split; [exact (pick_round_robin hint d s u us Hs Hlru Hhealth Hu)|].
  intros sessions t1 t2 t3 t4 [->| ->]; vm_compute; reflexivity.
Qed.

(** The first pick of a fresh dispatcher over [b] and [a]. *)
Lemma C6_round_robin_pick_witness :
  let d := Demo.fresh (Demo.config "round-robin") Demo.sessions_ba Demo.plain_request in
  _pick_account VNone d = Ok (Some "a", set_rr_cursor 1 d).
Proof.
  cbv zeta.
  set (d := Demo.fresh (Demo.config "round-robin") Demo.sessions_ba Demo.plain_request).
  destruct (_usable_accounts d) as [|u us] eqn:Hu; [vm_compute in Hu; discriminate|].
  destruct (C6_round_robin_pick VNone d "round-robin" u us) as (_ & _ & (chosen & Hc & Hp) & _);
    [vm_compute; reflexivity..|exact Hu|].
  rewrite Hp. vm_compute in Hc. injection Hc as <-. vm_compute. reflexivity.
Defined.

(** C7, as the code has it: under lru the pick is the first usable
    account, in the order of the account map, among those with the
    smallest [last_used_ts]; under health the first among those with the
    largest [health_score].  The account id plays no part. *)
Theorem C7_lru_health_first_in_fleet_order
    (hint : value) (d : Dispatcher) (s : string)
    (u : string * AccountState) (us : list (string * AccountState)) :
  strategy_of (mem d) (_cfg d) hint = Ok s ->
  _usable_accounts d = u :: us ->
  (str_in s lru_names = true ->
   exists x, _pick_account hint d = Ok (Some (fst x), d)
             /\ first_min (fun ka => last_used_ts (snd ka)) (_usable_accounts d) x)
  /\ (str_in s lru_names = false -> str_in s health_names = true ->
      exists x, _pick_account hint d = Ok (Some (fst x), d)
                /\ first_max (fun ka => health_score (snd ka)) (_usable_accounts d) x).
Proof.
  intros Hs Hu. unfold _pick_account. rewrite Hs. cbn [Py.bind]. rewrite Hu. split.
  - intros ->. eexists. split; [reflexivity|].
    exact (min_by_first _ us [] [] u (fun y H => match H with end)
             (fun y H => match H with end)).
  - intros -> ->. eexists. split; [reflexivity|].
    exact (max_by_first _ us [] [] u (fun y H => match H with end)
             (fun y H => match H with end)).
Qed.

(** The lru pick of a fresh dispatcher over [b] and [a]. *)
Lemma C7_lru_health_first_in_fleet_order_witness :
  let d := Demo.fresh (Demo.config "lru") Demo.sessions_ba Demo.plain_request in
  exists x, _pick_account VNone d = Ok (Some (fst x), d)
            /\ first_min (fun ka => last_used_ts (snd ka)) (_usable_accounts d) x.
Proof.
  cbv zeta.
  set (d := Demo.fresh (Demo.config "lru") Demo.sessions_ba Demo.plain_request).
  destruct (_usable_accounts d) as [|u us] eqn:Hu; [vm_compute in Hu; discriminate|].
  rewrite <- Hu.
  refine (proj1 (C7_lru_health_first_in_fleet_order VNone d "lru" u us _ Hu) _);
    vm_compute; reflexivity.
Defined.

(** C7 fails as stated: [b] was configured before [a], both are usable
    and tie on [last_used_ts] and on [health_score], and both lru and
    health pick [b], not the lexicographically smaller [a]. *)
Lemma C7_tie_not_broken_by_account_id :
  let d_lru := Demo.fresh (Demo.config "lru") Demo.sessions_ba Demo.plain_request in
  let d_health := Demo.fresh (Demo.config "health") Demo.sessions_ba Demo.plain_request in
  init (Demo.config "lru") Demo.sessions_ba Demo.plain_request = Ok d_lru
  /\ init (Demo.config "health") Demo.sessions_ba Demo.plain_request = Ok d_health
  /\ map (fun ka => (id_of ka, last_used_ts (snd ka), health_score (snd ka)))
       (_usable_accounts d_lru) = [("b", 0%Q, 100%Q); ("a", 0%Q, 100%Q)]
  /\ _usable_accounts d_health = _usable_accounts d_lru
  /\ String.ltb "a" "b" = true
  /\ _pick_account VNone d_lru = Ok (Some "b", d_lru)
  /\ _pick_account VNone d_health = Ok (Some "b", d_health).
Proof. cbv zeta. evaluate. Qed.

(** C10 fails as stated: with lru configured and [b] configured before
    [a], the hint [""] is present in the request and is no strategy name,
    yet the task is routed by lru (to [b]) and not by round-robin (to
    [a]); and with round-robin configured the hint [health-score], which
    is not one of round-robin, lru, health, is routed by health. *)
Lemma C10_empty_hint_and_alias_not_round_robin :
  let d_lru := Demo.fresh (Demo.config "lru") Demo.sessions_ba
                 (Demo.hinted_request (VStr "")) in
  let d_rr := Demo.fresh (Demo.config "round-robin") Demo.sessions_ba
                (Demo.hinted_request (VStr "health-score")) in
  get_hint (mem d_lru) 0 = Ok (VStr "")
  /\ _pick_account (VStr "") d_lru = Ok (Some "b", d_lru)
  /\ _pick_account (VStr "round-robin") d_lru = Ok (Some "a", set_rr_cursor 1 d_lru)
  /\ get_hint (mem d_rr) 0 = Ok (VStr "health-score")
  /\ _pick_account (VStr "health-score") d_rr = Ok (Some "b", d_rr)
  /\ _pick_account (VStr "round-robin") d_rr = Ok (Some "a", set_rr_cursor 1 d_rr).
Proof. cbv zeta. evaluate. Qed.

(** ** The request copy made by [submit] *)

Lemma micro_owned_ok d d' : micro d d' -> owned_ok d -> owned_ok d'.
Proof.
  unfold owned_ok.
  intros [_ _ _ Hm Ho|k f _ _ _ _ Hm Ho|k f o _ _ _ _ Hm Ho
         |fut k o _ _ _ _ _ Hm Ho|_ _ _ Hm Ho|fut _ _ _ _ Hm Ho
         |o own Hm Ho _ _ _|a o _ Hm Ho _ _ _] Inv x;
    rewrite Hm, Ho; try exact (Inv x).
  - rewrite length_app. cbn [length].
    destruct own; [intros [<-|Hx]; [lia|]|intros Hx]; specialize (Inv x Hx); lia.
  - unfold heap, addr in *. rewrite length_insert. exact (Inv x).
Qed.

Lemma micro_OwnedInv a o d d' : micro d d' -> OwnedInv a o d -> OwnedInv a o d'.
Proof.
  intros Hm (Hok & Hin & Hlk).
  split; [exact (micro_owned_ok d d' Hm Hok)|].
  destruct Hm as [_ _ _ Hm Ho|k f _ _ _ _ Hm Ho|k f o' _ _ _ _ Hm Ho
         |fut k o' _ _ _ _ _ Hm Ho|_ _ _ Hm Ho|fut _ _ _ _ Hm Ho
         |o' own Hm Ho _ _ _|a' o' Hnot Hm Ho _ _ _];
    rewrite Hm, Ho; try (split; assumption).
  - split; [destruct own; [right|]; exact Hin|].
    apply lookup_app_l_Some. exact Hlk.
  - split; [exact Hin|]. unfold heap, addr in *.
    rewrite list_lookup_insert_ne; [exact Hlk|].
    intros ->. exact (Hnot Hin).
Qed.

Lemma run_owned_ok cfg sessions m d0 evs :
  init cfg sessions m = Ok d0 -> owned_ok (run d0 evs).
Proof.
  intros Hinit. eapply (micros_preserve owned_ok micro_owned_ok); [apply run_micros|].
  destruct (init_inv _ _ _ _ Hinit) as (_ & _ & _ & Ho & _).
  intros x. rewrite Ho. intros [].
Qed.

(** C8, as the code has it: [submit] makes a shallow copy.  The request of
    the task is a new dictionary with the entries the caller's mapping has
    at admission, and nothing that happens afterwards, the caller writing
    its own mapping or any other of its objects included, changes these
    entries; the containers nested in them stay shared with the caller. *)
Theorem C8_submit_copies_top_level
    (cfg : Config.DispatcherConfig) (sessions : list (string * SessionHandle))
    (m : heap) (d0 : Dispatcher) (evs : list Event)
    (body : addr) (now : Q) (hex12 : string) (item : TaskItem) (d' : Dispatcher) :
  init cfg sessions m = Ok d0 ->
  submit body now hex12 (run d0 evs) = Ok (item, d') ->
  exists entries,
    mem (run d0 evs) !! body = Some (ODict entries)
    /\ request item <> body
    /\ forall later, mem (run d' later) !! request item = Some (ODict entries).
Proof.
  intros Hinit Hsub.
  pose proof (run_owned_ok _ _ _ _ evs Hinit) as Hok.
  set (d := run d0 evs) in *.
  pose proof (submit_micros _ _ _ _ _ _ Hsub) as Hms.
  unfold submit in Hsub. destruct (queue_full _ _); [discriminate|].
  destruct (mem d !! body) as [[entries|]|] eqn:Hbody; try discriminate.
  injection Hsub as <- <-. cbn [request].
  exists entries. split; [reflexivity|].
  split; [apply lookup_lt_Some in Hbody; lia|].
  intros later.
  match goal with |- mem (run ?x _) !! _ = _ => set (d1 := x) in * end.
  assert (Inv : OwnedInv (length (mem d)) (ODict entries) d1).
  { split; [exact (micros_preserve owned_ok micro_owned_ok d d1 Hms Hok)|].
    split; [left; reflexivity|]. cbn. apply list_lookup_middle. reflexivity. }
  exact (proj2 (proj2 (micros_preserve _ (micro_OwnedInv _ _) d1 (run d1 later)
                         (run_micros later d1) Inv))).
Qed.

(** A request submitted to a started dispatcher. *)
Lemma C8_submit_copies_top_level_witness :
  let d := run (Demo.fresh (Demo.config "round-robin") Demo.sessions_ab
                  (Demo.hinted_request (VStr "lru"))) [EvStart] in
  match submit 0 0 "000000000001" d with
  | Ok (item, d') =>
      exists entries,
        mem d !! 0 = Some (ODict entries)
        /\ request item <> 0
        /\ forall later, mem (run d' later) !! request item = Some (ODict entries)
  | Raise _ => False
  end.
Proof.
  cbv zeta.
  destruct (submit 0 0 "000000000001" _) as [[item d']|e] eqn:Hs;
    [|vm_compute in Hs; discriminate].
  exact (C8_submit_copies_top_level
           (Demo.config "round-robin") Demo.sessions_ab
           (Demo.hinted_request (VStr "lru")) _ [EvStart] 0 0 "000000000001"
           item d' ltac:(vm_compute; reflexivity) Hs).
Defined.

(** C8 fails as stated: the request carries the hint [lru] in its nested
    [metadata.routing] object; after [submit] the caller writes [health]
    into that object, and both the hint the router reads from the task and
    the request the worker passes to the session show [health]: the copy
    is not deep. *)
Lemma C8_nested_mutation_reaches_the_task :
  let d0 := Demo.fresh (Demo.config "round-robin") Demo.sessions_ab
              (Demo.hinted_request (VStr "lru")) in
  let write := EvCallerMutate 4 (ODict [("strategyHint", VStr "health")]) in
  let sent (hint : string) :=
    Some (Ok (JDict [("model", JStr "m");
                     ("messages", JList [JDict [("role", JStr "user")]]);
                     ("metadata",
                      JDict [("routing", JDict [("strategyHint", JStr hint)])]);
                     ("account_id", JStr "a")])) in
  match submit 0 0 "000000000001" (start d0) with
  | Ok (item, d) =>
      get_hint (mem d) (request item) = Ok (VStr "lru")
      /\ get_hint (mem (step d write)) (request item) = Ok (VStr "health")
      /\ System.session_request (run d [EvRouter; EvWorkerTake "a" 1]) "a"
         = sent "lru"
      /\ System.session_request (run d [write; EvRouter; EvWorkerTake "a" 1]) "a"
         = sent "health"
  | Raise _ => False
  end.
Proof. vm_compute. repeat (split; [reflexivity|]). reflexivity. Qed.


(** * Further properties *)

(** ** Dictionaries *)

Lemma dict_get_set_other {V} (d : list (string * V)) k k' v :
  k' <> k -> dict_get (dict_set d k v) k' = dict_get d k'.
Proof.
  intros Hne. induction d as [|[k0 v0] d IH]; cbn.
  - apply String.eqb_neq in Hne. rewrite String.eqb_sym in Hne. rewrite Hne. reflexivity.
  - destruct (k0 =? k)%string eqn:E; cbn.
    + apply String.eqb_eq in E. subst k0.
      apply String.eqb_neq in Hne. rewrite String.eqb_sym in Hne. rewrite Hne. reflexivity.
    + destruct (k0 =? k')%string; [reflexivity|exact IH].
Qed.

Lemma dict_get_In {V} (d : list (string * V)) k v :
  dict_get d k = Some v -> In (k, v) d.
Proof.
  induction d as [|[k0 v0] d IH]; cbn; [discriminate|].
  destruct (k0 =? k)%string eqn:E.
  - apply String.eqb_eq in E. intros [= <-]. left. subst. reflexivity.
  - intros H. right. exact (IH H).
Qed.

Lemma dict_get_None {V} (d : list (string * V)) k :
  dict_get d k = None <-> ~ In k (map fst d).
Proof.
  induction d as [|[k0 v0] d IH]; cbn; [tauto|].
  destruct (k0 =? k)%string eqn:E.
  - apply String.eqb_eq in E. split; [discriminate|]. intros H. exfalso. auto.
  - apply String.eqb_neq in E. rewrite IH. tauto.
Qed.

Lemma dict_get_NoDup {V} (d : list (string * V)) k v :
  NoDup (map fst d) -> In (k, v) d -> dict_get d k = Some v.
Proof.
  induction d as [|[k0 v0] d IH]; cbn; [intros _ []|].
  intros Hnd Hin. apply NoDup_cons in Hnd as [Hnot Hnd].
  destruct Hin as [[= -> ->]|Hin]; [rewrite String.eqb_refl; reflexivity|].
  destruct (k0 =? k)%string eqn:E; [|exact (IH Hnd Hin)].
  apply String.eqb_eq in E. subst k0. exfalso. apply Hnot.
  apply list_elem_of_In. apply (in_map fst) in Hin. exact Hin.
Qed.

Lemma dict_set_keys {V} (d : list (string * V)) k v :
  map fst (dict_set d k v)
  = if existsb (String.eqb k) (map fst d) then map fst d else map fst d ++ [k].
Proof.
  induction d as [|[k0 v0] d IH]; cbn; [reflexivity|].
  rewrite (String.eqb_sym k k0).
  destruct (k0 =? k)%string eqn:E; cbn; [reflexivity|].
  rewrite IH. destruct (existsb _ _); reflexivity.
Qed.

Lemma dict_set_NoDup {V} (d : list (string * V)) k v :
  NoDup (map fst d) -> NoDup (map fst (dict_set d k v)).
Proof.
  intros Hnd. rewrite dict_set_keys.
  destruct (existsb (String.eqb k) (map fst d)) eqn:E; [exact Hnd|].
  apply NoDup_app. split; [exact Hnd|]. split; [|apply NoDup_singleton].
  intros x Hx Hk. apply list_elem_of_In in Hx, Hk. destruct Hk as [<-|[]].
  apply not_true_iff_false in E. apply E. apply existsb_exists.
  exists k. split; [exact Hx|apply String.eqb_refl].
Qed.

Lemma dict_update_NoDup {V} (e d : list (string * V)) :
  NoDup (map fst d) -> NoDup (map fst (dict_update d e)).
Proof.
  unfold dict_update. revert d. induction e as [|[k v] e IH]; intros d Hnd; cbn; [exact Hnd|].
  apply IH. apply dict_set_NoDup. exact Hnd.
Qed.

Lemma dict_update_get {V} (e d : list (string * V)) k :
  dict_get (dict_update d e) k
  = match dict_get (rev e) k with
    | Some v => Some v
    | None => dict_get d k
    end.
Proof.
  unfold dict_update. revert d. induction e as [|[k0 v0] e IH]; intros d; cbn; [reflexivity|].
  rewrite IH.
  assert (Hrev : dict_get (rev e ++ [(k0, v0)]) k
                 = match dict_get (rev e) k with
                   | Some v => Some v
                   | None => if (k0 =? k)%string then Some v0 else None
                   end).
  { generalize (rev e). intros l. induction l as [|[k1 v1] l IHl]; cbn; [reflexivity|].
    destruct (k1 =? k)%string; [reflexivity|exact IHl]. }
  rewrite Hrev. destruct (dict_get (rev e) k); [reflexivity|].
  destruct (k0 =? k)%string eqn:E.
  - apply String.eqb_eq in E. subst. apply dict_get_set_same.
  - apply String.eqb_neq in E. apply dict_get_set_other. congruence.
Qed.

Lemma dict_get_rev {V} (e : list (string * V)) k :
  NoDup (map fst e) -> dict_get (rev e) k = dict_get e k.
Proof.
  intros Hnd. destruct (dict_get e k) as [v|] eqn:E.
  - apply dict_get_NoDup.
    + rewrite map_rev. apply NoDup_ListNoDup, List.NoDup_rev, NoDup_ListNoDup. exact Hnd.
    + apply in_rev. rewrite rev_involutive. exact (dict_get_In _ _ _ E).
  - apply dict_get_None. apply dict_get_None in E.
    rewrite map_rev. intros H. apply E. apply in_rev. exact H.
Qed.

(** ** The account id in a task result *)

Lemma dict_setdefault_get {V} (d : list (string * V)) k v k' :
  dict_get (dict_setdefault d k v) k'
  = match dict_get d k' with
    | Some x => Some x
    | None => if (k =? k')%string then Some v else None
    end.
Proof.
  unfold dict_setdefault. destruct (dict_get d k) as [x|] eqn:E.
  - destruct (dict_get d k') eqn:E'; [reflexivity|].
    destruct (k =? k')%string eqn:Ek; [|reflexivity].
    apply String.eqb_eq in Ek. subst. congruence.
  - destruct (k =? k')%string eqn:Ek.
    + apply String.eqb_eq in Ek. subst k'. rewrite E. apply dict_get_set_same.
    + apply String.eqb_neq in Ek. rewrite dict_get_set_other by congruence.
      destruct (dict_get d k'); reflexivity.
Qed.


(** What lines 170-171 make of a result they run through on. *)
Lemma inject_account_id_inv (k : string) (r r' : json) :
  inject_account_id k r = Ok r' ->
  exists r0 d m,
    r = JDict r0 /\ r' = JDict d
    /\ dict_get d "metadata" = Some (JDict m)
    /\ dict_get m "account_id" = Some (JStr k)
    /\ (forall key, key <> "metadata" -> dict_get d key = dict_get r0 key)
    /\ (forall key, key <> "account_id" ->
                    dict_get m key = dict_get (metadata_of r0) key).
Proof.
  destruct r as [| | | | | |r0]; try discriminate.
  intros H. exists r0. unfold metadata_of.
  cbn [inject_account_id] in H. unfold dict_setdefault in H.
  assert (Hfin : forall r1 base old,
            (forall key, key <> "metadata" -> dict_get r1 key = dict_get r0 key) ->
            (forall key, key <> "account_id" -> dict_get base key = dict_get old key) ->
            r' = JDict (dict_set r1 "metadata"
                          (JDict (dict_set base "account_id" (JStr k)))) ->
            exists d m,
              JDict r0 = JDict r0 /\ r' = JDict d
              /\ dict_get d "metadata" = Some (JDict m)
              /\ dict_get m "account_id" = Some (JStr k)
              /\ (forall key, key <> "metadata" -> dict_get d key = dict_get r0 key)
              /\ (forall key, key <> "account_id" -> dict_get m key = dict_get old key)).
  { intros r1 base old Hr1 Hbase ->. eexists. eexists.
    split; [reflexivity|]. split; [reflexivity|].
    split; [apply dict_get_set_same|]. split; [apply dict_get_set_same|].
    split.
    - intros key Hne. rewrite dict_get_set_other by exact Hne. apply Hr1. exact Hne.
    - intros key Hne. rewrite dict_get_set_other by exact Hne. apply Hbase. exact Hne. }
  destruct (dict_get r0 "metadata") as [x|] eqn:E.
  - rewrite E in H. cbn -[dict_set dict_get json_truthy] in H.
    destruct (json_truthy x) eqn:Ht.
    + destruct x as [| | | | | |m0]; try discriminate.
      cbn -[dict_set dict_get] in H. injection H as <-.
      apply (Hfin r0 m0 m0); reflexivity.
    + cbn -[dict_set dict_get] in H. injection H as <-.
      apply (Hfin r0 []); try reflexivity.
      intros key _. destruct x as [| | | | | |m0]; try reflexivity.
      destruct m0; [reflexivity|discriminate].
  - rewrite dict_get_set_same in H. cbn -[dict_set dict_get] in H. injection H as <-.
    apply (Hfin (dict_set r0 "metadata" (JDict [])) [] []); try reflexivity.
    intros key Hne. apply dict_get_set_other. exact Hne.
Qed.

(** ** When the account id can be attached *)

Lemma inject_ok_annotatable k r r' :
  inject_account_id k r = Ok r' -> annotatable r.
Proof.
  destruct r as [| | | | | |r0]; try discriminate. cbn [inject_account_id annotatable].
  rewrite dict_setdefault_get.
  destruct (dict_get r0 "metadata") as [v|]; cbn [default id]; [|intros _; exact I].
  destruct (json_truthy v) eqn:Ht; [|destruct v; intros _; first [exact I|reflexivity]].
  destruct v; cbn [Py.bind]; try discriminate. intros _. exact I.
Qed.

Lemma inject_raise_not_annotatable k r e :
  inject_account_id k r = Raise e ->
  ~ annotatable r /\ (exn_cls e = AttributeError \/ exn_cls e = TypeError).
Proof.
  destruct r as [| | | | | |r0]; cbn [inject_account_id annotatable];
    try (intros [= <-]; split; [intros []|left; reflexivity]).
  rewrite dict_setdefault_get.
  destruct (dict_get r0 "metadata") as [v|]; cbn [default id];
    [|cbn; discriminate].
  destruct (json_truthy v) eqn:Ht; [|cbn; discriminate].
  destruct v; cbn [Py.bind]; try discriminate;
    intros [= <-]; (split; [discriminate|right; reflexivity]).
Qed.

Lemma annotatable_inject k r :
  annotatable r -> exists r', inject_account_id k r = Ok r'.
Proof.
  intros Ha. destruct (inject_account_id k r) as [r'|e] eqn:E; [eauto|].
  destruct (inject_raise_not_annotatable _ _ _ E) as [Hn _]. contradiction.
Qed.

Lemma not_annotatable_inject k r :
  ~ annotatable r ->
  exists e, inject_account_id k r = Raise e
            /\ (exn_cls e = AttributeError \/ exn_cls e = TypeError).
Proof.
  intros Hn. destruct (inject_account_id k r) as [r'|e] eqn:E.
  - exfalso. exact (Hn (inject_ok_annotatable _ _ _ E)).
  - exists e. split; [reflexivity|]. exact (proj2 (inject_raise_not_annotatable _ _ _ E)).
Qed.




(** ** The environment of a spawn *)

(** X2: in the environment of every spawn the account's entries win over
    the inherited ones, the other inherited entries are kept, and
    [AG_CONFIG_DIR] is the account's state directory only when neither
    the account nor the process environment sets it. *)
Theorem env_precedence
    (environ : list (string * string)) (cfg : Config.AccountConfig) (k : string) :
  NoDup (map fst (Config.env cfg)) ->
  dict_get (SubprocessSession._env environ cfg) k
  = match dict_get (Config.env cfg) k with
    | Some v => Some v
    | None =>
        match dict_get environ k with
        | Some v => Some v
        | None =>
            if (k =? "AG_CONFIG_DIR")%string then Some (Config.state_dir cfg)
            else None
        end
    end.
Proof.
  intros Hnd. unfold SubprocessSession._env.
  rewrite dict_setdefault_get, dict_update_get, (dict_get_rev _ _ Hnd).
  destruct (dict_get (Config.env cfg) k); [reflexivity|].
  destruct (dict_get environ k); [reflexivity|].
  rewrite String.eqb_sym. reflexivity.
Qed.

Lemma env_precedence_witness :
  dict_get (SubprocessSession._env [("PATH", "/bin"); ("AG_CONFIG_DIR", "/etc/ag")]
              (Demo.account "a" 1)) "AG_CONFIG_DIR"
  = Some "/var/agyc/a".
Proof.
  rewrite (env_precedence _ (Demo.account "a" 1) "AG_CONFIG_DIR").
  - reflexivity.
  - cbn. apply NoDup_singleton.
Defined.

(** The environment of a spawn has no duplicate variable when the
    process environment has none. *)
Lemma env_NoDup environ cfg :
  NoDup (map fst environ) -> NoDup (map fst (SubprocessSession._env environ cfg)).
Proof.
  intros Hnd. unfold SubprocessSession._env, dict_setdefault.
  destruct (dict_get _ _); [|apply dict_set_NoDup]; apply dict_update_NoDup; exact Hnd.
Qed.

(** ** Accounts accepted by [load_config] *)

Lemma command_of_nonempty `{Platform} a key c :
  Config.command_of a key = Ok c -> c <> Some [].
Proof.
  unfold Config.command_of.
  destruct (default JNull (dict_get a key)) as [|b|z|q|s|l|d]; cbn.
  - intros [= <-]. discriminate.
  - destruct b; [discriminate|]. intros [= <-]. discriminate.
  - destruct (z =? 0)%Z; cbn; [|discriminate]. intros [= <-]. discriminate.
  - destruct (Qeq_bool q 0); cbn; [|discriminate]. intros [= <-]. discriminate.
  - destruct s as [|c0 s]; cbn; intros [= <-]; discriminate.
  - destruct l; intros [= <-]; discriminate.
  - destruct d; intros [= <-]; discriminate.
Qed.

Lemma env_of_NoDup `{Platform} a env :
  Config.env_of a = Ok env -> NoDup (map fst env).
Proof.
  unfold Config.env_of. destruct (json_truthy _); [|intros [= <-]; constructor].
  destruct (default JNull (dict_get a "env")); try discriminate.
  intros [= <-]. apply dict_update_NoDup. constructor.
Qed.


(** X3: every account [load_config] accepts has a non-empty id, at least
    one permit, an environment without duplicate names that sets
    [AG_CONFIG_DIR], and commands that are absent or non-empty; an account
    that gives no [env] gets the state directory as written in the file
    (stripped, not expanded) as [AG_CONFIG_DIR]. *)
Theorem load_account_validated `{Platform} (a : json) (cfg : Config.AccountConfig) :
  Config.load_account a = Ok cfg ->
  Config.id cfg <> ""
  /\ (1 <= Config.max_concurrency cfg)%Z
  /\ NoDup (map fst (Config.env cfg))
  /\ (exists v, dict_get (Config.env cfg) "AG_CONFIG_DIR" = Some v)
  /\ Config.start_command cfg <> Some []
  /\ Config.health_command cfg <> Some []
  /\ Config.task_command cfg <> Some []
  /\ (forall a0, a = JDict a0 -> dict_get a0 "env" = None ->
        Config.env cfg
        = [("AG_CONFIG_DIR",
            str_strip (Config.py_str (default (JStr "") (dict_get a0 "stateDir"))))]).
Proof.
  destruct a as [| | | | | |a0]; try discriminate. cbn [Config.load_account].
  destruct (String.eqb _ "") eqn:Eid; [discriminate|].
  destruct (String.eqb (str_strip (Config.py_str (default (JStr "") (dict_get a0 "stateDir")))) "")
    eqn:Edir; [discriminate|].
  destruct (Config.env_of a0) as [env|] eqn:Eenv; [|discriminate]. cbn [Py.bind].
  destruct (Config.command_of a0 "startCommand") as [c1|] eqn:E1; [|discriminate].
  destruct (Config.command_of a0 "healthCommand") as [c2|] eqn:E2; [|discriminate].
  destruct (Config.command_of a0 "taskCommand") as [c3|] eqn:E3; [|discriminate].
  cbn [Py.bind].
  destruct (Config.py_int _) as [mc|]; [|discriminate]. cbn [Py.bind].
  intros [= <-]. cbn.
  split; [apply String.eqb_neq; exact Eid|]. split; [lia|].
  pose proof (env_of_NoDup _ _ Eenv) as Hnd.
  split; [unfold dict_setdefault; destruct (dict_get env _);
          [exact Hnd|apply dict_set_NoDup; exact Hnd]|].
  split.
  { rewrite dict_setdefault_get. destruct (dict_get env "AG_CONFIG_DIR"); eauto. }
  split; [exact (command_of_nonempty _ _ _ E1)|].
  split; [exact (command_of_nonempty _ _ _ E2)|].
  split; [exact (command_of_nonempty _ _ _ E3)|].
  intros a1 [= <-] Hnone. unfold Config.env_of in Eenv. rewrite Hnone in Eenv.
  cbn in Eenv. injection Eenv as <-. reflexivity.
Qed.

Lemma load_account_validated_witness :
  Config.id (Demo.account "a" 1) <> ""
  /\ (1 <= Config.max_concurrency (Demo.account "a" 1))%Z
  /\ NoDup (map fst (Config.env (Demo.account "a" 1)))
  /\ Config.task_command (Demo.account "a" 1) <> Some [].
Proof.
  pose proof (@load_account_validated Demo.platform
                (JDict [("id", JStr " a "); ("stateDir", JStr "/var/agyc/a");
                        ("taskCommand", JList [JStr "agyc-task"])])
                (Demo.account "a" 1) ltac:(vm_compute; reflexivity))
    as (H1 & H2 & H3 & _ & _ & _ & H7 & _).
  exact (conj H1 (conj H2 (conj H3 H7))).
Defined.

(** ** The session map and the account map *)

Lemma start_all_fold accounts acc :
  fold_left (fun sessions a => dict_set sessions (Config.id a) (handle_of a)) accounts acc
  = dict_update acc (map (fun a => (Config.id a, handle_of a)) accounts).
Proof.
  unfold dict_update. revert acc. induction accounts as [|a l IH]; intros acc; cbn;
    [reflexivity|apply IH].
Qed.

Lemma dict_update_In {V} (e d : list (string * V)) k v :
  In (k, v) (dict_update d e) -> In (k, v) d \/ In (k, v) e.
Proof.
  unfold dict_update. revert d. induction e as [|[k0 v0] e IH]; intros d; cbn; [auto|].
  intros Hin. destruct (IH _ Hin) as [Hd|He]; [|auto].
  clear -Hd. induction d as [|[k1 v1] d IHd]; cbn in Hd.
  - destruct Hd as [[= -> ->]|[]]. right. left. reflexivity.
  - destruct (k1 =? k0)%string eqn:E.
    + apply String.eqb_eq in E. subst k1.
      destruct Hd as [[= -> ->]|Hd]; [right; left; reflexivity|left; right; exact Hd].
    + destruct Hd as [Hd|Hd]; [left; left; exact Hd|].
      destruct (IHd Hd) as [H|H]; [left; right; exact H|right; exact H].
Qed.

Lemma start_all_eq accounts :
  SessionManager.start_all accounts
  = dict_update [] (map (fun a => (Config.id a, handle_of a)) accounts).
Proof. unfold SessionManager.start_all. apply start_all_fold. Qed.

Lemma start_all_NoDup accounts : NoDup (map fst (SessionManager.start_all accounts)).
Proof. rewrite start_all_eq. apply dict_update_NoDup. constructor. Qed.




(** X4: the session map has one entry per account id, stored under the id
    its handle carries, with the account's permit count; of two accounts
    with the same id the later one is kept. *)
Theorem start_all_sessions (accounts : list Config.AccountConfig) :
  NoDup (map fst (SessionManager.start_all accounts))
  /\ (forall k h, In (k, h) (SessionManager.start_all accounts) ->
        account_id h = k /\ In (session h) accounts
        /\ Config.id (session h) = k
        /\ max_concurrency h = Config.max_concurrency (session h))
  /\ (forall l1 a l2, accounts = l1 ++ a :: l2 ->
        ~ In (Config.id a) (map Config.id l2) ->
        dict_get (SessionManager.start_all accounts) (Config.id a) = Some (handle_of a)).
Proof.
  unfold SessionManager.start_all. fold handle_of.
  change (fold_left _ accounts [])
    with (fold_left (fun sessions a => dict_set sessions (Config.id a) (handle_of a))
            accounts []).
  rewrite start_all_fold. split; [apply dict_update_NoDup; constructor|]. split.
  - intros k h Hin. apply dict_update_In in Hin as [[]|Hin].
    apply in_map_iff in Hin as (a & [= <- <-] & Ha). cbn. auto.
  - intros l1 a l2 -> Hlast. rewrite dict_update_get.
    rewrite map_app, rev_app_distr. cbn [map rev]. rewrite <- app_assoc. cbn [app].
    assert (Hfirst : forall (l : list (string * SessionHandle)) rest,
              ~ In (Config.id a) (map fst l) ->
              dict_get (l ++ (Config.id a, handle_of a) :: rest) (Config.id a)
              = Some (handle_of a)).
    { intros l rest. induction l as [|[k0 v0] l IH]; cbn; intros Hn.
      - rewrite String.eqb_refl. reflexivity.
      - destruct (k0 =? Config.id a)%string eqn:E.
        + apply String.eqb_eq in E. exfalso. apply Hn. left. exact E.
        + apply IH. intros H. apply Hn. right. exact H. }
    rewrite Hfirst; [reflexivity|].
    rewrite map_rev, map_map. cbn. intros H. apply Hlast. apply in_rev. exact H.
Qed.

Lemma start_all_sessions_witness :
  dict_get (SessionManager.start_all
              [Demo.account "a" 1; Demo.account "b" 1; Demo.account "a" 4]) "a"
  = Some (handle_of (Demo.account "a" 4)).
Proof.
  refine (proj2 (proj2 (start_all_sessions
            [Demo.account "a" 1; Demo.account "b" 1; Demo.account "a" 4]))
            [Demo.account "a" 1; Demo.account "b" 1] (Demo.account "a" 4) [] eq_refl _).
  intros [].
Defined.

(** ** Construction of the dispatcher *)

Lemma init_accounts_ok sessions acc :
  Forall (fun kh => (0 <= max_concurrency (snd kh))%Z) sessions ->
  init_accounts sessions acc
  = Ok (dict_update acc (map (fun kh => (fst kh, new_account (snd kh))) sessions)).
Proof.
  unfold dict_update. intros Hall. revert acc.
  induction Hall as [|[k h] rest Hh _ IH]; intros acc; cbn; [reflexivity|].
  cbn in Hh. destruct (max_concurrency h <? 0)%Z eqn:E; [lia|]. apply IH.
Qed.

Lemma init_accounts_negative sessions acc :
  Exists (fun kh => (max_concurrency (snd kh) < 0)%Z) sessions ->
  init_accounts sessions acc
  = Raise (Exn ValueError "Semaphore initial value must be >= 0").
Proof.
  intros Hex. revert acc. induction sessions as [|[k h] rest IH]; intros acc.
  - apply Exists_nil in Hex. contradiction.
  - cbn. destruct (max_concurrency h <? 0)%Z eqn:E; [reflexivity|].
    apply IH. apply Exists_cons in Hex as [Hh|Hr]; [cbn in Hh; lia|exact Hr].
Qed.

Lemma dict_update_fresh {V} (e : list (string * V)) :
  NoDup (map fst e) -> dict_update [] e = e.
Proof.
  intros Hnd.
  assert (Hgen : forall d, NoDup (map fst (d ++ e)) -> dict_update d e = d ++ e).
  { clear Hnd. unfold dict_update. induction e as [|[k v] e IH]; intros d Hd; cbn.
    - rewrite app_nil_r. reflexivity.
    - assert (Hset : dict_set d k v = d ++ [(k, v)]).
      { rewrite map_app in Hd. apply NoDup_app in Hd as (_ & Hdis & _).
        assert (Hk : ~ In k (map fst d)).
        { intros Hin. apply (Hdis k); [apply list_elem_of_In; exact Hin|].
          cbn. left. }
        clear -Hk. induction d as [|[k0 v0] d IHd]; cbn; [reflexivity|].
        destruct (k0 =? k)%string eqn:E.
        - apply String.eqb_eq in E. exfalso. apply Hk. left. exact E.
        - f_equal. apply IHd. intros H. apply Hk. right. exact H. }
      rewrite Hset, IH; rewrite <- app_assoc; [reflexivity|exact Hd]. }
  apply (Hgen []). exact Hnd.
Qed.


(** X5: building the dispatcher fails exactly when some session has a
    negative permit count, with [ValueError]; otherwise every session
    becomes an account, in the order of the session map, with score 100,
    no task in flight, all permits free and an empty queue. *)
Theorem init_builds_fleet
    (cfg : Config.DispatcherConfig) (sessions : list (string * SessionHandle))
    (m : heap) :
  NoDup (map fst sessions) ->
  (Forall (fun kh => (0 <= max_concurrency (snd kh))%Z) sessions ->
   exists d0, init cfg sessions m = Ok d0
     /\ _accounts d0 = map (fun kh => (fst kh, new_account (snd kh))) sessions
     /\ no_fibers d0 /\ _global_queue d0 = [] /\ futures d0 = [])
  /\ (Exists (fun kh => (max_concurrency (snd kh) < 0)%Z) sessions ->
      init cfg sessions m
      = Raise (Exn ValueError "Semaphore initial value must be >= 0")).
Proof.
  intros Hnd. split.
  - intros Hall. unfold init. rewrite (init_accounts_ok _ _ Hall). cbn [Py.bind].
    eexists. split; [reflexivity|]. cbn. split.
    + apply dict_update_fresh. rewrite map_map. cbn. exact Hnd.
    + repeat split.
  - intros Hex. unfold init. rewrite (init_accounts_negative _ _ Hex). reflexivity.
Qed.

Lemma init_builds_fleet_witness :
  exists d0, init (Demo.config "lru") Demo.sessions_ba Demo.plain_request = Ok d0
    /\ _accounts d0 = map (fun kh => (fst kh, new_account (snd kh))) Demo.sessions_ba
    /\ no_fibers d0 /\ _global_queue d0 = [] /\ futures d0 = [].
Proof.
  apply (proj1 (init_builds_fleet (Demo.config "lru") Demo.sessions_ba
                  Demo.plain_request
                  (start_all_NoDup [Demo.account "b" 1; Demo.account "a" 1]))).
  repeat constructor; cbn; lia.
Defined.


(** ** [load_config] *)

Lemma load_accounts_Forall2 `{Platform} l cs :
  Config.load_accounts l = Ok cs ->
  Forall2 (fun a c => Config.load_account a = Ok c) l cs.
Proof.
  revert cs. induction l as [|a l IH]; intros cs; cbn [Config.load_accounts].
  - intros [= <-]. constructor.
  - destruct (Config.load_account a) as [c|] eqn:Ea; [|discriminate]. cbn [Py.bind].
    destruct (Config.load_accounts l) as [cs0|]; [|discriminate]. cbn [Py.bind].
    intros [= <-]. constructor; [exact Ea|apply IH; reflexivity].
Qed.

Lemma section_falsy `{Platform} raw key :
  json_truthy (default JNull (dict_get raw key)) = false ->
  Config.section raw key = Ok [].
Proof.
  unfold Config.section. destruct (dict_get raw key) as [v|]; cbn [default].
  - intros ->. reflexivity.
  - reflexivity.
Qed.

(** What a successful [load_config] went through. *)
Lemma load_config_inv `{Platform} raw cfg :
  Config.load_config raw = Ok cfg ->
  exists r server_raw disp_raw items port gqs paqs tts hcis,
    raw = JDict r
    /\ Config.section r "server" = Ok server_raw
    /\ Config.py_int (default (JInt 8088) (dict_get server_raw "port")) = Ok port
    /\ Config.section r "dispatcher" = Ok disp_raw
    /\ Config.py_int (default (JInt 200) (dict_get disp_raw "globalQueueSize")) = Ok gqs
    /\ Config.py_int (default (JInt 50) (dict_get disp_raw "perAccountQueueSize")) = Ok paqs
    /\ Config.py_int (default (JInt 600) (dict_get disp_raw "taskTimeoutSeconds")) = Ok tts
    /\ Config.py_int (default (JInt 10) (dict_get disp_raw "healthCheckIntervalSeconds"))
       = Ok hcis
    /\ Config.accounts_items r = Ok items
    /\ Config.load_accounts items = Ok (Config.accounts cfg)
    /\ Config.accounts cfg <> []
    /\ Config.server cfg
       = {| Config.host :=
              Config.py_str (default (JStr "127.0.0.1") (dict_get server_raw "host"));
            Config.port := port |}
    /\ Config.dispatcher cfg
       = {| Config.routing :=
              Config.py_str (default (JStr "round-robin") (dict_get disp_raw "routing"));
            Config.global_queue_size := gqs;
            Config.per_account_queue_size := paqs;
            Config.task_timeout_seconds := tts;
            Config.health_check_interval_seconds := hcis |}.
Proof.
  destruct raw as [| | | | | |r]; try discriminate. cbn [Config.load_config].
  destruct (Config.section r "server") as [server_raw|] eqn:E1; [|discriminate].
  cbn [Py.bind].
  destruct (Config.py_int (default (JInt 8088) (dict_get server_raw "port")))
    as [port|] eqn:E2; [|discriminate]. cbn [Py.bind].
  destruct (Config.section r "dispatcher") as [disp_raw|] eqn:E3; [|discriminate].
  cbn [Py.bind].
  cbn [Config.routing Config.global_queue_size Config.per_account_queue_size
       Config.task_timeout_seconds Config.health_check_interval_seconds
       Config.default_DispatcherConfig].
  destruct (Config.py_int (default (JInt 200) (dict_get disp_raw "globalQueueSize")))
    as [gqs|] eqn:E4; [|discriminate]. cbn [Py.bind].
  destruct (Config.py_int (default (JInt 50) (dict_get disp_raw "perAccountQueueSize")))
    as [paqs|] eqn:E5; [|discriminate]. cbn [Py.bind].
  destruct (Config.py_int (default (JInt 600) (dict_get disp_raw "taskTimeoutSeconds")))
    as [tts|] eqn:E6; [|discriminate]. cbn [Py.bind].
  destruct (Config.py_int
              (default (JInt 10) (dict_get disp_raw "healthCheckIntervalSeconds")))
    as [hcis|] eqn:E7; [|discriminate]. cbn [Py.bind].
  destruct (Config.accounts_items r) as [items|] eqn:E8; [|discriminate]. cbn [Py.bind].
  destruct (Config.load_accounts items) as [[|c cs]|] eqn:E9; try discriminate.
  cbn [Py.bind].
  intros [= <-]. exists r, server_raw, disp_raw, items, port, gqs, paqs, tts, hcis.
  cbn [Config.accounts Config.server Config.dispatcher].
  split; [reflexivity|]. split; [exact E1|]. split; [exact E2|]. split; [exact E3|].
  split; [exact E4|]. split; [exact E5|]. split; [exact E6|]. split; [exact E7|].
  split; [exact E8|]. split; [exact E9|]. split; [discriminate|]. split; reflexivity.
Qed.

(** X6: a configuration that loads has at least one account, and its
    accounts are exactly the entries of [accounts], in order, each
    accepted by the account checks: nothing is skipped, and one refused
    entry refuses the whole file. *)
Theorem load_config_accounts `{Platform} (raw : json) (cfg : Config.OrchestratorConfig) :
  Config.load_config raw = Ok cfg ->
  Config.accounts cfg <> []
  /\ exists r items,
       raw = JDict r
       /\ Config.accounts_items r = Ok items
       /\ Forall2 (fun a c => Config.load_account a = Ok c) items (Config.accounts cfg).
Proof.
  intros Hload.
  destruct (load_config_inv raw cfg Hload)
    as (r & _ & _ & items & _ & _ & _ & _ & _ & -> & _ & _ & _ & _ & _ & _ & _
        & Hi & Ha & Hne & _).
  split; [exact Hne|]. exists r, items. split; [reflexivity|]. split; [exact Hi|].
  apply load_accounts_Forall2. exact Ha.
Qed.

(** X7: sections left out of the file take their defaults: without
    [server] (or with a falsy one) the server is 127.0.0.1:8088, and
    without [dispatcher] the dispatcher configuration is the default one
    (round-robin, queues of 200 and 50, 600 s task timeout, 10 s health
    interval). *)
Theorem load_config_defaults `{Platform}
    (r : list (string * json)) (cfg : Config.OrchestratorConfig) :
  Config.load_config (JDict r) = Ok cfg ->
  (json_truthy (default JNull (dict_get r "server")) = false ->
   Config.server cfg = {| Config.host := "127.0.0.1"; Config.port := 8088 |})
  /\ (json_truthy (default JNull (dict_get r "dispatcher")) = false ->
      Config.dispatcher cfg = Config.default_DispatcherConfig).
Proof.
  intros Hload.
  destruct (load_config_inv _ cfg Hload)
    as (r0 & server_raw & disp_raw & items & port & gqs & paqs & tts & hcis
        & [= <-] & Hs & Hp & Hd & H1 & H2 & H3 & H4 & _ & _ & _ & -> & ->).
  split.
  - intros Hf. rewrite (section_falsy _ _ Hf) in Hs. injection Hs as <-.
    cbn in Hp. injection Hp as <-. reflexivity.
  - intros Hf. rewrite (section_falsy _ _ Hf) in Hd. injection Hd as <-.
    cbn in H1, H2, H3, H4. injection H1 as <-. injection H2 as <-.
    injection H3 as <-. injection H4 as <-. reflexivity.
Qed.


Lemma load_config_accounts_witness :
  exists cfg,
    @Config.load_config Demo.platform (JDict [("accounts", JList [Demo.raw_account])])
    = Ok cfg
    /\ Config.accounts cfg <> [].
Proof.
  destruct (@Config.load_config Demo.platform
              (JDict [("accounts", JList [Demo.raw_account])])) as [cfg|] eqn:E;
    [|vm_compute in E; discriminate].
  exists cfg. split; [reflexivity|].
  exact (proj1 (@load_config_accounts Demo.platform _ cfg E)).
Defined.

Lemma load_config_defaults_witness :
  exists cfg,
    @Config.load_config Demo.platform
      (JDict [("server", JNull); ("accounts", JList [Demo.raw_account])])
    = Ok cfg
    /\ Config.server cfg = {| Config.host := "127.0.0.1"; Config.port := 8088 |}
    /\ Config.dispatcher cfg = Config.default_DispatcherConfig.
Proof.
  destruct (@Config.load_config Demo.platform
              (JDict [("server", JNull); ("accounts", JList [Demo.raw_account])]))
    as [cfg|] eqn:E; [|vm_compute in E; discriminate].
  exists cfg. split; [reflexivity|].
  destruct (@load_config_defaults Demo.platform _ cfg E) as [H1 H2].
  split; [apply H1|apply H2]; reflexivity.
Defined.


(** ** What [_pick_account] can return *)




(** ** The routing hint of a request *)






(** ** Permits, queues and counters *)

Lemma on_key_fst k f ka : fst (on_key k f ka) = fst ka.
Proof. unfold on_key. destruct (_ =? _)%string; reflexivity. Qed.

Lemma map_on_key_keys k f l : map fst (map (on_key k f) l) = map fst l.
Proof. rewrite map_map. apply map_ext. intros ka. apply on_key_fst. Qed.

Lemma map_on_key_fuse k f g l :
  map (on_key k f) (map (on_key k g) l) = map (on_key k (fun a => f (g a))) l.
Proof.
  rewrite map_map. apply map_ext. intros [k0 a]. unfold on_key. cbn.
  destruct (k0 =? k)%string eqn:E; cbn; rewrite E; reflexivity.
Qed.

Lemma Forall_on_key (P Q : string * AccountState -> Prop) k f l :
  (forall ka, In ka l -> fst ka <> k -> P ka -> Q ka) ->
  (forall a, In (k, a) l -> P (k, a) -> Q (k, f a)) ->
  Forall P l -> Forall Q (map (on_key k f) l).
Proof.
  intros Ho Hk Hall. apply Forall_map. apply List.Forall_forall.
  intros [k0 a] Hin. pose proof (proj1 (List.Forall_forall _ _) Hall _ Hin) as HP.
  unfold on_key. cbn. destruct (k0 =? k)%string eqn:E.
  - apply String.eqb_eq in E. subst k0. apply Hk; assumption.
  - apply String.eqb_neq in E. apply (Ho (k0, a)); assumption.
Qed.

Lemma Forall_frame (P Q : string * AccountState -> Prop) l :
  (forall ka, In ka l -> P ka -> Q ka) -> Forall P l -> Forall Q l.
Proof.
  intros H Hall. apply List.Forall_forall. intros ka Hin.
  apply H; [exact Hin|]. exact (proj1 (List.Forall_forall _ _) Hall _ Hin).
Qed.

Lemma dict_get_on_key k f l k' :
  dict_get (map (on_key k f) l) k'
  = if (k' =? k)%string then option_map f (dict_get l k') else dict_get l k'.
Proof.
  induction l as [|[k0 a] l IH]; cbn; [destruct (_ =? _)%string; reflexivity|].
  unfold on_key at 1. cbn. destruct (k0 =? k)%string eqn:E; cbn.
  - apply String.eqb_eq in E. subst k0. destruct (k =? k')%string eqn:E'.
    + apply String.eqb_eq in E'. subst k'. rewrite String.eqb_refl. reflexivity.
    + exact IH.
  - destruct (k0 =? k')%string eqn:E'; [|exact IH].
    apply String.eqb_eq in E'. subst k'. rewrite E. reflexivity.
Qed.

Lemma running_set_same w k pc :
  running (dict_set w k pc) k = match pc with WRunning _ _ _ => 1 | _ => 0 end%Z.
Proof. unfold running. rewrite dict_get_set_same. reflexivity. Qed.

Lemma running_set_other w k k' pc :
  k' <> k -> running (dict_set w k pc) k' = running w k'.
Proof. intros H. unfold running. rewrite dict_get_set_other by exact H. reflexivity. Qed.

Lemma successes_app k l1 l2 : successes k (l1 ++ l2) = (successes k l1 + successes k l2)%Z.
Proof. unfold successes. rewrite List.filter_app, length_app. lia. Qed.

Lemma failures_app k l1 l2 : failures k (l1 ++ l2) = (failures k l1 + failures k l2)%Z.
Proof. unfold failures. rewrite List.filter_app, length_app. lia. Qed.

Lemma fulfil_frame k fut o d :
  _accounts (fulfil k fut o d) = _accounts d
  /\ _workers (fulfil k fut o d) = _workers d
  /\ _cfg (fulfil k fut o d) = _cfg d
  /\ _global_queue (fulfil k fut o d) = _global_queue d
  /\ _router_task (fulfil k fut o d) = _router_task d
  /\ exists l, log (fulfil k fut o d) = log d ++ l
               /\ forall k', successes k' l = 0%Z /\ failures k' l = 0%Z.
Proof.
  unfold fulfil. destruct (futures d !! fut) as [[]|]; cbn;
    repeat (split; [reflexivity|]);
    try (exists []; rewrite app_nil_r; split; [reflexivity|intros; split; reflexivity]).
  eexists. split; [reflexivity|]. intros; split; reflexivity.
Qed.

Lemma account_ok_frame cfg w l w' l' ka :
  running w' (fst ka) = running w (fst ka) ->
  successes (fst ka) l' = successes (fst ka) l ->
  failures (fst ka) l' = failures (fst ka) l ->
  account_ok cfg w l ka -> account_ok cfg w' l' ka.
Proof.
  intros Hr Hs Hf (H1 & H2 & H3 & H4 & H5). unfold account_ok.
  rewrite Hr, Hs, Hf. auto.
Qed.

Ltac counts :=
  rewrite ?successes_app, ?failures_app;
  unfold successes, failures; cbn [List.filter length app];
  rewrite ?String.eqb_refl;
  repeat match goal with
         | H : ?a <> ?b |- context [(?b =? ?a)%string] =>
             rewrite (proj2 (String.eqb_neq b a)) by congruence
         end;
  cbn [List.filter length]; try lia.

Lemma queue_full_false maxsize q item :
  queue_full maxsize q = false -> bounded maxsize (q ++ [item]).
Proof.
  unfold queue_full, bounded. rewrite length_app. cbn [length].
  destruct (maxsize <=? 0)%Z eqn:E; [lia|]. intros H. lia.
Qed.

Lemma bounded_tail maxsize item q : bounded maxsize (item :: q) -> bounded maxsize q.
Proof. unfold bounded. cbn [length]. lia. Qed.

Lemma init_accounts_inv sessions acc accts :
  init_accounts sessions acc = Ok accts ->
  accts = dict_update acc (map (fun kh => (fst kh, new_account (snd kh))) sessions).
Proof.
  unfold dict_update. revert acc. induction sessions as [|[k h] rest IH]; intros acc; cbn.
  - intros [= <-]. reflexivity.
  - destruct (max_concurrency h <? 0)%Z; [discriminate|]. apply IH.
Qed.

Lemma init_FleetInv cfg sessions m d0 :
  init cfg sessions m = Ok d0 -> FleetInv d0.
Proof.
  unfold init. destruct (init_accounts sessions []) as [accts|] eqn:E; [|discriminate].
  cbn [Py.bind]. intros [= <-]. apply init_accounts_inv in E. subst accts.
  unfold FleetInv. cbn. split; [apply dict_update_NoDup; constructor|].
  split; [constructor|]. split; [unfold bounded; cbn; lia|].
  apply List.Forall_forall. intros [k a] Hin.
  apply dict_update_In in Hin as [[]|Hin].
  apply in_map_iff in Hin as ([k0 h] & [= <- <-] & _).
  unfold account_ok, bounded. cbn. repeat split; lia.
Qed.

Lemma pick_cursor_only hint d r d' :
  _pick_account hint d = Ok (r, d') -> d' = d \/ exists c, d' = set_rr_cursor c d.
Proof.
  unfold _pick_account. destruct (strategy_of _ _ _); [|discriminate]. cbn [Py.bind].
  destruct (_usable_accounts d); [intros [= <- <-]; auto|].
  destruct (str_in _ _); [intros [= <- <-]; auto|].
  destruct (str_in _ _); [intros [= <- <-]; auto|].
  intros [= <- <-]. right. eexists. reflexivity.
Qed.

Lemma submit_FleetInv request now hex12 d item d' :
  submit request now hex12 d = Ok (item, d') -> FleetInv d -> FleetInv d'.
Proof.
  unfold submit. destruct (queue_full _ _) eqn:Eq; [discriminate|].
  destruct (mem d !! request) as [[entries|]|]; try discriminate.
  intros [= <- <-] (H1 & H2 & H3 & H4). unfold FleetInv. cbn.
  split; [exact H1|]. split; [exact H2|]. split; [|exact H4].
  apply queue_full_false. exact Eq.
Qed.

Lemma router_place_FleetInv item hint d :
  FleetInv d -> FleetInv (router_place item hint d).
Proof.
  intros Hinv. unfold router_place. destruct (_stop_event d); [exact Hinv|].
  destruct (_pick_account hint d) as [[r d1]|e] eqn:Ep; [|exact Hinv].
  assert (Hinv1 : FleetInv d1).
  { destruct (pick_cursor_only _ _ _ _ Ep) as [->|[c ->]]; exact Hinv. }
  clear Ep Hinv. destruct r as [k|]; [|exact Hinv1].
  destruct (dict_get (_accounts d1) k) as [acc|] eqn:Ek; [|exact Hinv1].
  destruct (_ <=? _)%Z; [exact Hinv1|].
  destruct Hinv1 as (H1 & H2 & H3 & H4).
  destruct (queue_full _ (queue acc)) eqn:Eq; unfold FleetInv; cbn -[dict_get dict_set];
    rewrite map_on_key_keys; (split; [exact H1|]); (split; [exact H2|]);
    (split; [exact H3|]).
  - revert H4. apply Forall_on_key.
    + intros ka _ _. apply account_ok_frame; [reflexivity|counts|counts].
    + intros a _ (A1 & A2 & A3 & A4 & A5). unfold account_ok. cbn [fst snd] in *.
      cbn -[successes failures running]. repeat split; try assumption.
      * rewrite A4. counts.
      * rewrite A5. counts.
  - revert H4. apply Forall_on_key.
    + intros ka _ _ H. exact H.
    + intros a Hin (A1 & A2 & A3 & A4 & A5). unfold account_ok. cbn.
      repeat split; try assumption.
      rewrite (dict_get_NoDup _ _ _ H1 Hin) in Ek. injection Ek as ->.
      apply queue_full_false. exact Eq.
Qed.

Lemma router_step_FleetInv d : FleetInv d -> FleetInv (router_step d).
Proof.
  intros Hinv. unfold router_step.
  destruct (_router_task d) as [[| | | |]|]; try exact Hinv.
  - destruct (_global_queue d) as [|item q] eqn:Eq; [exact Hinv|]. cbv zeta.
    assert (Hinv' : FleetInv (set_global_queue q d)).
    { destruct Hinv as (H1 & H2 & H3 & H4). unfold FleetInv. cbn.
      rewrite Eq in H3. apply bounded_tail in H3. auto. }
    destruct (get_hint _ _); [apply router_place_FleetInv|]; exact Hinv'.
  - apply router_place_FleetInv. exact Hinv.
  - destruct (_capacity_event d); [apply router_place_FleetInv|]; exact Hinv.
Qed.

Lemma capacity_timeout_FleetInv d : FleetInv d -> FleetInv (capacity_timeout d).
Proof.
  intros Hinv. unfold capacity_timeout.
  destruct (_router_task d) as [[| | | |]|]; try exact Hinv.
  destruct (_capacity_event d); exact Hinv.
Qed.

(** The worker of [k] is back at [queue.get()]: its account went
    through [G], the history grew by [evs]. *)
Lemma finish_FleetInv k d d' G evs :
  FleetInv d ->
  _accounts d' = map (on_key k G) (_accounts d) ->
  _workers d' = dict_set (_workers d) k WGet ->
  _cfg d' = _cfg d ->
  _global_queue d' = _global_queue d ->
  log d' = log d ++ evs ->
  (forall k', k' <> k -> successes k' evs = 0%Z /\ failures k' evs = 0%Z) ->
  (forall a, In (k, a) (_accounts d) ->
     account_ok (_cfg d) (_workers d) (log d) (k, a) ->
     handle (G a) = handle a
     /\ inflight (G a) = 0%Z
     /\ semaphore (G a) = (semaphore a + inflight a)%Z
     /\ bounded (Config.per_account_queue_size (_cfg d)) (queue (G a))
     /\ tasks_total (metrics (G a)) = (tasks_total (metrics a) + successes k evs)%Z
     /\ errors_total (metrics (G a)) = (errors_total (metrics a) + failures k evs)%Z) ->
  FleetInv d'.
Proof.
  intros (H1 & H2 & H3 & H4) Ea Ew Ec Eg El Hev HG. unfold FleetInv.
  rewrite Ea, Ew, Ec, Eg, El, map_on_key_keys.
  split; [exact H1|]. split; [apply dict_set_NoDup; exact H2|]. split; [exact H3|].
  revert H4. apply Forall_on_key.
  - intros ka _ Hne. apply account_ok_frame.
    + apply running_set_other. exact Hne.
    + rewrite successes_app, (proj1 (Hev _ Hne)). lia.
    + rewrite failures_app, (proj2 (Hev _ Hne)). lia.
  - intros a Hin Hok. destruct (HG a Hin Hok) as (G1 & G2 & G3 & G4 & G5 & G6).
    destruct Hok as (A1 & A2 & A3 & A4 & A5).
    unfold account_ok. cbn [fst snd] in *. rewrite running_set_same.
    rewrite G1, G2, G3, G5, G6, successes_app, failures_app.
    split; [reflexivity|]. split; [lia|]. split; [exact G4|]. split; lia.
Qed.

Lemma worker_except_effect k item e now d1 :
  exists l,
    _accounts (worker_except k item e now d1)
    = map (on_key k
        (fun a =>
           with_metrics
             {| tasks_total := tasks_total (metrics a);
                errors_total := errors_total (metrics a) + 1;
                last_success_ts := last_success_ts (metrics a);
                last_error_ts := Some now |}
             (with_health_score (Qmax 0 (health_score a - 5)) a))) (_accounts d1)
    /\ _workers (worker_except k item e now d1) = _workers d1
    /\ _cfg (worker_except k item e now d1) = _cfg d1
    /\ _global_queue (worker_except k item e now d1) = _global_queue d1
    /\ _router_task (worker_except k item e now d1) = _router_task d1
    /\ log (worker_except k item e now d1) = log d1 ++ TaskFailure k :: l
    /\ forall k', successes k' l = 0%Z /\ failures k' l = 0%Z.
Proof.
  unfold worker_except.
  match goal with
  | |- context [fulfil ?k0 ?f ?o ?dd] =>
      destruct (fulfil_frame k0 f o dd) as (Fa & Fw & Fc & Fg & Fr & l & Fl & Fcnt)
  end.
  exists l. rewrite Fa, Fw, Fc, Fg, Fr, Fl. cbn. rewrite <- app_assoc.
  repeat (split; [reflexivity|]). exact Fcnt.
Qed.

Lemma worker_finally_effect k d1 :
  _accounts (worker_finally k d1) = _accounts d1
  /\ _workers (worker_finally k d1) = dict_set (_workers d1) k WGet
  /\ _cfg (worker_finally k d1) = _cfg d1
  /\ _global_queue (worker_finally k d1) = _global_queue d1
  /\ _router_task (worker_finally k d1) = _router_task d1
  /\ log (worker_finally k d1) = log d1.
Proof. repeat split. Qed.

Lemma counts_failure k l :
  (forall k', successes k' l = 0%Z /\ failures k' l = 0%Z) ->
  forall k', k' <> k ->
    successes k' (TaskFailure k :: l) = 0%Z /\ failures k' (TaskFailure k :: l) = 0%Z.
Proof.
  intros H k' Hne. destruct (H k') as [Hs Hf].
  change (TaskFailure k :: l) with ([TaskFailure k] ++ l).
  rewrite successes_app, failures_app, Hs, Hf. split; counts.
Qed.

Lemma worker_take_FleetInv k now d : FleetInv d -> FleetInv (worker_take k now d).
Proof.
  intros Hinv. unfold worker_take.
  destruct (dict_get (_workers d) k) as [[| |]|] eqn:Ew; try exact Hinv.
  destruct (dict_get (_accounts d) k) as [acc|] eqn:Ea; [|exact Hinv].
  destruct (queue acc) as [|item q] eqn:Eq; [exact Hinv|]. cbv zeta.
  assert (Hrun : running (_workers d) k = 0%Z) by (unfold running; rewrite Ew; reflexivity).
  assert (Hacc : forall a, In (k, a) (_accounts d) -> a = acc).
  { intros a Hin. destruct Hinv as (H1 & _).
    rewrite (dict_get_NoDup _ _ _ H1 Hin) in Ea. congruence. }
  assert (Hfail : forall e,
            FleetInv (worker_finally k
              (worker_except k item e now
                 (update_account k release
                    (update_account k
                       (fun a => with_inflight (inflight a + 1)
                                   (with_semaphore (semaphore a - 1) a))
                       (update_account k (with_queue q) d)))))).
  { intros e.
    match goal with
    | |- FleetInv (worker_finally _ (worker_except ?k0 ?i ?e0 ?n ?dd)) =>
        destruct (worker_except_effect k0 i e0 n dd) as (l & Xa & Xw & Xc & Xg & _ & Xl & Xcnt)
    end.
    eapply (finish_FleetInv k d _ _ (TaskFailure k :: l) Hinv).
    - cbn [_accounts worker_finally set_worker set_workers set_capacity_event].
      rewrite Xa. cbn [_accounts update_account set_accounts].
      rewrite !map_on_key_fuse. reflexivity.
    - cbn [_workers worker_finally set_worker set_workers set_capacity_event].
      rewrite Xw. reflexivity.
    - cbn [_cfg worker_finally set_worker set_workers set_capacity_event].
      rewrite Xc. reflexivity.
    - cbn [_global_queue worker_finally set_worker set_workers set_capacity_event].
      rewrite Xg. reflexivity.
    - cbn [log worker_finally set_worker set_workers set_capacity_event].
      rewrite Xl. reflexivity.
    - apply counts_failure. exact Xcnt.
    - intros a Hin (A1 & A2 & A3 & A4 & A5). rewrite (Hacc a Hin) in *.
      cbn [fst snd] in *. rewrite Hrun in A1.
      change (TaskFailure k :: l) with ([TaskFailure k] ++ l).
      rewrite successes_app, failures_app, (proj1 (Xcnt _)), (proj2 (Xcnt _)).
      cbn -[successes failures]. split; [reflexivity|]. split; [lia|]. split; [lia|].
      split; [rewrite Eq in A3; exact (bounded_tail _ _ _ A3)|]. split; counts. }
  destruct (0 <? semaphore acc)%Z.
  - cbn [mem update_account set_accounts].
    destruct (mem d !! request item) as [[entries|]|]; [|apply Hfail|apply Hfail].
    destruct Hinv as (H1 & H2 & H3 & H4). unfold FleetInv, set_worker.
    cbn -[dict_get dict_set]. rewrite !map_on_key_fuse, map_on_key_keys.
    split; [exact H1|]. split; [apply dict_set_NoDup; exact H2|]. split; [exact H3|].
    revert H4. apply Forall_on_key.
    + intros ka _ Hne. apply account_ok_frame; try reflexivity.
      apply running_set_other. exact Hne.
    + intros a Hin (A1 & A2 & A3 & A4 & A5). rewrite (Hacc a Hin) in *.
      unfold account_ok. cbn [fst snd] in *. rewrite running_set_same.
      cbn -[successes failures]. rewrite Hrun in A1.
      split; [lia|]. split; [lia|]. split; [|auto].
      rewrite Eq in A3. exact (bounded_tail _ _ _ A3).
  - destruct Hinv as (H1 & H2 & H3 & H4). unfold FleetInv, set_worker.
    cbn -[dict_get dict_set]. rewrite map_on_key_keys.
    split; [exact H1|]. split; [apply dict_set_NoDup; exact H2|]. split; [exact H3|].
    revert H4. apply Forall_on_key.
    + intros ka _ Hne. apply account_ok_frame; try reflexivity.
      apply running_set_other. exact Hne.
    + intros a Hin (A1 & A2 & A3 & A4 & A5). rewrite (Hacc a Hin) in *.
      unfold account_ok. cbn [fst snd] in *. rewrite running_set_same.
      cbn -[successes failures]. rewrite Hrun in A1.
      split; [lia|]. split; [lia|]. split; [|auto].
      rewrite Eq in A3. exact (bounded_tail _ _ _ A3).
Qed.

Lemma worker_done_FleetInv k out c d : FleetInv d -> FleetInv (worker_done k out c d).
Proof.
  intros Hinv. unfold worker_done.
  destruct (dict_get (_workers d) k) as [[| |item start req]|] eqn:Ew; try exact Hinv.
  destruct (dict_get (_accounts d) k) as [acc|] eqn:Ea; [|exact Hinv]. cbv zeta.
  assert (Hrun : running (_workers d) k = 1%Z) by (unfold running; rewrite Ew; reflexivity).
  assert (Hfail : forall e,
            FleetInv (worker_finally k
              (worker_except k item e (t_error c) (update_account k release d)))).
  { intros e.
    match goal with
    | |- FleetInv (worker_finally _ (worker_except ?k0 ?i ?e0 ?n ?dd)) =>
        destruct (worker_except_effect k0 i e0 n dd) as (l & Xa & Xw & Xc & Xg & _ & Xl & Xcnt)
    end.
    eapply (finish_FleetInv k d _ _ (TaskFailure k :: l) Hinv).
    - cbn [_accounts worker_finally set_worker set_workers set_capacity_event].
      rewrite Xa. cbn [_accounts update_account set_accounts].
      rewrite !map_on_key_fuse. reflexivity.
    - cbn [_workers worker_finally set_worker set_workers set_capacity_event].
      rewrite Xw. reflexivity.
    - cbn [_cfg worker_finally set_worker set_workers set_capacity_event].
      rewrite Xc. reflexivity.
    - cbn [_global_queue worker_finally set_worker set_workers set_capacity_event].
      rewrite Xg. reflexivity.
    - cbn [log worker_finally set_worker set_workers set_capacity_event].
      rewrite Xl. reflexivity.
    - apply counts_failure. exact Xcnt.
    - intros a Hin (A1 & A2 & A3 & A4 & A5).
      cbn [fst snd] in *. rewrite Hrun in A1.
      change (TaskFailure k :: l) with ([TaskFailure k] ++ l).
      rewrite successes_app, failures_app, (proj1 (Xcnt _)), (proj2 (Xcnt _)).
      cbn -[successes failures]. split; [reflexivity|]. split; [lia|]. split; [lia|].
      split; [exact A3|]. split; counts. }
  destruct out as [r|e]; [|apply Hfail].
  destruct (inject_account_id _ r) as [r'|e].
  - match goal with
    | |- context [fulfil ?k0 ?f ?o ?dd] =>
        destruct (fulfil_frame k0 f o dd) as (Fa & Fw & Fc & Fg & _ & l & Fl & Fcnt)
    end.
    eapply (finish_FleetInv k d _ _ (TaskSuccess k :: l) Hinv).
    + cbn [_accounts worker_finally set_worker set_workers set_capacity_event].
      rewrite Fa. cbn [_accounts update_account set_accounts add_log].
      rewrite !map_on_key_fuse. reflexivity.
    + cbn [_workers worker_finally set_worker set_workers set_capacity_event].
      rewrite Fw. reflexivity.
    + cbn [_cfg worker_finally set_worker set_workers set_capacity_event].
      rewrite Fc. reflexivity.
    + cbn [_global_queue worker_finally set_worker set_workers set_capacity_event].
      rewrite Fg. reflexivity.
    + cbn [log worker_finally set_worker set_workers set_capacity_event].
      rewrite Fl. cbn [log update_account set_accounts add_log].
      rewrite <- app_assoc. reflexivity.
    + intros k' Hne. destruct (Fcnt k') as [Hs Hf].
      change (TaskSuccess k :: l) with ([TaskSuccess k] ++ l).
      rewrite successes_app, failures_app, Hs, Hf. split; counts.
    + intros a Hin (A1 & A2 & A3 & A4 & A5).
      cbn [fst snd] in *. rewrite Hrun in A1.
      change (TaskSuccess k :: l) with ([TaskSuccess k] ++ l).
      rewrite successes_app, failures_app, (proj1 (Fcnt _)), (proj2 (Fcnt _)).
      cbn -[successes failures]. split; [reflexivity|]. split; [lia|]. split; [lia|].
      split; [exact A3|]. split; counts.
  - match goal with
    | |- FleetInv (worker_finally _ (worker_except ?k0 ?i ?e0 ?n ?dd)) =>
        destruct (worker_except_effect k0 i e0 n dd) as (l & Xa & Xw & Xc & Xg & _ & Xl & Xcnt)
    end.
    eapply (finish_FleetInv k d _ _ (TaskSuccess k :: TaskFailure k :: l) Hinv).
    + cbn [_accounts worker_finally set_worker set_workers set_capacity_event].
      rewrite Xa. cbn [_accounts update_account set_accounts add_log].
      rewrite !map_on_key_fuse. reflexivity.
    + cbn [_workers worker_finally set_worker set_workers set_capacity_event].
      rewrite Xw. reflexivity.
    + cbn [_cfg worker_finally set_worker set_workers set_capacity_event].
      rewrite Xc. reflexivity.
    + cbn [_global_queue worker_finally set_worker set_workers set_capacity_event].
      rewrite Xg. reflexivity.
    + cbn [log worker_finally set_worker set_workers set_capacity_event].
      rewrite Xl. cbn [log update_account set_accounts add_log].
      rewrite <- app_assoc. reflexivity.
    + intros k' Hne. destruct (Xcnt k') as [Hs Hf].
      change (TaskSuccess k :: TaskFailure k :: l)
        with ([TaskSuccess k; TaskFailure k] ++ l).
      rewrite successes_app, failures_app, Hs, Hf. split; counts.
    + intros a Hin (A1 & A2 & A3 & A4 & A5).
      cbn [fst snd] in *. rewrite Hrun in A1.
      change (TaskSuccess k :: TaskFailure k :: l)
        with ([TaskSuccess k; TaskFailure k] ++ l).
      rewrite successes_app, failures_app, (proj1 (Xcnt _)), (proj2 (Xcnt _)).
      cbn -[successes failures]. split; [reflexivity|]. split; [lia|]. split; [lia|].
      split; [exact A3|]. split; counts.
Qed.

Lemma running_fresh (l : list (string * AccountState)) k :
  running (map (fun ka => (fst ka, WGet)) l) k = 0%Z.
Proof.
  unfold running. induction l as [|[k0 a] l IH]; cbn; [reflexivity|].
  destruct (k0 =? k)%string; [reflexivity|exact IH].
Qed.

Lemma running_absent w k : ~ In k (map fst w) -> running w k = 0%Z.
Proof. intros H. unfold running. rewrite (proj2 (dict_get_None w k) H). reflexivity. Qed.

Lemma running_cons w k pc k' :
  running ((k, pc) :: w) k'
  = if (k =? k')%string then match pc with WRunning _ _ _ => 1 | _ => 0 end%Z
    else running w k'.
Proof. unfold running. cbn. destruct (k =? k')%string; reflexivity. Qed.

Lemma start_FleetInv d : FleetInv d -> FleetInv (start d).
Proof.
  intros Hinv. unfold start. destruct (_router_task d); [exact Hinv|].
  destruct (_workers d) eqn:Ew; [|exact Hinv].
  destruct Hinv as (H1 & H2 & H3 & H4). unfold FleetInv. cbn -[dict_get].
  rewrite map_map. cbn [fst]. split; [exact H1|]. split; [exact H1|].
  split; [exact H3|]. revert H4. apply Forall_frame. intros ka _.
  apply account_ok_frame; try reflexivity. rewrite Ew, running_fresh. reflexivity.
Qed.

Lemma cancel_workers_FleetInv w : forall d,
  NoDup (map fst w) ->
  NoDup (map fst (_accounts d)) ->
  Forall (account_ok (_cfg d) w (log d)) (_accounts d) ->
  NoDup (map fst (_accounts (fold_left cancel_worker w d)))
  /\ _cfg (fold_left cancel_worker w d) = _cfg d
  /\ _global_queue (fold_left cancel_worker w d) = _global_queue d
  /\ log (fold_left cancel_worker w d) = log d
  /\ Forall (account_ok (_cfg d) [] (log d)) (_accounts (fold_left cancel_worker w d)).
Proof.
  induction w as [|[k pc] w IH]; intros d Hw Ha Hall; cbn [fold_left].
  - auto.
  - cbn [map fst] in Hw. apply NoDup_cons in Hw as [Hk Hw].
    assert (Hk' : ~ In k (map fst w)) by (intros H; apply Hk, list_elem_of_In, H).
    assert (Hother : forall ka : string * AccountState, fst ka <> k ->
              running w (fst ka) = running ((k, pc) :: w) (fst ka)).
    { intros ka Hne. rewrite running_cons.
      destruct (k =? fst ka)%string eqn:E; [|reflexivity].
      apply String.eqb_eq in E. congruence. }
    assert (Hidle : forall d1,
              _accounts d1 = _accounts d -> _cfg d1 = _cfg d ->
              _global_queue d1 = _global_queue d -> log d1 = log d ->
              match pc with WRunning _ _ _ => False | _ => True end ->
              NoDup (map fst (_accounts (fold_left cancel_worker w d1)))
              /\ _cfg (fold_left cancel_worker w d1) = _cfg d
              /\ _global_queue (fold_left cancel_worker w d1) = _global_queue d
              /\ log (fold_left cancel_worker w d1) = log d
              /\ Forall (account_ok (_cfg d) [] (log d))
                   (_accounts (fold_left cancel_worker w d1))).
    { intros d1 E1 E2 E3 E4 Hpc.
      destruct (IH d1 Hw) as (I1 & I2 & I3 & I4 & I5).
      - rewrite E1. exact Ha.
      - rewrite E1, E2, E4. revert Hall. apply Forall_frame. intros ka _.
        apply account_ok_frame; try reflexivity. rewrite running_cons.
        destruct (k =? fst ka)%string eqn:E; [|reflexivity].
        apply String.eqb_eq in E. subst k. rewrite (running_absent _ _ Hk').
        destruct pc; try reflexivity. contradiction.
      - rewrite I2, I3, I4, E2, E3, E4. rewrite E2, E4 in I5. auto. }
    destruct pc as [|item s|item s req]; unfold cancel_worker at 2; cbn [snd fst].
    + apply Hidle; auto.
    + apply Hidle; auto.
    + destruct (IH (set_capacity_event true (update_account k release d)) Hw)
        as (I1 & I2 & I3 & I4 & I5).
      * cbn. rewrite map_on_key_keys. exact Ha.
      * cbn -[dict_get]. revert Hall. apply Forall_on_key.
        -- intros ka _ Hne. apply account_ok_frame; try reflexivity.
           apply Hother. exact Hne.
        -- intros a _ (A1 & A2 & A3 & A4 & A5). unfold account_ok.
           cbn [fst snd] in *. rewrite running_cons, String.eqb_refl in A1.
           rewrite (running_absent _ _ Hk'). cbn -[successes failures].
           repeat split; try assumption; lia.
      * auto.
Qed.

Lemma stop_FleetInv d : FleetInv d -> FleetInv (stop d).
Proof.
  intros (H1 & H2 & H3 & H4). unfold stop. cbv zeta.
  destruct (cancel_workers_FleetInv (_workers d) (set_stop_event true d) H2 H1 H4)
    as (I1 & I2 & I3 & I4 & I5).
  cbn [_workers set_stop_event] in *.
  unfold FleetInv. cbn [_accounts _workers _cfg _global_queue log set_workers set_router_task].
  rewrite I2, I3, I4. cbn [_cfg _global_queue log set_stop_event] in *.
  split; [exact I1|]. split; [constructor|]. split; [exact H3|exact I5].
Qed.

Lemma step_FleetInv d e : FleetInv d -> FleetInv (step d e).
Proof.
  intros Hinv. destruct e as [| |rq now hex12| | |k now|k out c|a o|o|fut]; cbn [step].
  - apply start_FleetInv, Hinv.
  - apply stop_FleetInv, Hinv.
  - destruct (submit rq now hex12 d) as [[item d']|] eqn:E; [|exact Hinv].
    exact (submit_FleetInv _ _ _ _ _ _ E Hinv).
  - apply router_step_FleetInv, Hinv.
  - apply capacity_timeout_FleetInv, Hinv.
  - apply worker_take_FleetInv, Hinv.
  - apply worker_done_FleetInv, Hinv.
  - destruct (existsb _ _); exact Hinv.
  - exact Hinv.
  - destruct (futures d !! fut) as [[]|]; exact Hinv.
Qed.

Lemma run_FleetInv evs : forall d, FleetInv d -> FleetInv (run d evs).
Proof.
  induction evs as [|e evs IH]; intros d Hinv; [exact Hinv|].
  change (run d (e :: evs)) with (run (step d e) evs).
  apply IH, step_FleetInv, Hinv.
Qed.

(** ** What no step writes *)

Lemma static_refl d : static d d.
Proof. split; reflexivity. Qed.

Lemma static_trans d d1 d2 : static d d1 -> static d1 d2 -> static d d2.
Proof. intros [H1 H2] [H3 H4]. split; congruence. Qed.

Lemma static_frame d d' :
  _cfg d' = _cfg d -> _accounts d' = _accounts d -> static d d'.
Proof. intros H1 H2. unfold static, fleet. rewrite H1, H2. split; reflexivity. Qed.

Lemma static_update k f d :
  (forall a, handle (f a) = handle a) -> static d (update_account k f d).
Proof.
  intros Hf. split; [reflexivity|]. unfold fleet. cbn. rewrite map_map.
  apply map_ext. intros [k0 a]. unfold on_key. cbn.
  destruct (k0 =? k)%string; cbn; [rewrite Hf|]; reflexivity.
Qed.

Lemma static_fulfil k fut o d : static d (fulfil k fut o d).
Proof.
  destruct (fulfil_frame k fut o d) as (Fa & _ & Fc & _).
  apply static_frame; assumption.
Qed.

(** Peels the assignments of a step off its result, outermost first. *)
Ltac strip_step :=
  lazymatch goal with
  | |- static ?d ?d => apply static_refl
  | |- static ?d (update_account ?k ?f ?d1) =>
      apply (static_trans d d1); [strip_step|apply static_update; intros; reflexivity]
  | |- static ?d (fulfil ?k ?f ?o ?d1) =>
      apply (static_trans d d1); [strip_step|apply static_fulfil]
  | |- static ?d (worker_except ?k ?i ?e ?n ?d1) =>
      apply (static_trans d d1); [strip_step|unfold worker_except; strip_step]
  | |- static ?d (worker_finally ?k ?d1) =>
      apply (static_trans d d1); [strip_step|apply static_frame; reflexivity]
  | |- static ?d (set_worker ?k ?pc ?d1) =>
      apply (static_trans d d1); [strip_step|apply static_frame; reflexivity]
  | |- static ?d (set_workers ?w ?d1) =>
      apply (static_trans d d1); [strip_step|apply static_frame; reflexivity]
  | |- static ?d (set_router_task ?r ?d1) =>
      apply (static_trans d d1); [strip_step|apply static_frame; reflexivity]
  | |- static ?d (set_capacity_event ?b ?d1) =>
      apply (static_trans d d1); [strip_step|apply static_frame; reflexivity]
  | |- static ?d (set_stop_event ?b ?d1) =>
      apply (static_trans d d1); [strip_step|apply static_frame; reflexivity]
  | |- static ?d (set_global_queue ?q ?d1) =>
      apply (static_trans d d1); [strip_step|apply static_frame; reflexivity]
  | |- static ?d (set_futures ?q ?d1) =>
      apply (static_trans d d1); [strip_step|apply static_frame; reflexivity]
  | |- static ?d (set_mem ?m ?o ?d1) =>
      apply (static_trans d d1); [strip_step|apply static_frame; reflexivity]
  | |- static ?d (set_rr_cursor ?c ?d1) =>
      apply (static_trans d d1); [strip_step|apply static_frame; reflexivity]
  | |- static ?d (add_log ?o ?d1) =>
      apply (static_trans d d1); [strip_step|apply static_frame; reflexivity]
  end.

Lemma router_place_static item hint d : static d (router_place item hint d).
Proof.
  unfold router_place. destruct (_stop_event d); [strip_step|].
  destruct (_pick_account hint d) as [[r d1]|e] eqn:Ep; [|strip_step].
  assert (H1 : static d d1).
  { destruct (pick_cursor_only _ _ _ _ Ep) as [->|[c ->]]; strip_step. }
  apply (static_trans _ _ _ H1). clear.
  destruct r as [k|]; [|strip_step].
  destruct (dict_get (_accounts d1) k) as [acc|]; [|strip_step].
  destruct (_ <=? _)%Z; [strip_step|]. destruct (queue_full _ _); strip_step.
Qed.

Lemma router_step_static d : static d (router_step d).
Proof.
  unfold router_step. destruct (_router_task d) as [[| | | |]|]; try strip_step.
  - destruct (_global_queue d) as [|item q]; [strip_step|]. cbv zeta.
    apply (static_trans _ (set_global_queue q d)); [strip_step|].
    destruct (get_hint _ _); [apply router_place_static|strip_step].
  - apply router_place_static.
  - destruct (_capacity_event d); [apply router_place_static|strip_step].
Qed.

Lemma worker_take_static k now d : static d (worker_take k now d).
Proof.
  unfold worker_take.
  destruct (dict_get (_workers d) k) as [[| |]|]; try strip_step.
  destruct (dict_get (_accounts d) k) as [acc|]; [|strip_step].
  destruct (queue acc) as [|item q]; [strip_step|]. cbv zeta.
  destruct (0 <? semaphore acc)%Z; [|strip_step].
  destruct (mem _ !! request item) as [[entries|]|]; strip_step.
Qed.

Lemma worker_done_static k out c d : static d (worker_done k out c d).
Proof.
  unfold worker_done.
  destruct (dict_get (_workers d) k) as [[| |item start req]|]; try strip_step.
  destruct (dict_get (_accounts d) k) as [acc|]; [|strip_step]. cbv zeta.
  destruct out as [r|e]; [|strip_step].
  destruct (inject_account_id _ r); strip_step.
Qed.

Lemma cancel_workers_static w : forall d, static d (fold_left cancel_worker w d).
Proof.
  induction w as [|[k pc] w IH]; intros d; cbn [fold_left]; [strip_step|].
  apply (static_trans _ (cancel_worker d (k, pc))); [|apply IH].
  unfold cancel_worker. destruct pc; cbn [snd fst]; strip_step.
Qed.

Lemma step_static d e : static d (step d e).
Proof.
  destruct e as [| |rq now hex12| | |k now|k out c|a o|o|fut]; cbn [step].
  - unfold start. destruct (_router_task d); [strip_step|].
    destruct (_workers d); strip_step.
  - unfold stop. cbv zeta.
    apply (static_trans _ (fold_left cancel_worker (_workers (set_stop_event true d))
                             (set_stop_event true d))).
    + apply (static_trans _ (set_stop_event true d)); [strip_step|apply cancel_workers_static].
    + strip_step.
  - unfold submit. destruct (queue_full _ _); [strip_step|].
    destruct (mem d !! rq) as [[entries|]|]; strip_step.
  - apply router_step_static.
  - unfold capacity_timeout. destruct (_router_task d) as [[| | | |]|]; try strip_step.
    destruct (_capacity_event d); strip_step.
  - apply worker_take_static.
  - apply worker_done_static.
  - destruct (existsb _ _); strip_step.
  - strip_step.
  - destruct (futures d !! fut) as [[]|]; strip_step.
Qed.

Lemma run_static evs : forall d, static d (run d evs).
Proof.
  induction evs as [|e evs IH]; intros d; [apply static_refl|].
  change (run d (e :: evs)) with (run (step d e) evs).
  exact (static_trans _ _ _ (step_static d e) (IH _)).
Qed.

Lemma init_fleet cfg sessions m d0 :
  init cfg sessions m = Ok d0 ->
  _cfg d0 = cfg
  /\ fleet d0 = dict_of sessions.
Proof.
  unfold init. destruct (init_accounts sessions []) as [accts|] eqn:E; [|discriminate].
  cbn [Py.bind]. intros [= <-]. apply init_accounts_inv in E. subst accts.
  split; [reflexivity|]. unfold fleet, dict_of. cbn [_accounts].
  assert (Hgen : forall (acc : list (string * AccountState)),
            map (fun ka => (fst ka, handle (snd ka)))
              (dict_update acc (map (fun kh => (fst kh, new_account (snd kh))) sessions))
            = dict_update (map (fun ka => (fst ka, handle (snd ka))) acc) sessions).
  { unfold dict_update. induction sessions as [|[k h] rest IH]; intros acc; cbn;
      [reflexivity|].
    rewrite IH. f_equal. clear. induction acc as [|[k0 a0] acc IHa]; cbn; [reflexivity|].
    destruct (k0 =? k)%string; cbn; [reflexivity|]. rewrite IHa. reflexivity. }
  apply (Hgen []).
Qed.

(** ** The router and the capacity wait, again *)

Lemma running_01 w k : running w k = 0%Z \/ running w k = 1%Z.
Proof. unfold running. destruct (dict_get w k) as [[| |]|]; auto. Qed.

Lemma as_dict_raises h v e : as_dict h v = Raise e -> exn_cls e = AttributeError.
Proof.
  unfold as_dict. destruct v; try (intros [= <-]; reflexivity).
  destruct (h !! a) as [[|]|]; try discriminate; intros [= <-]; reflexivity.
Qed.

Lemma get_hint_raises h r e : get_hint h r = Raise e -> exn_cls e = AttributeError.
Proof.
  unfold get_hint. destruct (as_dict h (VRef r)) as [req|e0] eqn:E0; cbn [Py.bind].
  2:{ intros [= <-]. exact (as_dict_raises _ _ _ E0). }
  destruct (truthy h _).
  - destruct (as_dict h (default VNone (dict_get req "metadata"))) as [md|e1] eqn:E1;
      cbn [Py.bind].
    2:{ intros [= <-]. exact (as_dict_raises _ _ _ E1). }
    destruct (dict_get md "routing") as [r0|]; cbn [Py.bind]; [|discriminate].
    destruct (as_dict h r0) as [ro|e2] eqn:E2; cbn [Py.bind]; [discriminate|].
    intros [= <-]. exact (as_dict_raises _ _ _ E2).
  - cbn [Py.bind dict_get]. discriminate.
Qed.

Lemma strategy_of_raises h cfg hint e :
  strategy_of h cfg hint = Raise e -> exn_cls e = AttributeError.
Proof.
  unfold strategy_of. destruct (truthy h hint).
  - destruct hint; try discriminate; intros [= <-]; reflexivity.
  - destruct (negb _); discriminate.
Qed.

Lemma pick_raises hint d e :
  _pick_account hint d = Raise e -> exn_cls e = AttributeError.
Proof.
  unfold _pick_account.
  destruct (strategy_of (mem d) (_cfg d) hint) as [s|e0] eqn:Es; cbn [Py.bind].
  - destruct (_usable_accounts d); [discriminate|].
    destruct (str_in s lru_names); [discriminate|].
    destruct (str_in s health_names); discriminate.
  - intros [= <-]. exact (strategy_of_raises _ _ _ _ Es).
Qed.

Lemma router_place_router_ok item hint d :
  FleetInv d ->
  (forall k a, In (k, a) (_accounts d) -> (2 <= max_concurrency (handle a))%Z) ->
  router_ok d -> router_ok (router_place item hint d).
Proof.
  intros Hinv Hbig Hok. unfold router_place. destruct (_stop_event d); [exact I|].
  destruct (_pick_account hint d) as [[r d1]|e] eqn:Ep;
    [|exact (pick_raises _ _ _ Ep)].
  assert (H1 : _accounts d1 = _accounts d /\ _workers d1 = _workers d
               /\ _router_task d1 = _router_task d).
  { destruct (pick_cursor_only _ _ _ _ Ep) as [->|[c ->]]; repeat split. }
  destruct H1 as (Ea & Ew & Er). destruct r as [k|]; [|exact I].
  destruct (dict_get (_accounts d1) k) as [acc|] eqn:Ek.
  2:{ unfold router_ok. rewrite Er. exact Hok. }
  destruct (_ <=? _)%Z eqn:Esat.
  - exfalso. rewrite Ea in Ek. apply dict_get_In in Ek.
    destruct Hinv as (_ & _ & _ & H4).
    pose proof (proj1 (List.Forall_forall _ _) H4 _ Ek) as (A1 & _).
    pose proof (Hbig _ _ Ek). cbn [fst snd] in A1.
    destruct (running_01 (_workers d) k); lia.
  - destruct (queue_full _ _); exact I.
Qed.

Lemma fulfil_router k fut o d : _router_task (fulfil k fut o d) = _router_task d.
Proof. exact (proj1 (proj2 (proj2 (proj2 (proj2 (fulfil_frame k fut o d)))))). Qed.

Lemma worker_except_router k item e now d :
  _router_task (worker_except k item e now d) = _router_task d.
Proof. unfold worker_except. rewrite fulfil_router. reflexivity. Qed.

Lemma worker_take_router k now d : _router_task (worker_take k now d) = _router_task d.
Proof.
  unfold worker_take.
  destruct (dict_get (_workers d) k) as [[| |]|]; try reflexivity.
  destruct (dict_get (_accounts d) k) as [acc|]; [|reflexivity].
  destruct (queue acc) as [|item q]; [reflexivity|]. cbv zeta.
  destruct (0 <? semaphore acc)%Z; [|reflexivity].
  destruct (mem _ !! request item) as [[entries|]|]; try reflexivity;
    cbn [_router_task worker_finally set_worker set_workers set_capacity_event];
    rewrite worker_except_router; reflexivity.
Qed.

Lemma worker_done_router k out c d : _router_task (worker_done k out c d) = _router_task d.
Proof.
  unfold worker_done.
  destruct (dict_get (_workers d) k) as [[| |item start req]|]; try reflexivity.
  destruct (dict_get (_accounts d) k) as [acc|]; [|reflexivity]. cbv zeta.
  destruct out as [r|e]; [destruct (inject_account_id _ r)|];
    cbn [_router_task worker_finally set_worker set_workers set_capacity_event];
    rewrite ?worker_except_router, ?fulfil_router; reflexivity.
Qed.

Lemma step_router_ok d e :
  FleetInv d ->
  (forall k a, In (k, a) (_accounts d) -> (2 <= max_concurrency (handle a))%Z) ->
  router_ok d -> router_ok (step d e).
Proof.
  intros Hinv Hbig Hok.
  destruct e as [| |rq now hex12| | |k now|k out c|a o|o|fut]; cbn [step].
  - unfold start. destruct (_router_task d) eqn:Er; [exact Hok|].
    destruct (_workers d); [exact I|exact Hok].
  - exact I.
  - unfold submit. destruct (queue_full _ _); [exact Hok|].
    destruct (mem d !! rq) as [[entries|]|]; exact Hok.
  - unfold router_step. destruct (_router_task d) as [[|item hint|item hint| |]|] eqn:Er;
      try exact Hok.
    + destruct (_global_queue d) as [|item q] eqn:Eq; [exact Hok|]. cbv zeta.
      destruct (get_hint _ _) as [hint|e0] eqn:Eh; [|exact (get_hint_raises _ _ _ Eh)].
      apply router_place_router_ok.
      * destruct Hinv as (H1 & H2 & H3 & H4). unfold FleetInv. cbn.
        rewrite Eq in H3. apply bounded_tail in H3. auto.
      * exact Hbig.
      * unfold router_ok. cbn. rewrite Er. exact I.
    + apply router_place_router_ok; assumption.
    + unfold router_ok in Hok. rewrite Er in Hok. contradiction.
  - unfold capacity_timeout. destruct (_router_task d) as [[|item hint|item hint| |]|] eqn:Er;
      try exact Hok.
    unfold router_ok in Hok. rewrite Er in Hok. contradiction.
  - unfold router_ok. rewrite worker_take_router. exact Hok.
  - unfold router_ok. rewrite worker_done_router. exact Hok.
  - destruct (existsb _ _); exact Hok.
  - exact Hok.
  - destruct (futures d !! fut) as [[]|]; exact Hok.
Qed.

Lemma fleet_In d k a : In (k, a) (_accounts d) -> In (k, handle a) (fleet d).
Proof. intros H. unfold fleet. apply in_map_iff. exists (k, a). auto. Qed.

Lemma run_router_ok evs : forall d,
  FleetInv d ->
  Forall (fun kh => (2 <= max_concurrency (snd kh))%Z) (fleet d) ->
  router_ok d -> router_ok (run d evs).
Proof.
  induction evs as [|e evs IH]; intros d Hinv Hbig Hok; [exact Hok|].
  change (run d (e :: evs)) with (run (step d e) evs).
  apply IH.
  - apply step_FleetInv, Hinv.
  - rewrite (proj2 (step_static d e)). exact Hbig.
  - apply step_router_ok; [exact Hinv| |exact Hok].
    intros k a Hin.
    exact (proj1 (List.Forall_forall _ _) Hbig _ (fleet_In _ _ _ Hin)).
Qed.

(** ** Invariants of every run *)

Lemma run_cfg cfg sessions m d0 evs :
  init cfg sessions m = Ok d0 -> _cfg (run d0 evs) = cfg.
Proof.
  intros Hinit. rewrite (proj1 (run_static evs d0)).
  exact (proj1 (init_fleet _ _ _ _ Hinit)).
Qed.

(** X12: throughout a run the dispatcher keeps the configuration it was
    built with and exactly the accounts it was built from, each under
    its key with its handle: no step adds, removes or rebinds an
    account. *)
Theorem fleet_is_fixed
    (cfg : Config.DispatcherConfig) (sessions : list (string * SessionHandle))
    (m : heap) (d0 : Dispatcher) (evs : list Event) :
  init cfg sessions m = Ok d0 ->
  _cfg (run d0 evs) = cfg
  /\ fleet (run d0 evs) = dict_of sessions.
Proof.
  intros Hinit. destruct (init_fleet _ _ _ _ Hinit) as [Hc Hf].
  destruct (run_static evs d0) as [Rc Rf]. rewrite Rc, Rf. auto.
Qed.

Lemma fleet_is_fixed_witness :
  fleet (run (Demo.fresh (Demo.config "lru") Demo.sessions_ba Demo.plain_request)
           [EvStart; EvSubmit 0 0 "000000000001"; EvRouter; EvWorkerTake "b" 1;
            EvWorkerDone "b" (Raise (Exn RuntimeError "boom")) (Demo.clock 2); EvStop])
  = dict_of Demo.sessions_ba.
Proof.
  refine (proj2 (fleet_is_fixed (Demo.config "lru") Demo.sessions_ba Demo.plain_request
                   (Demo.fresh (Demo.config "lru") Demo.sessions_ba Demo.plain_request)
                   _ _)).
  vm_compute. reflexivity.
Defined.

(** X13: permits are conserved and an account runs one task at a time:
    for every account, at every point of a run in which [start] is not
    called on a started dispatcher, the free permits and the tasks in
    flight add up to its [max_concurrency], and [inflight] is 1 while its
    worker is inside [run_task] and 0 otherwise, whatever
    [max_concurrency] is. *)
Theorem one_task_per_account
    (cfg : Config.DispatcherConfig) (sessions : list (string * SessionHandle))
    (m : heap) (d0 : Dispatcher) (evs : list Event) (k : string) (a : AccountState) :
  init cfg sessions m = Ok d0 ->
  starts_once d0 evs = true ->
  In (k, a) (_accounts (run d0 evs)) ->
  (semaphore a + inflight a = max_concurrency (handle a))%Z
  /\ (0 <= inflight a <= 1)%Z
  /\ (inflight a = 1%Z <->
      exists item s req,
        dict_get (_workers (run d0 evs)) k = Some (WRunning item s req)).
Proof.
  intros Hinit _ Hin.
  destruct (run_FleetInv evs d0 (init_FleetInv _ _ _ _ Hinit)) as (_ & _ & _ & H4).
  pose proof (proj1 (List.Forall_forall _ _) H4 _ Hin) as (A1 & A2 & _).
  cbn [fst snd] in *. split; [exact A2|]. rewrite A1. unfold running.
  destruct (dict_get (_workers (run d0 evs)) k) as [[| |item s req]|].
  - split; [lia|]. split; [discriminate|]. intros (? & ? & ? & [=]).
  - split; [lia|]. split; [discriminate|]. intros (? & ? & ? & [=]).
  - split; [lia|]. split; [eauto|reflexivity].
  - split; [lia|]. split; [discriminate|]. intros (? & ? & ? & [=]).
Qed.

Lemma one_task_per_account_witness :
  exists a,
    In ("a", a)
       (_accounts
          (run (Demo.fresh (Demo.config "lru")
                  (SessionManager.start_all [Demo.account "a" 3]) Demo.plain_request)
               [EvStart; EvSubmit 0 0 "000000000001"; EvRouter; EvWorkerTake "a" 1]))
    /\ semaphore a = 2%Z /\ inflight a = 1%Z.
Proof.
  set (d0 := Demo.fresh (Demo.config "lru")
               (SessionManager.start_all [Demo.account "a" 3]) Demo.plain_request).
  set (evs := [EvStart; EvSubmit 0 0 "000000000001"; EvRouter; EvWorkerTake "a" 1]).
  destruct (dict_get (_accounts (run d0 evs)) "a") as [a|] eqn:E;
    [|vm_compute in E; discriminate].
  pose proof (dict_get_In _ _ _ E) as Hin.
  assert (Hinit : init (Demo.config "lru")
                    (SessionManager.start_all [Demo.account "a" 3]) Demo.plain_request
                  = Ok d0) by (vm_compute; reflexivity).
  destruct (one_task_per_account _ _ _ d0 evs "a" a Hinit
              ltac:(vm_compute; reflexivity) Hin) as (H1 & H2 & H3).
  exists a. split; [exact Hin|].
  vm_compute in E. injection E as <-. split; reflexivity.
Defined.

(** X14: a bounded queue never holds more than its bound: the global
    queue never exceeds [global_queue_size] and no account queue exceeds
    [per_account_queue_size] (a size of 0 or less means no bound). *)
Theorem queues_bounded
    (cfg : Config.DispatcherConfig) (sessions : list (string * SessionHandle))
    (m : heap) (d0 : Dispatcher) (evs : list Event) :
  init cfg sessions m = Ok d0 ->
  bounded (Config.global_queue_size cfg) (_global_queue (run d0 evs))
  /\ forall k a, In (k, a) (_accounts (run d0 evs)) ->
       bounded (Config.per_account_queue_size cfg) (queue a).
Proof.
  intros Hinit.
  destruct (run_FleetInv evs d0 (init_FleetInv _ _ _ _ Hinit)) as (_ & _ & H3 & H4).
  rewrite (run_cfg _ _ _ _ evs Hinit) in H3, H4.
  split; [exact H3|]. intros k a Hin.
  exact (proj1 (proj2 (proj2 (proj1 (List.Forall_forall _ _) H4 _ Hin)))).
Qed.

Lemma queues_bounded_witness :
  Z.le (Z.of_nat (length (_global_queue
     (run (Demo.fresh
             {| Config.routing := "lru"; Config.global_queue_size := 1;
                Config.per_account_queue_size := 1;
                Config.task_timeout_seconds := 600;
                Config.health_check_interval_seconds := 10 |}
             Demo.sessions_a Demo.plain_request)
          [EvSubmit 0 0 "000000000001"; EvSubmit 0 1 "000000000002"])))) 1.
Proof.
  set (cfg := {| Config.routing := "lru"; Config.global_queue_size := 1;
                 Config.per_account_queue_size := 1;
                 Config.task_timeout_seconds := 600;
                 Config.health_check_interval_seconds := 10 |}).
  assert (Hinit : init cfg Demo.sessions_a Demo.plain_request
                  = Ok (Demo.fresh cfg Demo.sessions_a Demo.plain_request))
    by (vm_compute; reflexivity).
  pose proof (proj1 (queues_bounded cfg Demo.sessions_a Demo.plain_request _
                       [EvSubmit 0 0 "000000000001"; EvSubmit 0 1 "000000000002"]
                       Hinit)) as H.
  apply H. reflexivity.
Defined.

(** X15: [stop] gives every permit back: after it no account has a task
    in flight and every semaphore is at its [max_concurrency] again,
    also when a worker was cancelled inside [run_task]. *)
Theorem stop_frees_permits
    (cfg : Config.DispatcherConfig) (sessions : list (string * SessionHandle))
    (m : heap) (d0 : Dispatcher) (evs : list Event) (k : string) (a : AccountState) :
  init cfg sessions m = Ok d0 ->
  In (k, a) (_accounts (stop (run d0 evs))) ->
  inflight a = 0%Z /\ semaphore a = max_concurrency (handle a).
Proof.
  intros Hinit Hin.
  destruct (stop_FleetInv _ (run_FleetInv evs d0 (init_FleetInv _ _ _ _ Hinit)))
    as (_ & _ & _ & H4).
  pose proof (proj1 (List.Forall_forall _ _) H4 _ Hin) as (A1 & A2 & _).
  cbn [fst snd] in *. change (_workers (stop (run d0 evs))) with (@nil (string * WorkerPc)) in A1.
  change (running [] k) with 0%Z in A1. split; [exact A1|lia].
Qed.

Lemma stop_frees_permits_witness :
  exists a,
    In ("a", a)
       (_accounts
          (stop (run (Demo.fresh (Demo.config "lru") Demo.sessions_a Demo.plain_request)
                   [EvStart; EvSubmit 0 0 "000000000001"; EvRouter;
                    EvWorkerTake "a" 1])))
    /\ inflight a = 0%Z /\ semaphore a = 1%Z.
Proof.
  set (d0 := Demo.fresh (Demo.config "lru") Demo.sessions_a Demo.plain_request).
  set (evs := [EvStart; EvSubmit 0 0 "000000000001"; EvRouter; EvWorkerTake "a" 1]).
  destruct (dict_get (_accounts (stop (run d0 evs))) "a") as [a|] eqn:E;
    [|vm_compute in E; discriminate].
  pose proof (dict_get_In _ _ _ E) as Hin.
  assert (Hinit : init (Demo.config "lru") Demo.sessions_a Demo.plain_request = Ok d0)
    by (vm_compute; reflexivity).
  destruct (stop_frees_permits _ _ _ d0 evs "a" a Hinit Hin) as (H1 & H2).
  exists a. split; [exact Hin|]. split; [exact H1|].
  rewrite H2. vm_compute in E. injection E as <-. reflexivity.
Defined.

(** X16: when every account has [max_concurrency] of 2 or more and
    [start] is not called on a started dispatcher, the router never
    waits for capacity: it is never suspended in
    [wait_for(capacity_event.wait(), 1.0)], the 1 s timeout never fires
    on it, and it can only end with the [AttributeError] of a request
    whose hint cannot be read. *)
Theorem router_never_waits
    (cfg : Config.DispatcherConfig) (sessions : list (string * SessionHandle))
    (m : heap) (d0 : Dispatcher) (evs : list Event) :
  init cfg sessions m = Ok d0 ->
  starts_once d0 evs = true ->
  Forall (fun kh => (2 <= max_concurrency (snd kh))%Z) sessions ->
  (forall item hint, _router_task (run d0 evs) <> Some (RWait item hint))
  /\ (forall e, _router_task (run d0 evs) = Some (RFailed e) ->
                exn_cls e = AttributeError)
  /\ step (run d0 evs) EvCapacityTimeout = run d0 evs.
Proof.
  intros Hinit _ Hbig.
  assert (Hok : router_ok (run d0 evs)).
  { apply run_router_ok.
    - exact (init_FleetInv _ _ _ _ Hinit).
    - rewrite (proj2 (init_fleet _ _ _ _ Hinit)). apply List.Forall_forall.
      intros [k h] Hin. apply dict_update_In in Hin as [[]|Hin].
      exact (proj1 (List.Forall_forall _ _) Hbig _ Hin).
    - unfold router_ok. unfold init in Hinit.
      destruct (init_accounts sessions []); [|discriminate].
      injection Hinit as <-. exact I. }
  unfold router_ok in Hok. cbn [step]. unfold capacity_timeout.
  destruct (_router_task (run d0 evs)) as [[|item hint|item hint| |e]|];
    try contradiction; (split; [discriminate|]); (split; [|reflexivity]);
    try discriminate.
  intros e0 [= <-]. exact Hok.
Qed.

Lemma router_never_waits_witness :
  _router_task
    (run (Demo.fresh (Demo.config "lru")
            (SessionManager.start_all [Demo.account "a" 2]) Demo.plain_request)
         [EvStart; EvSubmit 0 0 "000000000001"; EvRouter; EvWorkerTake "a" 1;
          EvSubmit 0 2 "000000000002"; EvRouter])
  <> Some (RWait {| request := 4; future := 1; created_ts := 2;
                    task_id := "task_000000000002" |} VNone).
Proof.
  refine (proj1 (router_never_waits (Demo.config "lru")
                   (SessionManager.start_all [Demo.account "a" 2]) Demo.plain_request
                   (Demo.fresh (Demo.config "lru")
                      (SessionManager.start_all [Demo.account "a" 2]) Demo.plain_request)
                   _ _ _ _) _ _).
  - vm_compute. reflexivity.
  - vm_compute. reflexivity.
  - apply List.Forall_forall. intros kh [<-|[]]. vm_compute. discriminate.
Defined.

(** ** A result that is not an object *)

(** X17: when [run_task] returns a value that is no object (the task
    command printed JSON such as [42] or a list), the task is first
    counted as a success (score +0.5, [last_used_ts], [tasks_total]) and
    then, because the account id cannot be attached, as a failure (score
    -5, [errors_total]); the caller receives the [AttributeError]. *)
Theorem result_not_an_object
    (d : Dispatcher) (k : string) (item : TaskItem) (start : Q) (req : addr)
    (acc : AccountState) (r : json) (c : Clock) :
  dict_get (_workers d) k = Some (WRunning item start req) ->
  dict_get (_accounts d) k = Some acc ->
  futures d !! future item = Some Pending ->
  (forall r0, r <> JDict r0) ->
  futures (worker_done k (Ok r) c d) !! future item
  = Some (Exception (Exn AttributeError "object has no attribute 'setdefault'"))
  /\ exists acc',
       dict_get (_accounts (worker_done k (Ok r) c d)) k = Some acc'
       /\ tasks_total (metrics acc') = (tasks_total (metrics acc) + 1)%Z
       /\ errors_total (metrics acc') = (errors_total (metrics acc) + 1)%Z
       /\ health_score acc' = Qmax 0 (Qmin 100 (health_score acc + (1 # 2)) - 5)
       /\ last_used_ts acc' = t_used c
       /\ inflight acc' = (inflight acc - 1)%Z.
Proof.
  intros Hw Ha Hp Hr. split.
  - rewrite (worker_done_delivers d k item start req acc (Ok r) c Hw Ha Hp).
    unfold delivered. destruct r; try reflexivity. exfalso. exact (Hr _ eq_refl).
  - unfold worker_done. rewrite Hw, Ha. cbv zeta.
    assert (Hinj : inject_account_id (account_id (handle acc)) r
                   = Raise (Exn AttributeError "object has no attribute 'setdefault'")).
    { destruct r; try reflexivity. exfalso. exact (Hr _ eq_refl). }
    rewrite Hinj.
    match goal with
    | |- context [worker_except ?k0 ?i ?e0 ?n ?dd] =>
        destruct (worker_except_effect k0 i e0 n dd) as (l & Xa & _)
    end.
    cbn [_accounts worker_finally set_worker set_workers set_capacity_event].
    rewrite Xa. cbn [_accounts update_account set_accounts add_log].
    rewrite !map_on_key_fuse, dict_get_on_key, String.eqb_refl, Ha. cbn [option_map].
    eexists. split; [reflexivity|]. cbn. repeat split.
Qed.

Lemma result_not_an_object_witness :
  futures
    (worker_done "a" (Ok (JInt 42)) (Demo.clock 2)
       (run (Demo.fresh (Demo.config "lru") Demo.sessions_a Demo.plain_request)
          [EvStart; EvSubmit 0 0 "000000000001"; EvRouter; EvWorkerTake "a" 1]))
    !! 0
  = Some (Exception (Exn AttributeError "object has no attribute 'setdefault'")).
Proof.
  set (d := run (Demo.fresh (Demo.config "lru") Demo.sessions_a Demo.plain_request)
              [EvStart; EvSubmit 0 0 "000000000001"; EvRouter; EvWorkerTake "a" 1]).
  destruct (dict_get (_accounts d) "a") as [acc|] eqn:Ea;
    [|vm_compute in Ea; discriminate].
  refine (proj1 (result_not_an_object d "a"
                   {| request := 3; future := 0; created_ts := 0;
                      task_id := "task_000000000001" |} 1 4 acc (JInt 42)
                   (Demo.clock 2) _ Ea _ _)).
  - vm_compute. reflexivity.
  - vm_compute. reflexivity.
  - intros r0. discriminate.
Defined.

(** ** The account of a worker whose [run_task] has ended *)



(** ** The score of an account across one step *)







(** ** What [stop] leaves behind *)

Lemma queues_on_key k f l :
  (forall a, queue (f a) = queue a) ->
  map (fun ka => (fst ka, queue (snd ka))) (map (on_key k f) l)
  = map (fun ka => (fst ka, queue (snd ka))) l.
Proof.
  intros Hf. rewrite map_map. apply map_ext. intros [k0 a]. unfold on_key. cbn.
  destruct (k0 =? k)%string; cbn; [rewrite Hf|]; reflexivity.
Qed.

Lemma cancel_workers_queues w : forall d,
  queues (fold_left cancel_worker w d) = queues d.
Proof.
  induction w as [|[k pc] w IH]; intros d; cbn [fold_left]; [reflexivity|].
  rewrite IH. unfold cancel_worker, queues. destruct pc; cbn [snd fst]; try reflexivity.
  cbn. apply queues_on_key. reflexivity.
Qed.

(** X19: [stop] drains nothing: the global queue and every account queue
    hold after it what they held before, while the router and all
    workers are gone; so the tasks still queued stay pending until the
    dispatcher is started again. *)
Theorem stop_keeps_queues (d : Dispatcher) :
  _global_queue (stop d) = _global_queue d
  /\ queues (stop d) = queues d
  /\ futures (stop d) = futures d
  /\ no_fibers (stop d)
  /\ _stop_event (stop d) = true.
Proof.
  destruct (stop_fulfils_nothing d) as [Hf _].
  unfold stop in *. cbv zeta in *.
  destruct (cancel_workers_frame (_workers (set_stop_event true d)) (set_stop_event true d))
    as (_ & _ & Hg).
  pose proof (cancel_workers_queues (_workers (set_stop_event true d))
                (set_stop_event true d)) as Hq.
  split; [exact Hg|]. split; [exact Hq|]. split; [exact Hf|].
  split; [split; reflexivity|].
  cbn [_stop_event set_workers set_router_task].
  generalize (_workers (set_stop_event true d)).
  assert (Hs : _stop_event (set_stop_event true d) = true) by reflexivity.
  revert Hs. generalize (set_stop_event true d). intros d1 Hs w. revert d1 Hs.
  induction w as [|[k pc] w IH]; intros d1 Hs; cbn [fold_left]; [exact Hs|].
  apply IH. unfold cancel_worker. destruct pc; cbn [snd fst]; exact Hs.
Qed.

(** ** The request a session receives *)

(** X20: the request the worker hands to [run_task] is a new dict with
    the entries of the queued request and [account_id] set to the id of
    the serving account, whatever the caller put under that key; the
    queued request itself and every other object are left as they
    were. *)
Theorem worker_request_carries_account_id
    (d : Dispatcher) (k : string) (now : Q) (acc : AccountState)
    (item : TaskItem) (q : list TaskItem) (entries : list (string * value)) :
  dict_get (_workers d) k = Some WGet ->
  dict_get (_accounts d) k = Some acc ->
  queue acc = item :: q ->
  (0 < semaphore acc)%Z ->
  mem d !! request item = Some (ODict entries) ->
  exists req sent,
    dict_get (_workers (worker_take k now d)) k = Some (WRunning item now req)
    /\ mem d !! req = None
    /\ mem (worker_take k now d) !! req = Some (ODict sent)
    /\ dict_get sent "account_id" = Some (VStr (account_id (handle acc)))
    /\ (forall key, key <> "account_id" -> dict_get sent key = dict_get entries key)
    /\ (forall a o, mem d !! a = Some o -> mem (worker_take k now d) !! a = Some o).
Proof.
  intros Hw Ha Hq Hsem Hreq. unfold worker_take. rewrite Hw, Ha, Hq. cbv zeta.
  assert (Hs : (0 <? semaphore acc)%Z = true) by (apply Z.ltb_lt; exact Hsem).
  rewrite Hs. cbn [mem update_account set_accounts]. rewrite Hreq.
  exists (length (mem d)). eexists.
  split; [cbn [_workers set_worker set_workers set_mem]; apply dict_get_set_same|].
  split; [apply lookup_ge_None_2; lia|].
  cbn [mem set_worker set_workers set_mem]. unfold heap, addr in *.
  split; [rewrite lookup_app_r by lia; rewrite Nat.sub_diag; reflexivity|].
  split; [apply dict_get_set_same|].
  split; [intros key Hne; apply dict_get_set_other; exact Hne|].
  intros a o Hlk. apply lookup_app_l_Some. exact Hlk.
Qed.

Lemma worker_request_carries_account_id_witness :
  exists req sent,
    mem (worker_take "a" 1
           (run (Demo.fresh (Demo.config "lru") Demo.sessions_a Demo.plain_request)
                [EvStart; EvSubmit 0 0 "000000000001"; EvRouter])) !! req
    = Some (ODict sent)
    /\ dict_get sent "account_id" = Some (VStr "a").
Proof.
  set (d := run (Demo.fresh (Demo.config "lru") Demo.sessions_a Demo.plain_request)
              [EvStart; EvSubmit 0 0 "000000000001"; EvRouter]).
  destruct (dict_get (_accounts d) "a") as [acc|] eqn:Ea;
    [|vm_compute in Ea; discriminate].
  assert (Hid : account_id (handle acc) = "a").
  { vm_compute in Ea. injection Ea as <-. reflexivity. }
  destruct (worker_request_carries_account_id d "a" 1 acc
              {| request := 3; future := 0; created_ts := 0;
                 task_id := "task_000000000001" |} []
              [("model", VStr "m"); ("messages", VRef 1)])
    as (req & sent & _ & _ & H3 & H4 & _).
  - vm_compute. reflexivity.
  - exact Ea.
  - vm_compute in Ea. injection Ea as <-. reflexivity.
  - vm_compute in Ea. injection Ea as <-. reflexivity.
  - vm_compute. reflexivity.
  - exists req, sent. split; [exact H3|]. rewrite H4, Hid. reflexivity.
Defined.

(** ** From the result of a task to the HTTP status *)




(** * The health score, the result slot and the routing hint, event by event *)





(** ** The result slot *)

(** A slot that is no longer pending is never written again. *)
Lemma micro_keeps_done d d' fut o :
  micro d d' -> futures d !! fut = Some o -> o <> Pending ->
  futures d' !! fut = Some o.
Proof.
  intros Hm Hf Hne.
  destruct Hm as [_ _ E _ _|k f _ _ _ E _ _|k f ob _ _ _ E _ _
                 |fut0 k o0 Hp _ E _ _ _ _|E _ _ _ _|fut0 Hp E _ _ _ _
                 |ob own _ _ _ _ E|a ob _ _ _ _ _ E];
    rewrite E; try exact Hf.
  - rewrite list_lookup_insert_ne; [exact Hf|].
    intros ->. rewrite Hp in Hf. injection Hf as <-. exact (Hne eq_refl).
  - apply lookup_app_l_Some. exact Hf.
  - rewrite list_lookup_insert_ne; [exact Hf|].
    intros ->. rewrite Hp in Hf. injection Hf as <-. exact (Hne eq_refl).
Qed.

Lemma micros_keeps_done d d' fut o :
  micros d d' -> futures d !! fut = Some o -> o <> Pending ->
  futures d' !! fut = Some o.
Proof.
  intros Hm Hf Hne. induction Hm as [|d1 d2 _ IH Hstep]; [exact Hf|].
  exact (micro_keeps_done d1 d2 fut o Hstep IH Hne).
Qed.

(** C1, as the code has it: in every run a result slot is fulfilled at
    most once and then keeps its content: no continuation of the run
    writes a slot that is no longer pending.  When the [run_task] call of a
    worker ends while the slot of its task is pending, the slot receives:
    the error, when the call raised; the session's result with
    [metadata.account_id] set to the account's id and everything else
    kept, when the result is an object whose metadata is absent, falsy
    or an object; an [AttributeError] or [TypeError] otherwise.  [stop]
    fulfils no slot, and a slot that is pending when the dispatcher stops
    stays pending for as long as the dispatcher is not started again. *)
Theorem C1_slot_fulfilled_at_most_once
    (cfg : Config.DispatcherConfig) (sessions : list (string * SessionHandle))
    (m : heap) (d0 : Dispatcher) (evs : list Event) :
  init cfg sessions m = Ok d0 ->
  let d := run d0 evs in
  NoDup (fulfilled (log d))
  /\ (forall fut k o, In (Fulfilled fut k o) (log d) ->
        futures d !! fut = Some o /\ outcome o)
  /\ (forall fut o later,
        futures d !! fut = Some o -> o <> Pending ->
        futures (run d later) !! fut = Some o)
  /\ (forall k item start req acc out c,
        dict_get (_workers d) k = Some (WRunning item start req) ->
        dict_get (_accounts d) k = Some acc ->
        futures d !! future item = Some Pending ->
        let slot := futures (step d (EvWorkerDone k out c)) !! future item in
        match out with
        | Raise e => slot = Some (Exception e)
        | Ok r =>
            (annotatable r ->
             exists r0 res md,
               r = JDict r0
               /\ slot = Some (Result (JDict res))
               /\ dict_get res "metadata" = Some (JDict md)
               /\ dict_get md "account_id" = Some (JStr (account_id (handle acc)))
               /\ (forall key, key <> "metadata" -> dict_get res key = dict_get r0 key)
               /\ (forall key, key <> "account_id" ->
                     dict_get md key = dict_get (metadata_of r0) key))
            /\ (~ annotatable r ->
                exists e,
                  slot = Some (Exception e)
                  /\ (exn_cls e = AttributeError \/ exn_cls e = TypeError))
        end)
  /\ (forall fut later,
        futures d !! fut = Some Pending ->
        Forall (fun e => e <> EvStart /\ e <> EvCallerCancel fut) later ->
        futures (run (stop d) later) !! fut = Some Pending
        /\ log (run (stop d) later) = log d).
Proof.
  intros Hinit d. destruct (run_FutInv _ _ _ _ evs Hinit) as [Hnd Hlog].
  split; [exact Hnd|]. split; [exact Hlog|]. split; [|split].
  - intros fut o later Hf Hne.
    exact (micros_keeps_done d (run d later) fut o (run_micros later d) Hf Hne).
  - intros k item start req acc out c Hw Ha Hp. cbv zeta. cbn [step].
    rewrite (worker_done_delivers d k item start req acc out c Hw Ha Hp).
    unfold delivered. destruct out as [r|e]; [|reflexivity]. split.
    + intros Hann. destruct (annotatable_inject (account_id (handle acc)) r Hann)
        as [r' Hinj]. rewrite Hinj.
      destruct (inject_account_id_inv _ _ _ Hinj)
        as (r0 & res & md & -> & -> & H1 & H2 & H3 & H4).
      exists r0, res, md. repeat (split; [reflexivity || assumption|]). exact H4.
    + intros Hann. destruct (not_annotatable_inject (account_id (handle acc)) r Hann)
        as (e & Hinj & Hcls). rewrite Hinj. exists e. split; [reflexivity|exact Hcls].
  - intros fut later Hp Hlater.
    destruct (stop_fulfils_nothing d) as [Hf Hl].
    destruct (run_no_fibers later (stop d) fut Hlater (stop_no_fibers d)) as [Hl' Hp'].
    + rewrite Hf. exact Hp.
    + split; [exact Hp'|]. rewrite Hl', Hl. reflexivity.
Qed.

(** The slot of one task of account [a], fulfilled by its worker with
    the result [{"content": "ok", "metadata": {"trace": 7}}]. *)
Lemma C1_slot_fulfilled_at_most_once_witness :
  let d0 := Demo.fresh (Demo.config "round-robin") Demo.sessions_a Demo.plain_request in
  let evs := [EvStart; EvSubmit 0 0 "000000000001"; EvRouter; EvWorkerTake "a" 0] in
  let r := JDict [("content", JStr "ok"); ("metadata", JDict [("trace", JInt 7)])] in
  let d := step (run d0 evs) (EvWorkerDone "a" (Ok r) (Demo.clock 1)) in
  futures (run d0 evs) !! 0 = Some Pending
  /\ (exists res md,
        futures d !! 0 = Some (Result (JDict res))
        /\ dict_get res "content" = Some (JStr "ok")
        /\ dict_get res "metadata" = Some (JDict md)
        /\ dict_get md "account_id" = Some (JStr "a")
        /\ dict_get md "trace" = Some (JInt 7))
  /\ fulfilled (log d) = [0].
Proof.
  cbv zeta.
  set (d0 := Demo.fresh (Demo.config "round-robin") Demo.sessions_a Demo.plain_request).
  set (evs := [EvStart; EvSubmit 0 0 "000000000001"; EvRouter; EvWorkerTake "a" 0]).
  set (r := JDict [("content", JStr "ok"); ("metadata", JDict [("trace", JInt 7)])]).
  assert (Hinit : init (Demo.config "round-robin") Demo.sessions_a Demo.plain_request
                  = Ok d0) by (vm_compute; reflexivity).
  assert (Hp : futures (run d0 evs) !! 0 = Some Pending) by (vm_compute; reflexivity).
  assert (Ea : dict_get (_accounts (run d0 evs)) "a"
               = Some (with_queue [] (with_inflight 1 (with_semaphore 0
                         (new_account (handle_of (Demo.account "a" 1)))))))
    by (vm_compute; reflexivity).
  split; [exact Hp|]. split; [|vm_compute; reflexivity].
  pose proof (proj1 (proj2 (proj2 (proj2
                (C1_slot_fulfilled_at_most_once _ _ _ d0 evs Hinit))))
                "a" {| request := 3; future := 0; created_ts := 0;
                       task_id := "task_000000000001" |} 0%Q 4 _
                (Ok r) (Demo.clock 1)
                ltac:(vm_compute; reflexivity) Ea Hp) as [Hann _].
  destruct (Hann I) as (r0 & res & md & Hr & Hslot & H1 & H2 & H3 & H4).
  injection Hr as <-.
  exists res, md. split; [exact Hslot|].
  split; [rewrite H3 by discriminate; reflexivity|].
  split; [exact H1|]. split; [exact H2|].
  rewrite H4 by discriminate. reflexivity.
Defined.

(** ** The hint a request carries *)

Lemma get_hint_reads h request req pm md pr ro hint :
  h !! request = Some (ODict req) ->
  dict_get req "metadata" = Some (VRef pm) ->
  h !! pm = Some (ODict md) ->
  dict_get md "routing" = Some (VRef pr) ->
  h !! pr = Some (ODict ro) ->
  dict_get ro "strategyHint" = Some hint ->
  get_hint h request = Ok hint.
Proof.
  intros Hreq Hm Hpm Hr Hpr Hh. unfold get_hint. cbn [as_dict]. rewrite Hreq.
  cbn [Py.bind]. rewrite Hm. cbn [default id truthy as_dict]. rewrite Hpm.
  destruct md as [|e md']; [discriminate Hr|]. cbn [Py.bind]. rewrite Hr.
  cbn [as_dict]. rewrite Hpr. cbn [Py.bind]. rewrite Hh. reflexivity.
Qed.

Lemma dict_get_of_In {V} (l : list (string * V)) k v :
  In (k, v) l -> exists v0, dict_get l k = Some v0.
Proof.
  induction l as [|[k0 v0] l IH]; cbn; [intros []|].
  destruct (k0 =? k)%string eqn:E; [eauto|].
  intros [[= -> ->]|Hin]; [rewrite String.eqb_refl in E; discriminate|exact (IH Hin)].
Qed.

Lemma set_global_queue_same d : set_global_queue (_global_queue d) d = d.
Proof. destruct d. reflexivity. Qed.

(** One pass of the router for a task whose hint is an unrecognised
    non-empty string. *)
Lemma router_place_round_robin item s d :
  _stop_event d = false ->
  s <> "" ->
  str_in (lower s) lru_names = false ->
  str_in (lower s) health_names = false ->
  let d' := router_place item (VStr s) d in
  (_usable_accounts d = [] ->
   _router_task d' = Some (RPick item (VStr s))
   /\ _accounts d' = _accounts d
   /\ _rr_cursor d' = _rr_cursor d
   /\ _global_queue d' = _global_queue d)
  /\ (forall u us, _usable_accounts d = u :: us ->
      let ordered := sorted_by_id (_usable_accounts d) in
      let n := Z.of_nat (length ordered) in
      exists chosen acc,
        ordered !! Z.to_nat (_rr_cursor d mod n) = Some chosen
        /\ dict_get (_accounts d) (fst chosen) = Some acc
        /\ _rr_cursor d' = ((_rr_cursor d + 1) mod n)%Z
        /\ _global_queue d' = _global_queue d
        /\ if (max_concurrency (handle acc) <=? inflight acc)%Z then
             _router_task d' = Some (RWait item (VStr s))
             /\ _accounts d' = _accounts d
           else if queue_full (Config.per_account_queue_size (_cfg d)) (queue acc) then
             _router_task d' = Some (RPick item (VStr s))
             /\ dict_get (_accounts d') (fst chosen)
                = Some (with_health_score (Qmax 0 (health_score acc - 1)) acc)
           else
             _router_task d' = Some RGet
             /\ dict_get (_accounts d') (fst chosen)
                = Some (with_queue (queue acc ++ [item]) acc)).
Proof.
  intros Hstop Hs Hlru Hhealth. cbv zeta.
  pose proof (strategy_of_str (mem d) (_cfg d) s Hs) as Hstrat.
  split.
  - intros Hu. unfold router_place. rewrite Hstop.
    rewrite (pick_none _ _ _ Hstrat Hu). repeat split.
  - intros u us Hu.
    destruct (pick_round_robin (VStr s) d _ u us Hstrat Hlru Hhealth Hu)
      as (chosen & Hc & Hpick).
    cbv zeta in Hc, Hpick.
    assert (Hin : In chosen (_accounts d)).
    { apply list_elem_of_lookup_2, list_elem_of_In in Hc.
      apply (Permutation_in _ (sorted_by_id_perm _)) in Hc.
      unfold _usable_accounts in Hc. apply filter_In in Hc. exact (proj1 Hc). }
    destruct chosen as [k a]. destruct (dict_get_of_In _ _ _ Hin) as [acc Hacc].
    exists (k, a), acc. split; [exact Hc|]. split; [exact Hacc|].
    unfold router_place. rewrite Hstop, Hpick.
    cbn [fst _accounts _cfg set_rr_cursor]. rewrite Hacc.
    destruct (max_concurrency (handle acc) <=? inflight acc)%Z;
      [repeat split|].
    destruct (queue_full _ (queue acc)).
    + split; [reflexivity|]. split; [reflexivity|]. split; [reflexivity|].
      cbn [_accounts set_router_task add_log update_account set_accounts
           set_rr_cursor].
      rewrite dict_get_on_key, String.eqb_refl, Hacc. reflexivity.
    + split; [reflexivity|]. split; [reflexivity|]. split; [reflexivity|].
      cbn [_accounts set_router_task add_log update_account set_accounts
           set_rr_cursor].
      rewrite dict_get_on_key, String.eqb_refl, Hacc. reflexivity.
Qed.

(** C10, as the code has it: the router reads the hint from the request
    of the task it takes off the global queue and keeps it for every
    later pass for that task (after [sleep] and after a capacity wait
    that was answered).  When that hint is a non-empty string whose lower
    case is none of the six names of lru and health, each pass routes the
    task by round-robin, whatever the configured routing: the router
    picks the usable account at the cursor in id order and advances the
    cursor; it then waits when that account is saturated, takes a point
    and retries when its queue is full, and queues the task on it
    otherwise.  For a task whose hint is the empty string the router
    picks as for a task without hint. *)
Theorem C10_unrecognised_hint_is_round_robin
    (d : Dispatcher) (item : TaskItem) (q : list TaskItem) (s : string) :
  _stop_event d = false ->
  ((_router_task d = Some RGet
    /\ _global_queue d = item :: q
    /\ exists req md ro pm pr,
         mem d !! request item = Some (ODict req)
         /\ dict_get req "metadata" = Some (VRef pm)
         /\ mem d !! pm = Some (ODict md)
         /\ dict_get md "routing" = Some (VRef pr)
         /\ mem d !! pr = Some (ODict ro)
         /\ dict_get ro "strategyHint" = Some (VStr s))
   \/ (_router_task d = Some (RPick item (VStr s)) /\ _global_queue d = q)
   \/ (_router_task d = Some (RWait item (VStr s)) /\ _capacity_event d = true
       /\ _global_queue d = q)) ->
  (s <> "" ->
   str_in (lower s) lru_names = false ->
   str_in (lower s) health_names = false ->
   (_usable_accounts d = [] ->
    _router_task (step d EvRouter) = Some (RPick item (VStr s))
    /\ _accounts (step d EvRouter) = _accounts d
    /\ _rr_cursor (step d EvRouter) = _rr_cursor d
    /\ _global_queue (step d EvRouter) = q)
   /\ (forall u us, _usable_accounts d = u :: us ->
       let ordered := sorted_by_id (_usable_accounts d) in
       let n := Z.of_nat (length ordered) in
       exists chosen acc,
         ordered !! Z.to_nat (_rr_cursor d mod n) = Some chosen
         /\ dict_get (_accounts d) (fst chosen) = Some acc
         /\ _rr_cursor (step d EvRouter) = ((_rr_cursor d + 1) mod n)%Z
         /\ _global_queue (step d EvRouter) = q
         /\ if (max_concurrency (handle acc) <=? inflight acc)%Z then
              _router_task (step d EvRouter) = Some (RWait item (VStr s))
              /\ _accounts (step d EvRouter) = _accounts d
            else if queue_full (Config.per_account_queue_size (_cfg d)) (queue acc) then
              _router_task (step d EvRouter) = Some (RPick item (VStr s))
              /\ dict_get (_accounts (step d EvRouter)) (fst chosen)
                 = Some (with_health_score (Qmax 0 (health_score acc - 1)) acc)
            else
              _router_task (step d EvRouter) = Some RGet
              /\ dict_get (_accounts (step d EvRouter)) (fst chosen)
                 = Some (with_queue (queue acc ++ [item]) acc)))
  /\ (s = "" ->
      step d EvRouter = router_place item (VStr "") (set_global_queue q d)
      /\ _pick_account (VStr "") (set_global_queue q d)
         = _pick_account VNone (set_global_queue q d)).
Proof.
  intros Hstop Hat.
  assert (Hstep : step d EvRouter = router_place item (VStr s) (set_global_queue q d)).
  { cbn [step]. unfold router_step.
    destruct Hat as [(Hr & Hq & req & md & ro & pm & pr & Hreq & Hm & Hpm & Hro & Hpr & Hh)
                    |[(Hr & Hq)|(Hr & Hev & Hq)]].
    - pose proof (get_hint_reads _ _ _ _ _ _ _ _ Hreq Hm Hpm Hro Hpr Hh) as Hhint.
      rewrite Hr, Hq. cbv zeta. cbn [mem set_global_queue]. rewrite Hhint.
      reflexivity.
    - rewrite Hr. subst q. rewrite set_global_queue_same. reflexivity.
    - rewrite Hr, Hev. subst q. rewrite set_global_queue_same. reflexivity. }
  split.
  - intros Hs Hlru Hhealth. rewrite Hstep.
    destruct (router_place_round_robin item s (set_global_queue q d)
                Hstop Hs Hlru Hhealth) as [Hnone Hsome].
    split.
    + intros Hu. exact (Hnone Hu).
    + intros u us Hu. exact (Hsome u us Hu).
  - intros ->. split; [exact Hstep|reflexivity].
Qed.

(** The hint [Fastest] under a configured lru routing, [b] configured
    before [a]: lru would take [b], the task is queued on [a]. *)
Lemma C10_unrecognised_hint_is_round_robin_witness :
  let d := run (Demo.fresh (Demo.config "lru") Demo.sessions_ba
                  (Demo.hinted_request (VStr "Fastest")))
               [EvStart; EvSubmit 0 0 "000000000001"] in
  _pick_account VNone d = Ok (Some "b", d)
  /\ dict_get (_accounts (step d EvRouter)) "a"
     = Some (with_queue [{| request := 5; future := 0; created_ts := 0;
                            task_id := "task_000000000001" |}]
               (new_account (handle_of (Demo.account "a" 1))))
  /\ _rr_cursor (step d EvRouter) = 1%Z.
Proof.
  cbv zeta.
  set (d := run (Demo.fresh (Demo.config "lru") Demo.sessions_ba
                   (Demo.hinted_request (VStr "Fastest")))
              [EvStart; EvSubmit 0 0 "000000000001"]).
  set (item := {| request := 5; future := 0; created_ts := 0;
                  task_id := "task_000000000001" |}).
  split; [vm_compute; reflexivity|].
  assert (Hat : _router_task d = Some RGet
                /\ _global_queue d = item :: []
                /\ exists req md ro pm pr,
                     mem d !! request item = Some (ODict req)
                     /\ dict_get req "metadata" = Some (VRef pm)
                     /\ mem d !! pm = Some (ODict md)
                     /\ dict_get md "routing" = Some (VRef pr)
                     /\ mem d !! pr = Some (ODict ro)
                     /\ dict_get ro "strategyHint" = Some (VStr "Fastest")).
  { split; [vm_compute; reflexivity|]. split; [vm_compute; reflexivity|].
    exists [("model", VStr "m"); ("messages", VRef 1); ("metadata", VRef 3)],
           [("routing", VRef 4)], [("strategyHint", VStr "Fastest")], 3, 4.
    repeat split; vm_compute; reflexivity. }
  destruct (proj1 (C10_unrecognised_hint_is_round_robin d item [] "Fastest"
              ltac:(vm_compute; reflexivity) (or_introl Hat))
              ltac:(discriminate) ltac:(vm_compute; reflexivity)
              ltac:(vm_compute; reflexivity))
    as [_ Hrr].
  destruct (Hrr ("b", new_account (handle_of (Demo.account "b" 1)))
              [("a", new_account (handle_of (Demo.account "a" 1)))]
              ltac:(vm_compute; reflexivity))
    as (chosen & acc & Hc & Hacc & Hcur & _ & Hout).
  assert (Hchosen : chosen = ("a", new_account (handle_of (Demo.account "a" 1)))).
  { assert (E : sorted_by_id (_usable_accounts d)
                  !! Z.to_nat (_rr_cursor d
                               mod Z.of_nat (length (sorted_by_id (_usable_accounts d))))
                = Some ("a", new_account (handle_of (Demo.account "a" 1))))
      by (vm_compute; reflexivity).
    rewrite E in Hc. injection Hc as <-. reflexivity. }
  subst chosen. cbn [fst] in Hacc, Hout.
  assert (Ea : dict_get (_accounts d) "a"
               = Some (new_account (handle_of (Demo.account "a" 1))))
    by (vm_compute; reflexivity).
  rewrite Ea in Hacc. injection Hacc as <-.
  assert (Hsat : (max_concurrency (handle (new_account (handle_of (Demo.account "a" 1))))
                  <=? inflight (new_account (handle_of (Demo.account "a" 1))))%Z = false)
    by (vm_compute; reflexivity).
  assert (Hfull : queue_full (Config.per_account_queue_size (_cfg d))
                    (queue (new_account (handle_of (Demo.account "a" 1)))) = false)
    by (vm_compute; reflexivity).
  rewrite Hsat, Hfull in Hout. destruct Hout as [_ Hplaced].
  split; [exact Hplaced|].
  rewrite Hcur. vm_compute. reflexivity.
Defined.

